(** * Recipe manager: the PDF export routine and the recipe form

    A shallow embedding of [src/lib/pdf-utils.ts] (the paginated report
    builder [generateRecipePDF]), of the [getDifficultyText] helpers of the
    list and detail screens, and of [onSubmit] of
    [src/components/RecipeForm.tsx], with the properties the written
    specification states about them.

    Conventions of the embedding:
    - a JavaScript string is the list of its UTF-16 code units;
    - a JavaScript number is an exact rational ([Q]); the rounding of IEEE
      doubles is not modelled;
    - an optional field ([x?: T]) is an [option];
    - imperative code runs in a state monad whose state survives a [throw],
      so that what a failed run left behind can be inspected;
    - the jsPDF document, the browser and the remote store are outside the
      repository: what they compute is a parameter of the development and
      any of their calls may throw, as decided by an arbitrary oracle. *)

From Stdlib Require Import QArith ZArith NArith List String Ascii Bool Lia Lqa.
From Stdlib Require Import DecimalString Sorted.
Import ListNotations.

Set Implicit Arguments.

(* ===================================================================== *)
(** * JavaScript strings, numbers and truthiness *)
(* ===================================================================== *)

Module Js.

Definition code_unit := N.
Definition jsstring := list code_unit.

(** An ASCII literal, as its code units. *)
Definition lit (s : string) : jsstring :=
  map N_of_ascii (list_ascii_of_string s).

Definition code_unit_eqb : code_unit -> code_unit -> bool := N.eqb.

(** [a === b] on strings. *)
Fixpoint str_eqb (a b : jsstring) : bool :=
  match a, b with
  | [], [] => true
  | x :: a', y :: b' => code_unit_eqb x y && str_eqb a' b'
  | _, _ => false
  end.

(** Character classes [0-9], [A-Z], [a-z]. *)
Definition is_digit (c : code_unit) : bool := (48 <=? c)%N && (c <=? 57)%N.
Definition is_upper (c : code_unit) : bool := (65 <=? c)%N && (c <=? 90)%N.
Definition is_lower (c : code_unit) : bool := (97 <=? c)%N && (c <=? 122)%N.

(** The class [[a-z0-9]] under the [i] flag (no [u] flag): a code unit
    matches when its canonical (upper-case) form is the canonical form of a
    member, and canonicalisation never maps a code unit of 128 or more to
    one below 128, so the class is exactly [[A-Za-z0-9]]. *)
Definition matches_a_z0_9_i (c : code_unit) : bool :=
  is_lower c || is_upper c || is_digit c.

(** [s.replace(/[^...]/g, r)] for a negated one-character class: with the
    [g] flag every code unit outside the class is replaced by [r]. *)
Definition replace_outside (cls : code_unit -> bool) (r s : jsstring)
  : jsstring :=
  flat_map (fun c => if cls c then [c] else r) s.

Definition ascii_lower (c : code_unit) : code_unit :=
  if is_upper c then (c + 32)%N else c.

Definition is_ascii (c : code_unit) : bool := (c <? 128)%N.

(** [String.prototype.slice(i, j)] for [0 <= i <= j]. *)
Definition slice (i j : nat) (s : jsstring) : jsstring :=
  firstn (j - i) (skipn i s).

(** White space and line terminators, as [String.prototype.trim] strips
    them. *)
Definition is_white_space (c : code_unit) : bool :=
  ((9 <=? c) && (c <=? 13) || (c =? 32) || (c =? 160) || (c =? 5760)
   || (8192 <=? c) && (c <=? 8202) || (c =? 8232) || (c =? 8233)
   || (c =? 8239) || (c =? 8287) || (c =? 12288) || (c =? 65279))%N.

Fixpoint trim_start (s : jsstring) : jsstring :=
  match s with
  | c :: s' => if is_white_space c then trim_start s' else s
  | [] => []
  end.

Definition trim (s : jsstring) : jsstring :=
  rev (trim_start (rev (trim_start s))).

(** Truthiness of an optional string: [undefined] and [''] are falsy. *)
Definition truthy_str (o : option jsstring) : bool :=
  match o with
  | Some (_ :: _) => true
  | _ => false
  end.

(** Truthiness of an optional number: [undefined] and [0] are falsy. *)
Definition truthy_num (o : option Q) : bool :=
  match o with
  | Some q => negb (Qeq_bool q 0)
  | None => false
  end.

(** [o || d] on an optional number. *)
Definition num_or (o : option Q) (d : Q) : Q :=
  match o with
  | Some q => if truthy_num o then q else d
  | None => d
  end.

(** [o || d] on an optional string. *)
Definition str_or (o : option jsstring) (d : jsstring) : jsstring :=
  match o with
  | Some s => if truthy_str o then s else d
  | None => d
  end.

Definition decimal (z : Z) : jsstring :=
  lit (NilZero.string_of_int (Z.to_int z)).

(** What the engine computes and the embedding leaves open. *)
Section Engine.

(** [String.prototype.toLowerCase] on a string that is not pure ASCII
    (Unicode case mapping, context sensitive). *)
Variable unicode_lower : jsstring -> jsstring.

(** [Number::toString] on a number that is not an integer of magnitude
    at most [2^53] (shortest round-trip decimal, exponents). *)
Variable float_to_string : Q -> jsstring.

(** [s.toLowerCase()]: on ASCII it maps [A-Z] to [a-z] and nothing
    else. *)
Definition toLowerCase (s : jsstring) : jsstring :=
  if forallb is_ascii s then map ascii_lower s else unicode_lower s.

(** [`${n}`] for a number: an integer of magnitude at most [2^53], which
    a double holds exactly, prints as its decimal numeral. *)
Definition number_to_string (q : Q) : jsstring :=
  let r := Qred q in
  if (Qden r =? 1)%positive && (Z.abs (Qnum r) <=? 2 ^ 53)%Z
  then decimal (Qnum r)
  else float_to_string q.

End Engine.

(** A thrown value: an [Error] object with its message. *)
Inductive error : Type :=
| Error (message : jsstring).

(** [a > b] on numbers. *)
Definition gt (a b : Q) : bool := negb (Qle_bool a b).

Definition of_nat (n : nat) : Q := inject_Z (Z.of_nat n).

End Js.

(* ===================================================================== *)
(** * Effects: state that survives exceptions *)
(* ===================================================================== *)

Module Eff.

Inductive outcome (A : Type) : Type :=
| Normal (a : A)
| Throw (e : Js.error).

Arguments Normal {A} a.
Arguments Throw {A} e.

(** A computation over a state [S]: it ends normally or throws, and in both
    cases leaves a state behind. *)
Definition M (S A : Type) : Type := S -> outcome A * S.

Definition ret {S A} (a : A) : M S A := fun s => (Normal a, s).

Definition bind {S A B} (m : M S A) (k : A -> M S B) : M S B :=
  fun s =>
    match m s with
    | (Normal a, s') => k a s'
    | (Throw e, s') => (Throw e, s')
    end.

Definition throw {S A} (e : Js.error) : M S A := fun s => (Throw e, s).

Definition gets {S A} (f : S -> A) : M S A := fun s => (Normal (f s), s).

Definition modify {S} (f : S -> S) : M S unit := fun s => (Normal tt, f s).

(** [try { m } catch (error) { h error }]. *)
Definition try_catch {S A} (m : M S A) (h : Js.error -> M S A) : M S A :=
  fun s =>
    match m s with
    | (Normal a, s') => (Normal a, s')
    | (Throw e, s') => h e s'
    end.

(** [try { m } catch (error) { h error } finally { f }]: [f] runs last on
    every path, and the completion of the [try]/[catch] part is kept unless
    [f] itself throws. *)
Definition try_catch_finally {S A} (m : M S A) (h : Js.error -> M S A)
    (f : M S unit) : M S A :=
  fun s =>
    match try_catch m h s with
    | (r, s') =>
        match f s' with
        | (Normal _, s'') => (r, s'')
        | (Throw e, s'') => (Throw e, s'')
        end
    end.

Declare Scope eff_scope.
Delimit Scope eff_scope with eff.
Notation "x <- m ;; k" := (bind m (fun x => k))
  (at level 61, m at next level, right associativity) : eff_scope.
Notation "m ;; k" := (bind m (fun _ => k))
  (at level 61, right associativity) : eff_scope.

Local Open Scope eff_scope.

(** [xs.forEach((x, index) => f x index)], the index starting at [i]. *)
Fixpoint forEach_from {S A} (f : A -> nat -> M S unit) (xs : list A)
    (i : nat) : M S unit :=
  match xs with
  | [] => ret tt
  | x :: xs' => f x i ;; forEach_from f xs' (Datatypes.S i)
  end.

Definition forEach {S A} (xs : list A) (f : A -> nat -> M S unit)
  : M S unit :=
  forEach_from f xs 0.

(** [for (const x of xs) { f x }]. *)
Fixpoint for_of {S A} (xs : list A) (f : A -> M S unit) : M S unit :=
  match xs with
  | [] => ret tt
  | x :: xs' => f x ;; for_of xs' f
  end.

(** [if (c) { m }] *)
Definition when {S} (c : bool) (m : M S unit) : M S unit :=
  if c then m else ret tt.

(** Inversion of a [bind] that ended normally. *)
Lemma bind_normal {S A B} (m : M S A) (k : A -> M S B) s b s' :
  bind m k s = (Normal b, s') ->
  exists a s1, m s = (Normal a, s1) /\ k a s1 = (Normal b, s').
Proof.
  unfold bind. destruct (m s) as [[a|e] s1]; intros H.
  - exists a, s1. split; [reflexivity | exact H].
  - discriminate H.
Qed.

(** Inversion of a [bind] that threw: either the first part threw, or it
    ended normally and the continuation threw. *)
Lemma bind_throw {S A B} (m : M S A) (k : A -> M S B) s e s' :
  bind m k s = (Throw e, s') ->
  m s = (Throw e, s') \/
  exists a s1, m s = (Normal a, s1) /\ k a s1 = (Throw e, s').
Proof.
  unfold bind. destruct (m s) as [[a|e0] s1]; intros H.
  - right. exists a, s1. split; [reflexivity | exact H].
  - left. inversion H; subst. reflexivity.
Qed.

End Eff.

(* ===================================================================== *)
(** * String literals with characters outside ASCII *)
(* ===================================================================== *)

Module Strings.

Import Js.

Definition Facil : jsstring := lit "F" ++ [225%N] ++ lit "cil".
Definition Medio : jsstring := lit "Medio".
Definition Dificil : jsstring := lit "Dif" ++ [237%N] ++ lit "cil".
Definition No_especificado : jsstring := lit "No especificado".
Definition Tiempo_de_Preparacion : jsstring :=
  lit "Tiempo de Preparaci" ++ [243%N] ++ lit "n:".
Definition Tiempo_de_Coccion : jsstring :=
  lit "Tiempo de Cocci" ++ [243%N] ++ lit "n:".
Definition Categoria : jsstring := lit "Categor" ++ [237%N] ++ lit "a:".
Definition bullet : jsstring := [8226%N].

End Strings.

(* ===================================================================== *)
(** * The data model ([@/types/recipe]) *)
(* ===================================================================== *)

Module Types.

Import Js.

(** The declarations of [@/types/recipe] are read off from their uses: only
    the fields the embedded code reads are kept. *)
Record Unit : Type := {
  unit_name : jsstring
}.

Record Ingredient : Type := {
  ingredient : jsstring;
  quantity : option Q;
  notes : option jsstring;
  unit_ : option Unit         (* [unit?: Unit], the resolved unit *)
}.

Record Instruction : Type := {
  step_number : Q;
  instruction : jsstring
}.

(** [RecipeWithDetails]: a recipe with its ingredients and instructions. *)
Record RecipeWithDetails : Type := {
  name : jsstring;
  description : option jsstring;
  category : option jsstring;
  preparation_time : option Q;
  cooking_time : option Q;
  difficulty : option jsstring;
  servings : option Q;
  ingredients : list Ingredient;
  instructions : list Instruction
}.

End Types.

(* ===================================================================== *)
(** * [src/lib/pdf-utils.ts] *)
(* ===================================================================== *)

Module PdfUtils.

Import Js Eff Strings Types.
Local Open Scope eff_scope.
Local Open Scope Q_scope.

(** ** The jsPDF document *)

Definition colour : Type := (Q * Q * Q)%type.

(** The first argument of [pdf.text]: one string or an array of lines. *)
Inductive text_arg : Type :=
| Str (s : jsstring)
| Lines (ls : list jsstring).

(** What has been drawn, with the page it was drawn on and the font state
    in effect. *)
Inductive drawing : Type :=
| TextAt (page : nat) (txt : text_arg) (x y : Q)
         (size : Q) (style : jsstring) (ink : colour)
| LineAt (page : nat) (x1 y1 x2 y2 : Q) (ink : colour).

Record jsPDF : Type := {
  numberOfPages : nat;        (* the current page is always the last one *)
  fontSize : Q;
  fontName : jsstring;
  fontStyle : jsstring;
  textColor : colour;
  drawColor : colour;
  content : list drawing
}.

(** [new jsPDF()]: one empty page, the library's default font. *)
Definition blank : jsPDF := {|
  numberOfPages := 1;
  fontSize := 16;
  fontName := lit "helvetica";
  fontStyle := lit "normal";
  textColor := (0, 0, 0);
  drawColor := (0, 0, 0);
  content := []
|}.

(** The state the export runs in: the document under construction, the
    cursor [currentY], and what the browser keeps whatever happens: the
    console and the files handed to the user by [pdf.save]. *)
Record env : Type := {
  pdf : jsPDF;
  currentY : Q;
  console : list (jsstring * Js.error);
  downloads : list (jsstring * jsPDF)
}.

Definition with_pdf (f : jsPDF -> jsPDF) (w : env) : env :=
  {| pdf := f (pdf w); currentY := currentY w;
     console := console w; downloads := downloads w |}.

Definition with_currentY (y : Q) (w : env) : env :=
  {| pdf := pdf w; currentY := y;
     console := console w; downloads := downloads w |}.

Definition with_console (c : list (jsstring * Js.error)) (w : env) : env :=
  {| pdf := pdf w; currentY := currentY w;
     console := c; downloads := downloads w |}.

Definition with_downloads (d : list (jsstring * jsPDF)) (w : env) : env :=
  {| pdf := pdf w; currentY := currentY w;
     console := console w; downloads := d |}.

(** The effect of each jsPDF method on the document. *)
Definition draw (g : drawing) (d : jsPDF) : jsPDF :=
  {| numberOfPages := numberOfPages d; fontSize := fontSize d;
     fontName := fontName d; fontStyle := fontStyle d;
     textColor := textColor d; drawColor := drawColor d;
     content := content d ++ [g] |}.

Definition doc_setFontSize (size : Q) (d : jsPDF) : jsPDF :=
  {| numberOfPages := numberOfPages d; fontSize := size;
     fontName := fontName d; fontStyle := fontStyle d;
     textColor := textColor d; drawColor := drawColor d;
     content := content d |}.

Definition doc_setFont (family style : jsstring) (d : jsPDF) : jsPDF :=
  {| numberOfPages := numberOfPages d; fontSize := fontSize d;
     fontName := family; fontStyle := style;
     textColor := textColor d; drawColor := drawColor d;
     content := content d |}.

Definition doc_setTextColor (ink : colour) (d : jsPDF) : jsPDF :=
  {| numberOfPages := numberOfPages d; fontSize := fontSize d;
     fontName := fontName d; fontStyle := fontStyle d;
     textColor := ink; drawColor := drawColor d;
     content := content d |}.

Definition doc_setDrawColor (ink : colour) (d : jsPDF) : jsPDF :=
  {| numberOfPages := numberOfPages d; fontSize := fontSize d;
     fontName := fontName d; fontStyle := fontStyle d;
     textColor := textColor d; drawColor := ink;
     content := content d |}.

(** [addPage]: the new page becomes the current one. *)
Definition doc_addPage (d : jsPDF) : jsPDF :=
  {| numberOfPages := S (numberOfPages d); fontSize := fontSize d;
     fontName := fontName d; fontStyle := fontStyle d;
     textColor := textColor d; drawColor := drawColor d;
     content := content d |}.

(** [text] and [line] draw on the current page with the current font. *)
Definition doc_text (txt : text_arg) (x y : Q) (d : jsPDF) : jsPDF :=
  draw (TextAt (numberOfPages d) txt x y
               (fontSize d) (fontStyle d) (textColor d)) d.

Definition doc_line (x1 y1 x2 y2 : Q) (d : jsPDF) : jsPDF :=
  draw (LineAt (numberOfPages d) x1 y1 x2 y2 (drawColor d)) d.

(** The calls into jsPDF and the browser. *)
Inductive call : Type :=
| NewJsPDF
| SetFontSize (size : Q)
| SetFont (family style : jsstring)
| SetTextColor (r g b : Q)
| SetDrawColor (r g b : Q)
| SplitTextToSize (text : jsstring) (width : Q)
| AddPage
| Text (txt : text_arg) (x y : Q)
| Line (x1 y1 x2 y2 : Q)
| Save (fileName : jsstring)
| ToLocaleDateString (locale : jsstring).

(** [getDifficultyText], local to the export routine. *)
Definition getDifficultyText (difficulty : option jsstring) : jsstring :=
  match difficulty with
  | Some d =>
      if str_eqb d (lit "easy") then Facil
      else if str_eqb d (lit "medium") then Medio
      else if str_eqb d (lit "hard") then Dificil
      else No_especificado
  | None => No_especificado
  end.

Section Library.

(** What [pdf.internal.pageSize.getWidth()] and [getHeight()] return. *)
Variables pageWidth pageHeight : Q.

(** [pdf.splitTextToSize(text, width)], which reads the current font. *)
Variable splitTextToSize : jsPDF -> jsstring -> Q -> list jsstring.

(** [parseInt(s, radix)]. *)
Variable parseInt : jsstring -> Q -> Q.

(** [new Date().toLocaleDateString(locale)]. *)
Variable toLocaleDateString : jsstring -> jsstring.

Variable unicode_lower : jsstring -> jsstring.
Variable float_to_string : Q -> jsstring.

(** Which call throws what, in which state. *)
Variable throws : call -> env -> option Js.error.

(** A call into the library: it throws, leaving the state as it was, or
    has its effect. *)
Definition lib {A} (c : call) (effect : env -> A * env) : M env A :=
  fun w =>
    match throws c w with
    | Some e => (Throw e, w)
    | None => let (a, w') := effect w in (Normal a, w')
    end.

Definition new_jsPDF : M env unit :=
  lib NewJsPDF (fun w => (tt, with_pdf (fun _ => blank) w)).

Definition setFontSize (size : Q) : M env unit :=
  lib (SetFontSize size) (fun w => (tt, with_pdf (doc_setFontSize size) w)).

Definition setFont (family style : jsstring) : M env unit :=
  lib (SetFont family style)
      (fun w => (tt, with_pdf (doc_setFont family style) w)).

Definition setTextColor (r g b : Q) : M env unit :=
  lib (SetTextColor r g b)
      (fun w => (tt, with_pdf (doc_setTextColor (r, g, b)) w)).

Definition setDrawColor (r g b : Q) : M env unit :=
  lib (SetDrawColor r g b)
      (fun w => (tt, with_pdf (doc_setDrawColor (r, g, b)) w)).

Definition split_text (text : jsstring) (width : Q)
  : M env (list jsstring) :=
  lib (SplitTextToSize text width)
      (fun w => (splitTextToSize (pdf w) text width, w)).

Definition addPage : M env unit :=
  lib AddPage (fun w => (tt, with_pdf doc_addPage w)).

Definition text (txt : text_arg) (x y : Q) : M env unit :=
  lib (Text txt x y) (fun w => (tt, with_pdf (doc_text txt x y) w)).

Definition line (x1 y1 x2 y2 : Q) : M env unit :=
  lib (Line x1 y1 x2 y2) (fun w => (tt, with_pdf (doc_line x1 y1 x2 y2) w)).

(** [pdf.save(fileName)]: the document as it stands is handed to the
    user under that name. *)
Definition save (fileName : jsstring) : M env unit :=
  lib (Save fileName) (fun w =>
    (tt, with_downloads (downloads w ++ [(fileName, pdf w)]) w)).

Definition today (locale : jsstring) : M env jsstring :=
  lib (ToLocaleDateString locale)
      (fun w => (toLocaleDateString locale, w)).

Definition console_error (label : jsstring) (e : Js.error) : M env unit :=
  modify (fun w => with_console (console w ++ [(label, e)]) w).

(** [currentY = y] and [currentY += d]. *)
Definition set_currentY (y : Q) : M env unit := modify (with_currentY y).

Definition advance (d : Q) : M env unit :=
  modify (fun w => with_currentY (currentY w + d) w).

(** ** The routine *)

Definition margin : Q := 20.
Definition contentWidth : Q := pageWidth - margin * 2.

(** [addText(text, fontSize = 12, isBold = false, color = '#000000')] *)
Definition addText (txt : jsstring) (fontSize : Q) (isBold : bool)
    (color : jsstring) : M env unit :=
  setFontSize fontSize ;;
  setFont (lit "helvetica") (if isBold then lit "bold" else lit "normal") ;;
  setTextColor (parseInt (slice 1 3 color) 16)
               (parseInt (slice 3 5 color) 16)
               (parseInt (slice 5 7 color) 16) ;;
  lines <- split_text txt contentWidth ;;
  (let lineHeight := fontSize * 0.4 in
   y <- gets currentY ;;
   when (gt (y + of_nat (List.length lines) * lineHeight) (pageHeight - margin))
        (addPage ;; set_currentY margin) ;;
   y' <- gets currentY ;;
   text (Lines lines) margin y' ;;
   advance (of_nat (List.length lines) * lineHeight + 5)).

Definition addSeparator : M env unit :=
  y <- gets currentY ;;
  when (gt (y + 10) (pageHeight - margin))
       (addPage ;; set_currentY margin) ;;
  setDrawColor 249 115 22 ;;
  y' <- gets currentY ;;
  line margin y' (pageWidth - margin) y' ;;
  advance 15.

(** [infoData]: the rows of the information table, each a label and a
    value. *)
Definition infoData (recipe : RecipeWithDetails)
  : list (jsstring * jsstring) :=
  [ (Tiempo_de_Preparacion,
     number_to_string float_to_string (num_or (preparation_time recipe) 0)
       ++ lit " minutos");
    (Tiempo_de_Coccion,
     number_to_string float_to_string (num_or (cooking_time recipe) 0)
       ++ lit " minutos");
    (lit "Porciones:",
     number_to_string float_to_string (num_or (servings recipe) 1));
    (lit "Dificultad:", getDifficultyText (difficulty recipe)) ]
  ++ match category recipe with
     | Some c => if truthy_str (Some c) then [(Categoria, c)] else []
     | None => []
     end.

Definition rowHeight : Q := 8.
Definition col1Width : Q := contentWidth * 0.4.
Definition col2Width : Q := contentWidth * 0.6.

(** The callback of [infoData.forEach]: on overflow it adds a page,
    resets the cursor and returns. *)
Definition draw_row (tableStartY : Q) (row : jsstring * jsstring)
    (index : nat) : M env unit :=
  let y := tableStartY + of_nat index * rowHeight in
  if gt (y + rowHeight) (pageHeight - margin) then
    addPage ;;
    set_currentY margin
  else
    setFont (lit "helvetica") (lit "bold") ;;
    text (Str (fst row)) margin y ;;
    setFont (lit "helvetica") (lit "normal") ;;
    text (Str (snd row)) (margin + col1Width) y.

Definition draw_table (recipe : RecipeWithDetails) : M env unit :=
  tableStartY <- gets currentY ;;
  setFontSize 10 ;;
  setFont (lit "helvetica") (lit "normal") ;;
  setTextColor 0 0 0 ;;
  forEach (infoData recipe) (draw_row tableStartY) ;;
  set_currentY
    (tableStartY + of_nat (List.length (infoData recipe)) * rowHeight + 15).

Definition ingredientText (i : Ingredient) : jsstring :=
  bullet ++ lit " "
  ++ match quantity i with
     | Some q =>
         if truthy_num (Some q)
         then number_to_string float_to_string q ++ lit " " else []
     | None => []
     end
  ++ str_or (option_map unit_name (unit_ i)) []
  ++ lit " " ++ ingredient i
  ++ match notes i with
     | Some n => if truthy_str (Some n) then lit " (" ++ n ++ lit ")" else []
     | None => []
     end.

Definition stepText (i : Instruction) : jsstring :=
  number_to_string float_to_string (step_number i)
  ++ lit ". " ++ instruction i.

(** [`${name.replace(/[^a-z0-9]/gi, '_').toLowerCase()}.pdf`] *)
Definition fileName (name : jsstring) : jsstring :=
  toLowerCase unicode_lower
    (replace_outside matches_a_z0_9_i (lit "_") name)
  ++ lit ".pdf".

(** Title, description, table, ingredients and instructions. *)
Definition layout (recipe : RecipeWithDetails) : M env unit :=
  addText (name recipe) 24 true (lit "#f97316") ;;
  advance 5 ;;
  match description recipe with
  | Some d =>
      when (truthy_str (Some d))
           (addText d 12 false (lit "#666666") ;; advance 10)
  | None => ret tt
  end ;;
  draw_table recipe ;;
  addSeparator ;;
  addText (lit "Ingredientes") 18 true (lit "#f97316") ;;
  advance 5 ;;
  forEach (ingredients recipe)
          (fun i _ => addText (ingredientText i) 11 false (lit "#000000")) ;;
  advance 10 ;;
  addSeparator ;;
  addText (lit "Instrucciones") 18 true (lit "#f97316") ;;
  advance 5 ;;
  forEach (instructions recipe)
          (fun i _ =>
             addText (stepText i) 11 false (lit "#000000") ;;
             advance 3).

Definition footerY : Q := pageHeight - 15.

Definition footer : M env unit :=
  setFontSize 8 ;;
  setFont (lit "helvetica") (lit "normal") ;;
  setTextColor 128 128 128 ;;
  text (Str (lit "Generado con Recipe Manager App")) margin footerY ;;
  date <- today (lit "es-ES") ;;
  text (Str date) (pageWidth - margin - 30) footerY.

(** The body of the [try] block. *)
Definition render (recipe : RecipeWithDetails) : M env unit :=
  layout recipe ;;
  footer ;;
  save (fileName (name recipe)).

Definition generic_error : Js.error :=
  Error (lit "No se pudo generar el PDF").

Definition generateRecipePDF (recipe : RecipeWithDetails) : M env unit :=
  new_jsPDF ;;
  set_currentY margin ;;
  try_catch (render recipe)
    (fun error =>
       console_error (lit "Error generating PDF:") error ;;
       throw generic_error).

(** ** The export file name *)

(** The file name as the specification words it: each character of the
    name outside [[A-Za-z0-9]] becomes an underscore, the others are
    lower-cased; then the extension. *)
Definition spec_fileName (name : jsstring) : jsstring :=
  map (fun c => if matches_a_z0_9_i c then ascii_lower c else 95%N) name
  ++ lit ".pdf".

Lemma matches_is_ascii c : matches_a_z0_9_i c = true -> is_ascii c = true.
Proof.
  unfold matches_a_z0_9_i, is_lower, is_upper, is_digit, is_ascii.
  rewrite !orb_true_iff, !andb_true_iff, !N.leb_le, N.ltb_lt. lia.
Qed.

Lemma replaced_is_ascii name :
  forallb is_ascii (replace_outside matches_a_z0_9_i (lit "_") name) = true.
Proof.
  induction name as [|c name IH]; [reflexivity|].
  unfold replace_outside in *. cbn [flat_map].
  destruct (matches_a_z0_9_i c) eqn:Hc; cbn [app forallb lit map].
  - rewrite (matches_is_ascii _ Hc). exact IH.
  - exact IH.
Qed.

Lemma lower_of_replaced name :
  map ascii_lower (replace_outside matches_a_z0_9_i (lit "_") name)
  = map (fun c => if matches_a_z0_9_i c then ascii_lower c else 95%N) name.
Proof.
  induction name as [|c name IH]; [reflexivity|].
  unfold replace_outside in *. cbn [flat_map].
  destruct (matches_a_z0_9_i c) eqn:Hc;
    rewrite map_app, IH; cbn [map]; rewrite Hc; reflexivity.
Qed.

(** C1. For every recipe name the export file name is the name with each
    character outside [A-Za-z0-9] replaced by an underscore and the rest
    lower-cased, followed by ".pdf"; "Paella Valenciana!" gives
    "paella_valenciana_.pdf". *)
Theorem fileName_sanitized :
  (forall name, fileName name = spec_fileName name) /\
  fileName (lit "Paella Valenciana!") = lit "paella_valenciana_.pdf".
Proof.
  assert (H : forall name, fileName name = spec_fileName name).
  { intros name. unfold fileName, spec_fileName, toLowerCase.
    rewrite replaced_is_ascii, lower_of_replaced. reflexivity. }
  split; [exact H|]. rewrite H. reflexivity.
Qed.

(** ** What a run that ended normally did *)

Lemma lib_normal {A} c (effect : env -> A * env) w a w' :
  lib c effect w = (Normal a, w') -> effect w = (a, w').
Proof.
  unfold lib. destruct (throws c w); [discriminate|].
  destruct (effect w). intros H. inversion H. reflexivity.
Qed.

Lemma lib_throw {A} c (effect : env -> A * env) w e w' :
  lib c effect w = (Throw e, w') -> throws c w = Some e /\ w' = w.
Proof.
  unfold lib. destruct (throws c w).
  - intros H. inversion H. split; reflexivity.
  - destruct (effect w). discriminate.
Qed.

Lemma gt_true a b : gt a b = true <-> b < a.
Proof.
  unfold gt. rewrite negb_true_iff. split; intros H.
  - apply Qnot_le_lt. intros Hle. apply Qle_bool_iff in Hle. congruence.
  - destruct (Qle_bool a b) eqn:E; [|reflexivity].
    apply Qle_bool_iff in E. exfalso. apply (Qlt_not_le _ _ H E).
Qed.

Lemma gt_false a b : gt a b = false <-> a <= b.
Proof.
  unfold gt. rewrite negb_false_iff. apply Qle_bool_iff.
Qed.

(** One primitive step that ended normally: its effect on the state. *)
Ltac prim H :=
  lazymatch type of H with
  | lib _ _ _ = (Normal _, _) =>
      apply lib_normal in H; cbv beta in H; inversion H; subst; clear H
  | gets _ _ = (Normal _, _) => unfold gets in H; inversion H; subst; clear H
  | ret _ _ = (Normal _, _) => unfold ret in H; inversion H; subst; clear H
  | modify _ _ = (Normal _, _) =>
      unfold modify in H; inversion H; subst; clear H
  | set_currentY _ _ = (Normal _, _) => unfold set_currentY in H; prim H
  | advance _ _ = (Normal _, _) => unfold advance in H; prim H
  | console_error _ _ _ = (Normal _, _) =>
      unfold console_error in H; prim H
  | new_jsPDF _ = (Normal _, _) => unfold new_jsPDF in H; prim H
  | setFontSize _ _ = (Normal _, _) => unfold setFontSize in H; prim H
  | setFont _ _ _ = (Normal _, _) => unfold setFont in H; prim H
  | setTextColor _ _ _ _ = (Normal _, _) => unfold setTextColor in H; prim H
  | setDrawColor _ _ _ _ = (Normal _, _) => unfold setDrawColor in H; prim H
  | split_text _ _ _ = (Normal _, _) => unfold split_text in H; prim H
  | addPage _ = (Normal _, _) => unfold addPage in H; prim H
  | text _ _ _ _ = (Normal _, _) => unfold text in H; prim H
  | line _ _ _ _ _ = (Normal _, _) => unfold line in H; prim H
  | save _ _ = (Normal _, _) => unfold save in H; prim H
  | today _ _ = (Normal _, _) => unfold today in H; prim H
  end.

(** Split a sequence that ended normally; a primitive first step is
    resolved, any other is left as the named hypothesis. *)
Tactic Notation "seq" hyp(H) "as" ident(H1) :=
  let a := fresh "a" in
  let s := fresh "s" in
  apply bind_normal in H; destruct H as (a & s & H1 & H);
  try (match type of a with unit => destruct a end);
  try prim H1.

Tactic Notation "seq" hyp(H) :=
  let H1 := fresh "Hstep" in seq H as H1.

Lemma page_break_normal (c : bool) w (a : unit) w' :
  when c (addPage ;; set_currentY margin) w = (Normal a, w') ->
  w' = if c then with_currentY margin (with_pdf doc_addPage w) else w.
Proof.
  destruct c; cbn [when]; intros H.
  - seq H. prim H. reflexivity.
  - prim H. reflexivity.
Qed.

(** ** The text-emission primitive *)

Definition font_of (isBold : bool) : jsstring :=
  if isBold then lit "bold" else lit "normal".

Definition ink_of (color : jsstring) : colour :=
  (parseInt (slice 1 3 color) 16,
   parseInt (slice 3 5 color) 16,
   parseInt (slice 5 7 color) 16).

(** The document once [addText] has set the font, when it wraps. *)
Definition styled (fontSize : Q) (isBold : bool) (color : jsstring)
    (d : jsPDF) : jsPDF :=
  doc_setTextColor (ink_of color)
    (doc_setFont (lit "helvetica") (font_of isBold)
       (doc_setFontSize fontSize d)).

Lemma addText_normal txt fontSize isBold color w w' :
  addText txt fontSize isBold color w = (Normal tt, w') ->
  let d := styled fontSize isBold color (pdf w) in
  let ls := splitTextToSize d txt contentWidth in
  let h := of_nat (List.length ls) * (fontSize * 0.4) in
  w' = if gt (currentY w + h) (pageHeight - margin)
       then with_currentY (margin + (h + 5))
              (with_pdf (fun _ => doc_text (Lines ls) margin margin
                                    (doc_addPage d)) w)
       else with_currentY (currentY w + (h + 5))
              (with_pdf (fun _ => doc_text (Lines ls) margin (currentY w) d)
                        w).
Proof.
  intros H. unfold addText in H.
  seq H. seq H. seq H. seq H. cbv zeta in H. seq H. seq H as Hbreak.
  apply page_break_normal in Hbreak. seq H. seq H. prim H.
  cbv zeta. unfold styled, ink_of, font_of.
  destruct (gt _ _); reflexivity.
Qed.

(** Where a drawing starts, how many lines it has and how tall the code
    takes it to be ([lineCount * fontSize * 0.4]). *)
Definition top (g : drawing) : Q :=
  match g with
  | TextAt _ _ _ y _ _ _ => y
  | LineAt _ _ y1 _ _ _ => y1
  end.

Definition lineCount (t : text_arg) : nat :=
  match t with
  | Str _ => 1
  | Lines ls => List.length ls
  end.

Definition height (g : drawing) : Q :=
  match g with
  | TextAt _ t _ _ size _ _ => of_nat (lineCount t) * (size * 0.4)
  | LineAt _ _ _ _ _ _ => 0
  end.

Definition bottom (g : drawing) : Q := top g + height g.

(** A sequence of calls of [addText], each with its four arguments. *)
Definition text_call : Type := (jsstring * Q * bool * jsstring)%type.

Definition addText_all (calls : list text_call) : M env unit :=
  for_of calls
    (fun c => let '(txt, fontSize, isBold, color) := c in
              addText txt fontSize isBold color).

Lemma of_nat_nonneg n : 0 <= of_nat n.
Proof.
  unfold of_nat, Qle. cbn. lia.
Qed.

(** The block one call emits, and where. *)
Lemma addText_block txt fontSize isBold color w w' :
  addText txt fontSize isBold color w = (Normal tt, w') ->
  exists g,
    content (pdf w') = content (pdf w) ++ [g] /\
    (bottom g <= pageHeight - margin \/ top g = margin) /\
    (0 <= fontSize -> margin * 2 <= pageHeight ->
     top g <= pageHeight - margin).
Proof.
  intros H. apply addText_normal in H. cbv zeta in H.
  destruct (gt _ _) eqn:E; subst w'; eexists; (split; [reflexivity|]).
  - split; [right; reflexivity|]. intros _ Hp. cbn [top]. lra.
  - apply gt_false in E. split; [left; exact E|].
    intros Hf _. cbn [top].
    match type of E with
    | _ + ?n * ?l <= _ =>
        assert (Hh : 0 <= n * l)
          by (apply Qmult_le_0_compat; [apply of_nat_nonneg | lra])
    end.
    lra.
Qed.

Definition fontSize_of (c : text_call) : Q :=
  let '(_, fontSize, _, _) := c in fontSize.

(** C2 (amended). Every block a completed sequence of [addText] calls
    emits either ends at or above [pageHeight - margin] or sits at the top
    margin of a page started for it, where it may run past that line: a
    block is never split; with font sizes that are not negative and a page
    at least two margins tall, every block starts at or above
    [pageHeight - margin]. A call whose cursor plus block height
    ([lineCount * fontSize * 0.4]) exceeds [pageHeight - margin] starts a
    new page and resets the cursor to the top margin before it emits, any
    other call emits at the cursor; after emission the cursor is advanced
    by the block height plus 5. *)
Theorem addText_page_break :
  (forall calls w w',
     addText_all calls w = (Normal tt, w') ->
     exists blocks,
       content (pdf w') = content (pdf w) ++ blocks /\
       List.length blocks = List.length calls /\
       Forall (fun g => bottom g <= pageHeight - margin \/ top g = margin)
              blocks /\
       (Forall (fun c => 0 <= fontSize_of c) calls ->
        margin * 2 <= pageHeight ->
        Forall (fun g => top g <= pageHeight - margin) blocks)) /\
  (forall txt fontSize isBold color w w',
     addText txt fontSize isBold color w = (Normal tt, w') ->
     let ls := splitTextToSize (styled fontSize isBold color (pdf w))
                               txt contentWidth in
     let h := of_nat (List.length ls) * (fontSize * 0.4) in
     let block page y :=
       TextAt page (Lines ls) margin y
              fontSize (font_of isBold) (ink_of color) in
     (pageHeight - margin < currentY w + h ->
      numberOfPages (pdf w') = S (numberOfPages (pdf w)) /\
      content (pdf w')
      = content (pdf w) ++ [block (S (numberOfPages (pdf w))) margin] /\
      currentY w' = margin + (h + 5)) /\
     (currentY w + h <= pageHeight - margin ->
      numberOfPages (pdf w') = numberOfPages (pdf w) /\
      content (pdf w')
      = content (pdf w) ++ [block (numberOfPages (pdf w)) (currentY w)] /\
      currentY w' = currentY w + (h + 5))).
Proof.
  split.
  - induction calls as [|[[[txt fontSize] isBold] color] calls IH];
      intros w w' H.
    + inversion H; subst. exists []. rewrite app_nil_r. auto.
    + unfold addText_all in H. cbn [for_of] in H.
      apply bind_normal in H. destruct H as ([] & w1 & H1 & H).
      apply addText_block in H1. destruct H1 as (g & Hg & Hpos & Htop).
      apply IH in H. destruct H as (blocks & Hc & Hl & Hall & Htops).
      exists (g :: blocks). rewrite Hc, Hg, <- app_assoc.
      split; [reflexivity|]. split; [cbn; congruence|].
      split; [constructor; assumption|].
      intros Hsizes Hpage. inversion Hsizes; subst.
      constructor; [apply Htop; assumption | apply Htops; assumption].
  - intros txt fontSize isBold color w w' H.
    apply addText_normal in H. cbv zeta in *.
    destruct (gt _ _) eqn:E; subst w'.
    + apply gt_true in E. split; intros Hc.
      * repeat split.
      * exfalso. apply (Qlt_not_le _ _ E Hc).
    + apply gt_false in E. split; intros Hc.
      * exfalso. apply (Qlt_not_le _ _ Hc E).
      * repeat split.
Qed.

(** ** The information table *)

(** The test of [draw_row]: row [index] would cross the bottom margin. *)
Definition overflows (tableStartY : Q) (index : nat) : bool :=
  gt (tableStartY + of_nat index * rowHeight + rowHeight)
     (pageHeight - margin).

(** What the rows starting at [index] draw when none overflows. *)
Fixpoint row_drawings (page : nat) (size : Q) (ink : colour)
    (tableStartY : Q) (index : nat) (rows : list (jsstring * jsstring))
  : list drawing :=
  match rows with
  | [] => []
  | row :: rows' =>
      let y := tableStartY + of_nat index * rowHeight in
      TextAt page (Str (fst row)) margin y size (lit "bold") ink
      :: TextAt page (Str (snd row)) (margin + col1Width) y
                size (lit "normal") ink
      :: row_drawings page size ink tableStartY (S index) rows'
  end.

Lemma of_nat_S n : of_nat (S n) == of_nat n + 1.
Proof.
  unfold of_nat. rewrite Nat2Z.inj_succ. unfold Z.succ.
  rewrite inject_Z_plus. reflexivity.
Qed.

Lemma overflows_next tableStartY index :
  overflows tableStartY index = true ->
  overflows tableStartY (S index) = true.
Proof.
  unfold overflows. rewrite !gt_true, of_nat_S. unfold rowHeight. lra.
Qed.

Lemma draw_row_overflow tableStartY row index w w' :
  overflows tableStartY index = true ->
  draw_row tableStartY row index w = (Normal tt, w') ->
  w' = with_currentY margin (with_pdf doc_addPage w).
Proof.
  intros Ho H. unfold draw_row in H. cbv zeta in H.
  fold (overflows tableStartY index) in H. rewrite Ho in H.
  seq H. prim H. reflexivity.
Qed.

Lemma draw_row_fits tableStartY row index w w' :
  overflows tableStartY index = false ->
  draw_row tableStartY row index w = (Normal tt, w') ->
  w' = with_pdf (fun d =>
         doc_text (Str (snd row)) (margin + col1Width)
           (tableStartY + of_nat index * rowHeight)
           (doc_setFont (lit "helvetica") (lit "normal")
              (doc_text (Str (fst row)) margin
                 (tableStartY + of_nat index * rowHeight)
                 (doc_setFont (lit "helvetica") (lit "bold") d)))) w.
Proof.
  intros Ho H. unfold draw_row in H. cbv zeta in H.
  fold (overflows tableStartY index) in H. rewrite Ho in H.
  seq H. seq H. seq H. prim H. reflexivity.
Qed.

(** Once a row overflows, so does every later one: none is drawn and each
    adds a page. *)
Lemma rows_after_overflow tableStartY rows : forall index w w',
  overflows tableStartY index = true ->
  forEach_from (draw_row tableStartY) rows index w = (Normal tt, w') ->
  content (pdf w') = content (pdf w) /\
  numberOfPages (pdf w') = (numberOfPages (pdf w) + List.length rows)%nat.
Proof.
  induction rows as [|row rows IH]; intros index w w' Ho H.
  - inversion H; subst. cbn. auto.
  - cbn [forEach_from] in H.
    apply bind_normal in H. destruct H as ([] & w1 & H1 & H).
    apply (@draw_row_overflow _ _ _ _ _ Ho) in H1.
    apply (IH _ _ _ (@overflows_next _ _ Ho)) in H.
    destruct H as [Hc Hn]. subst w1.
    rewrite Hc, Hn. cbn. split; [reflexivity | lia].
Qed.

(** The rows in general: a prefix is drawn on the page current at the
    start, the rest only adds pages. *)
Lemma table_rows tableStartY rows : forall index w w',
  forEach_from (draw_row tableStartY) rows index w = (Normal tt, w') ->
  exists drawn : nat,
    (drawn <= List.length rows)%nat /\
    (forall j, (j < drawn)%nat ->
               overflows tableStartY (index + j) = false) /\
    content (pdf w')
    = content (pdf w)
      ++ row_drawings (numberOfPages (pdf w)) (fontSize (pdf w))
           (textColor (pdf w)) tableStartY index (firstn drawn rows) /\
    numberOfPages (pdf w')
    = (numberOfPages (pdf w) + (List.length rows - drawn))%nat.
Proof.
  induction rows as [|row rows IH]; intros index w w' H.
  - inversion H; subst. exists 0%nat. cbn. rewrite app_nil_r.
    repeat split; [lia | intros; lia | lia].
  - destruct (overflows tableStartY index) eqn:Ho.
    + apply (@rows_after_overflow _ _ _ _ _ Ho) in H. destruct H as [Hc Hn].
      exists 0%nat. cbn [firstn row_drawings]. rewrite app_nil_r.
      repeat split; [lia | intros; lia | exact Hc | rewrite Hn; lia].
    + cbn [forEach_from] in H.
      apply bind_normal in H. destruct H as ([] & w1 & H1 & H).
      apply (@draw_row_fits _ _ _ _ _ Ho) in H1.
      apply IH in H. destruct H as (drawn & Hle & Hfit & Hc & Hn).
      subst w1. exists (S drawn). cbn in Hc, Hn |- *.
      repeat split.
      * lia.
      * intros [|j] Hj; [rewrite Nat.add_0_r; exact Ho|].
        rewrite Nat.add_succ_r. apply Hfit. lia.
      * rewrite Hc, <- !app_assoc. reflexivity.
      * exact Hn.
Qed.

(** C3. When a row of the information table would cross
    [pageHeight - margin], that row and every row after it is left
    undrawn: only rows before it are drawn, all on the page that was
    current when the table started, while a page is added for each row
    skipped, and no row is drawn on an added page. *)
Theorem table_overflow_skips_rows recipe w w' k :
  draw_table recipe w = (Normal tt, w') ->
  (k < List.length (infoData recipe))%nat ->
  pageHeight - margin < currentY w + of_nat k * rowHeight + rowHeight ->
  exists drawn : nat,
    (drawn <= k)%nat /\
    content (pdf w')
    = content (pdf w)
      ++ row_drawings (numberOfPages (pdf w)) 10 (0, 0, 0) (currentY w) 0
           (firstn drawn (infoData recipe)) /\
    numberOfPages (pdf w')
    = (numberOfPages (pdf w) + (List.length (infoData recipe) - drawn))%nat /\
    (numberOfPages (pdf w) < numberOfPages (pdf w'))%nat.
Proof.
  intros H Hk Ho. unfold draw_table in H.
  seq H. seq H. seq H. seq H. seq H as Hrows. prim H.
  unfold forEach in Hrows. apply table_rows in Hrows.
  destruct Hrows as (drawn & Hle & Hfit & Hc & Hn).
  assert (Hdk : (drawn <= k)%nat).
  { destruct (Nat.le_gt_cases drawn k) as [|Hlt]; [assumption|].
    apply Hfit in Hlt. unfold overflows in Hlt. cbn [Nat.add] in Hlt.
    apply gt_true in Ho. congruence. }
  exists drawn.
  cbn [pdf currentY with_pdf with_currentY numberOfPages content fontSize
       textColor doc_setTextColor doc_setFont doc_setFontSize]
    in Hc, Hn |- *.
  repeat split; [exact Hdk | exact Hc | exact Hn | rewrite Hn; lia].
Qed.

(** ** What a run leaves behind, however it ends *)

(** A computation that hands no file to the user and logs nothing,
    whether it ends normally or throws. *)
Definition keeps_downloads {A} (m : M env A) : Prop :=
  forall w r w', m w = (r, w') ->
                 downloads w' = downloads w /\ console w' = console w.

Lemma kd_ret {A} (a : A) : keeps_downloads (ret a).
Proof. intros w r w' H. inversion H. split; reflexivity. Qed.

Lemma kd_gets {A} (f : env -> A) : keeps_downloads (gets f).
Proof. intros w r w' H. inversion H. split; reflexivity. Qed.

Lemma kd_modify (f : env -> env) :
  (forall w, downloads (f w) = downloads w /\ console (f w) = console w) ->
  keeps_downloads (modify f).
Proof. intros Hf w r w' H. inversion H. apply Hf. Qed.

Lemma kd_lib {A} c (effect : env -> A * env) :
  (forall w, downloads (snd (effect w)) = downloads w /\
             console (snd (effect w)) = console w) ->
  keeps_downloads (lib c effect).
Proof.
  intros Hf w r w' H. unfold lib in H. destruct (throws c w).
  - inversion H. split; reflexivity.
  - specialize (Hf w). destruct (effect w). inversion H; subst. exact Hf.
Qed.

Lemma kd_bind {A B} (m : M env A) (k : A -> M env B) :
  keeps_downloads m -> (forall a, keeps_downloads (k a)) ->
  keeps_downloads (bind m k).
Proof.
  intros Hm Hk w r w' H. unfold bind in H.
  destruct (m w) as [[a|e] w1] eqn:E.
  - destruct (Hk a _ _ _ H) as [-> ->]. exact (Hm _ _ _ E).
  - inversion H; subst. exact (Hm _ _ _ E).
Qed.

Lemma kd_when c (m : M env unit) :
  keeps_downloads m -> keeps_downloads (when c m).
Proof. destruct c; [trivial | intros _; apply kd_ret]. Qed.

Lemma kd_forEach_from {A} (f : A -> nat -> M env unit) xs :
  (forall x i, keeps_downloads (f x i)) ->
  forall i, keeps_downloads (forEach_from f xs i).
Proof.
  intros Hf. induction xs as [|x xs IH]; intros i; cbn [forEach_from].
  - apply kd_ret.
  - apply kd_bind; [apply Hf | intros _; apply IH].
Qed.

Lemma kd_forEach {A} (f : A -> nat -> M env unit) xs :
  (forall x i, keeps_downloads (f x i)) -> keeps_downloads (forEach xs f).
Proof. intros Hf. apply kd_forEach_from. exact Hf. Qed.

Create HintDb kd.
#[local] Hint Resolve kd_ret kd_gets kd_bind kd_when kd_forEach : kd.

(** Every call but [save] keeps the downloads. *)
Ltac kd_prim :=
  first [ apply kd_lib; intros; split; reflexivity
        | apply kd_modify; intros; split; reflexivity ].

Lemma kd_setFontSize size : keeps_downloads (setFontSize size).
Proof. kd_prim. Qed.
Lemma kd_setFont family style : keeps_downloads (setFont family style).
Proof. kd_prim. Qed.
Lemma kd_setTextColor r g b : keeps_downloads (setTextColor r g b).
Proof. kd_prim. Qed.
Lemma kd_setDrawColor r g b : keeps_downloads (setDrawColor r g b).
Proof. kd_prim. Qed.
Lemma kd_split_text txt width : keeps_downloads (split_text txt width).
Proof. kd_prim. Qed.
Lemma kd_addPage : keeps_downloads addPage.
Proof. kd_prim. Qed.
Lemma kd_text txt x y : keeps_downloads (text txt x y).
Proof. kd_prim. Qed.
Lemma kd_line x1 y1 x2 y2 : keeps_downloads (line x1 y1 x2 y2).
Proof. kd_prim. Qed.
Lemma kd_today locale : keeps_downloads (today locale).
Proof. kd_prim. Qed.
Lemma kd_set_currentY y : keeps_downloads (set_currentY y).
Proof. kd_prim. Qed.
Lemma kd_advance d : keeps_downloads (advance d).
Proof. kd_prim. Qed.

#[local] Hint Resolve kd_setFontSize kd_setFont kd_setTextColor
  kd_setDrawColor kd_split_text kd_addPage kd_text kd_line kd_today
  kd_set_currentY kd_advance : kd.

Lemma kd_addText txt fontSize isBold color :
  keeps_downloads (addText txt fontSize isBold color).
Proof. unfold addText. auto 12 with kd. Qed.

Lemma kd_addSeparator : keeps_downloads addSeparator.
Proof. unfold addSeparator. auto 12 with kd. Qed.

Lemma kd_draw_row tableStartY row index :
  keeps_downloads (draw_row tableStartY row index).
Proof. unfold draw_row. cbv zeta. destruct (gt _ _); auto 12 with kd. Qed.

#[local] Hint Resolve kd_addText kd_addSeparator kd_draw_row : kd.

Lemma kd_draw_table recipe : keeps_downloads (draw_table recipe).
Proof. unfold draw_table. auto 12 with kd. Qed.

#[local] Hint Resolve kd_draw_table : kd.

Lemma kd_layout recipe : keeps_downloads (layout recipe).
Proof.
  unfold layout. destruct (description recipe); auto 30 with kd.
Qed.

Lemma kd_footer : keeps_downloads footer.
Proof. unfold footer. auto 12 with kd. Qed.

(** The body of the [try] block hands over a file only by ending
    normally. *)
Lemma render_throw recipe w e w' :
  render recipe w = (Throw e, w') ->
  downloads w' = downloads w /\ console w' = console w.
Proof.
  unfold render. intros H.
  apply bind_throw in H. destruct H as [H | (a & w1 & H1 & H)].
  { exact (@kd_layout recipe _ _ _ H). }
  destruct (@kd_layout recipe _ _ _ H1) as [<- <-].
  apply bind_throw in H. destruct H as [H | (b & w2 & H2 & H)].
  { exact (@kd_footer _ _ _ H). }
  destruct (@kd_footer _ _ _ H2) as [<- <-].
  apply lib_throw in H. destruct H as [_ ->]. split; reflexivity.
Qed.

(** ** Failure of the export *)

(** X27. The constructor is called before the [try] block: what it throws
    reaches the caller as it is, not as the generic error, and nothing is
    logged, drawn or saved. *)
Lemma constructor_failure recipe w e :
  throws NewJsPDF w = Some e ->
  generateRecipePDF recipe w = (Throw e, w).
Proof.
  intros H. unfold generateRecipePDF, bind, new_jsPDF, lib.
  rewrite H. reflexivity.
Qed.

(** What threw, when the body of the [try] block throws: the layout,
    the footer, or [pdf.save] itself, which is reached last. *)
Definition thrown_by (recipe : RecipeWithDetails) (w : env)
    (cause : Js.error) : Prop :=
  (exists w', layout recipe w = (Throw cause, w')) \/
  (exists w1 w',
     layout recipe w = (Normal tt, w1) /\ footer w1 = (Throw cause, w')) \/
  (exists w1 w2,
     layout recipe w = (Normal tt, w1) /\ footer w1 = (Normal tt, w2) /\
     throws (Save (fileName (name recipe))) w2 = Some cause).

Lemma render_throw_cause recipe w e w' :
  render recipe w = (Throw e, w') -> thrown_by recipe w e.
Proof.
  unfold render, thrown_by. intros H.
  apply bind_throw in H. destruct H as [H | ([] & w1 & H1 & H)].
  { left. eauto. }
  apply bind_throw in H. destruct H as [H | ([] & w2 & H2 & H)].
  { right. left. eauto. }
  apply lib_throw in H. destruct H as [H _].
  right. right. eauto.
Qed.

(** C5. Whatever throws while the document is laid out, rendered or
    saved, the caller gets the one error 'No se pudo generar el PDF', the
    cause is logged once, and no file has been handed to the user:
    [pdf.save] was not reached, or is the call that threw. *)
Theorem export_failure_is_generic recipe w e w' :
  throws NewJsPDF w = None ->
  generateRecipePDF recipe w = (Throw e, w') ->
  e = Error (lit "No se pudo generar el PDF") /\
  downloads w' = downloads w /\
  exists cause,
    console w' = console w ++ [(lit "Error generating PDF:", cause)] /\
    thrown_by recipe (with_currentY margin (with_pdf (fun _ => blank) w))
              cause.
Proof.
  intros Hnew H. unfold generateRecipePDF in H.
  apply bind_throw in H. destruct H as [H | ([] & w1 & H1 & H)].
  { apply lib_throw in H. destruct H as [H _]. congruence. }
  prim H1.
  apply bind_throw in H. destruct H as [H | ([] & w2 & H2 & H)].
  { discriminate H. }
  prim H2.
  unfold try_catch in H.
  destruct (render recipe _) as [[[]|cause] w3] eqn:R; [discriminate H|].
  pose proof (render_throw_cause _ _ R) as Hcause.
  apply render_throw in R.
  unfold bind, console_error, modify, throw in H.
  inversion H; subst. destruct R as [Rd Rc]. cbn in Rd, Rc |- *.
  repeat split; [exact Rd|].
  exists cause. rewrite Rc. split; [reflexivity | exact Hcause].
Qed.

(** ** The footer *)

Definition footer_drawings (page : nat) (date : jsstring) : list drawing :=
  [ TextAt page (Str (lit "Generado con Recipe Manager App"))
           margin (pageHeight - 15) 8 (lit "normal") (128, 128, 128);
    TextAt page (Str date) (pageWidth - margin - 30) (pageHeight - 15)
           8 (lit "normal") (128, 128, 128) ].

Lemma footer_normal w w' :
  footer w = (Normal tt, w') ->
  numberOfPages (pdf w') = numberOfPages (pdf w) /\
  content (pdf w')
  = content (pdf w)
    ++ footer_drawings (numberOfPages (pdf w))
                       (toLocaleDateString (lit "es-ES")) /\
  currentY w' = currentY w /\
  downloads w' = downloads w.
Proof.
  intros H. unfold footer in H.
  seq H. seq H. seq H. seq H. seq H. prim H.
  cbn. rewrite <- app_assoc. repeat split.
Qed.

(** C10. A successful export writes the footer, the label and the date,
    at the height [pageHeight - 15], below the limit [pageHeight - margin]
    of the content, on the page current when the layout of the recipe
    ended and whatever the cursor is then; the document saved ends with
    it. *)
Theorem footer_position :
  (forall w w',
     footer w = (Normal tt, w') ->
     content (pdf w')
     = content (pdf w)
       ++ footer_drawings (numberOfPages (pdf w))
                          (toLocaleDateString (lit "es-ES")) /\
     currentY w' = currentY w) /\
  (forall recipe w w',
     generateRecipePDF recipe w = (Normal tt, w') ->
     exists w1 doc,
       layout recipe (with_currentY margin (with_pdf (fun _ => blank) w))
       = (Normal tt, w1) /\
       downloads w' = downloads w ++ [(fileName (name recipe), doc)] /\
       numberOfPages doc = numberOfPages (pdf w1) /\
       content doc
       = content (pdf w1)
         ++ footer_drawings (numberOfPages (pdf w1))
                            (toLocaleDateString (lit "es-ES"))) /\
  Forall (fun g => pageHeight - margin < top g /\ top g == pageHeight - 15)
         (footer_drawings 1 (toLocaleDateString (lit "es-ES"))).
Proof.
  split; [|split].
  - intros w w' H. apply footer_normal in H. tauto.
  - intros recipe w w' H. unfold generateRecipePDF in H.
    seq H. seq H. unfold try_catch in H.
    destruct (render recipe _) as [[[]|cause] w3] eqn:R;
      [|discriminate H].
    inversion H; subst; clear H.
    unfold render in R. seq R as Hlayout. seq R as Hfooter. prim R.
    apply footer_normal in Hfooter.
    destruct Hfooter as (Hn & Hc & _ & Hd).
    exists s, (pdf s0). cbn [downloads with_downloads].
    rewrite Hd. destruct (@kd_layout recipe _ _ _ Hlayout) as [-> _].
    repeat split; assumption.
  - unfold footer_drawings, margin.
    repeat constructor; cbn [top]; lra.
Qed.

(** ** The rows of the information table *)

(** C4. The information table is built from the preparation time, the
    cooking time, the servings and the difficulty, in this order, followed
    by the category as fifth row when the recipe has one (a non-empty
    string) and by nothing otherwise. *)
Theorem infoData_rows recipe :
  let four :=
    [ (Tiempo_de_Preparacion,
       number_to_string float_to_string
         (num_or (preparation_time recipe) 0) ++ lit " minutos");
      (Tiempo_de_Coccion,
       number_to_string float_to_string
         (num_or (cooking_time recipe) 0) ++ lit " minutos");
      (lit "Porciones:",
       number_to_string float_to_string (num_or (servings recipe) 1));
      (lit "Dificultad:", getDifficultyText (difficulty recipe)) ] in
  (category recipe = None -> infoData recipe = four) /\
  (category recipe = Some [] -> infoData recipe = four) /\
  (forall c, category recipe = Some c -> c <> [] ->
             infoData recipe = four ++ [(Categoria, c)]).
Proof.
  cbv zeta. unfold infoData. repeat split.
  - intros ->. reflexivity.
  - intros ->. reflexivity.
  - intros c -> Hc. destruct c; [contradiction|reflexivity].
Qed.

(** ** The ingredient lines *)

Lemma addText_drawing txt fontSize isBold color w w' :
  addText txt fontSize isBold color w = (Normal tt, w') ->
  exists page y,
    content (pdf w')
    = content (pdf w)
      ++ [TextAt page
            (Lines (splitTextToSize (styled fontSize isBold color (pdf w))
                                    txt contentWidth))
            margin y fontSize (font_of isBold) (ink_of color)].
Proof.
  intros H. apply addText_normal in H. cbv zeta in H.
  destruct (gt _ _); subst w'; do 2 eexists; reflexivity.
Qed.

(** An ingredient and the one block of text drawn for it. *)
Definition ingredient_block (i : Ingredient) (g : drawing) : Prop :=
  exists page y d,
    g = TextAt page
          (Lines (splitTextToSize d (ingredientText i) contentWidth))
          margin y 11 (lit "normal") (ink_of (lit "#000000")).

Lemma ingredient_blocks ings : forall index w w',
  forEach_from (fun i _ => addText (ingredientText i) 11 false
                                   (lit "#000000")) ings index w
  = (Normal tt, w') ->
  exists blocks,
    content (pdf w') = content (pdf w) ++ blocks /\
    Forall2 ingredient_block ings blocks.
Proof.
  induction ings as [|i ings IH]; intros index w w' H.
  - inversion H; subst. exists []. rewrite app_nil_r. auto.
  - cbn [forEach_from] in H.
    apply bind_normal in H. destruct H as ([] & w1 & H1 & H).
    apply addText_drawing in H1. destruct H1 as (page & y & Hg).
    apply IH in H. destruct H as (blocks & Hc & Hall).
    eexists (_ :: blocks). rewrite Hc, Hg, <- app_assoc.
    split; [reflexivity|]. constructor; [|exact Hall].
    exists page, y. eexists. reflexivity.
Qed.

Definition without_notes (i : Ingredient) : Ingredient :=
  {| ingredient := ingredient i; quantity := quantity i;
     notes := None; unit_ := unit_ i |}.

(** ** The separator *)

Lemma addSeparator_normal w w' :
  addSeparator w = (Normal tt, w') ->
  w' = if gt (currentY w + 10) (pageHeight - margin)
       then with_currentY (margin + 15)
              (with_pdf (fun d =>
                 doc_line margin margin (pageWidth - margin) margin
                   (doc_setDrawColor (249, 115, 22) (doc_addPage d))) w)
       else with_currentY (currentY w + 15)
              (with_pdf (fun d =>
                 doc_line margin (currentY w) (pageWidth - margin)
                   (currentY w) (doc_setDrawColor (249, 115, 22) d)) w).
Proof.
  intros H. unfold addSeparator in H.
  seq H. seq H as Hbreak. apply page_break_normal in Hbreak.
  seq H. seq H. seq H. prim H.
  destruct (gt _ _); reflexivity.
Qed.

(** X1. On a page tall enough for the two margins and a rule, the rule of a
    separator is always drawn with 10 units left above the bottom margin:
    at the cursor, or at the top margin of a page added for it; it spans
    the content width and the cursor ends 15 units below it. *)
Theorem separator_fits w w' :
  addSeparator w = (Normal tt, w') ->
  margin * 2 + 10 <= pageHeight ->
  exists y,
    content (pdf w')
    = content (pdf w)
      ++ [LineAt (numberOfPages (pdf w')) margin y (pageWidth - margin) y
                 (249, 115, 22)] /\
    y + 10 <= pageHeight - margin /\
    currentY w' = y + 15 /\
    ((y = currentY w /\ numberOfPages (pdf w') = numberOfPages (pdf w)) \/
     (y = margin /\ pageHeight - margin < currentY w + 10 /\
      numberOfPages (pdf w') = S (numberOfPages (pdf w)))).
Proof.
  intros H Hpage. apply addSeparator_normal in H.
  destruct (gt _ _) eqn:E; subst w'.
  - apply gt_true in E. exists margin. cbn.
    split; [reflexivity|]. split; [unfold margin in *; lra|].
    split; [reflexivity|]. right. auto.
  - apply gt_false in E. exists (currentY w). cbn.
    split; [reflexivity|]. split; [exact E|].
    split; [reflexivity|]. left. auto.
Qed.

(** ** The table when it fits, and the cursor after it *)

Lemma of_nat_le a b : (a <= b)%nat -> of_nat a <= of_nat b.
Proof.
  intros H. unfold of_nat, Qle. cbn. lia.
Qed.

Lemma rows_all_fit tableStartY rows : forall index w w',
  (forall j, (j < List.length rows)%nat ->
             overflows tableStartY (index + j) = false) ->
  forEach_from (draw_row tableStartY) rows index w = (Normal tt, w') ->
  content (pdf w')
  = content (pdf w)
    ++ row_drawings (numberOfPages (pdf w)) (fontSize (pdf w))
         (textColor (pdf w)) tableStartY index rows /\
  numberOfPages (pdf w') = numberOfPages (pdf w).
Proof.
  induction rows as [|row rows IH]; intros index w w' Hfit H.
  - inversion H; subst. cbn. rewrite app_nil_r. auto.
  - assert (Ho : overflows tableStartY index = false).
    { rewrite <- (Nat.add_0_r index). apply Hfit. cbn. lia. }
    cbn [forEach_from] in H.
    apply bind_normal in H. destruct H as ([] & w1 & H1 & H).
    apply (@draw_row_fits _ _ _ _ _ Ho) in H1.
    apply IH in H.
    + destruct H as [Hc Hn]. subst w1. cbn in Hc, Hn |- *.
      rewrite Hc, <- !app_assoc. split; [reflexivity | exact Hn].
    + intros j Hj. rewrite Nat.add_succ_comm. apply Hfit. cbn. lia.
Qed.

(** X2. When the last row of the information table ends at or above
    [pageHeight - margin], every row is drawn, label in bold and value
    beside it, 8 units apart from the cursor down, on the current page,
    and no page is added. *)
Theorem table_fits recipe w w' :
  draw_table recipe w = (Normal tt, w') ->
  currentY w + of_nat (List.length (infoData recipe)) * rowHeight
  <= pageHeight - margin ->
  content (pdf w')
  = content (pdf w)
    ++ row_drawings (numberOfPages (pdf w)) 10 (0, 0, 0) (currentY w) 0
         (infoData recipe) /\
  numberOfPages (pdf w') = numberOfPages (pdf w).
Proof.
  intros H Hlast. unfold draw_table in H.
  seq H. seq H. seq H. seq H. seq H as Hrows. prim H.
  unfold forEach in Hrows. apply rows_all_fit in Hrows.
  - cbn [pdf currentY with_pdf with_currentY numberOfPages content fontSize
         textColor doc_setTextColor doc_setFont doc_setFontSize]
      in Hrows |- *.
    exact Hrows.
  - intros j Hj. cbn [Nat.add]. unfold overflows. apply gt_false.
    apply of_nat_le in Hj. rewrite of_nat_S in Hj.
    unfold rowHeight in *. nra.
Qed.

(** X3. The cursor after the information table is the cursor before it
    plus 8 per row plus 15, whether or not rows overflowed: the reset to
    the top margin made on overflow is overwritten. After an overflow the
    cursor is therefore below [pageHeight - margin] although pages were
    added, and the separator that follows starts one more page and draws
    its rule at the top margin. *)
Theorem cursor_after_table recipe w w1 :
  draw_table recipe w = (Normal tt, w1) ->
  currentY w1
  = currentY w + of_nat (List.length (infoData recipe)) * rowHeight + 15 /\
  forall k w2,
    (k < List.length (infoData recipe))%nat ->
    pageHeight - margin < currentY w + of_nat k * rowHeight + rowHeight ->
    addSeparator w1 = (Normal tt, w2) ->
    pageHeight - margin < currentY w1 /\
    numberOfPages (pdf w2) = S (numberOfPages (pdf w1)) /\
    content (pdf w2)
    = content (pdf w1)
      ++ [LineAt (S (numberOfPages (pdf w1))) margin margin
                 (pageWidth - margin) margin (249, 115, 22)] /\
    currentY w2 = margin + 15.
Proof.
  intros H.
  assert (Hy : currentY w1
               = currentY w
                 + of_nat (List.length (infoData recipe)) * rowHeight + 15).
  { unfold draw_table in H.
    seq H. seq H. seq H. seq H. seq H as Hrows. prim H. reflexivity. }
  split; [exact Hy|].
  intros k w2 Hk Ho Hsep.
  assert (Hbelow : pageHeight - margin < currentY w1).
  { rewrite Hy. apply of_nat_le in Hk. rewrite of_nat_S in Hk.
    unfold rowHeight in *. nra. }
  split; [exact Hbelow|].
  apply addSeparator_normal in Hsep.
  assert (E : gt (currentY w1 + 10) (pageHeight - margin) = true)
    by (apply gt_true; lra).
  rewrite E in Hsep. subst w2. cbn. auto.
Qed.

(** ** The pages of the drawings *)

Definition page_of (g : drawing) : nat :=
  match g with
  | TextAt page _ _ _ _ _ _ => page
  | LineAt page _ _ _ _ _ => page
  end.

(** The drawings are on pages that go up from [lo] and stay within [hi]. *)
Fixpoint pages_ascend (lo hi : nat) (l : list drawing) : Prop :=
  match l with
  | [] => (lo <= hi)%nat
  | g :: l' => (lo <= page_of g)%nat /\ pages_ascend (page_of g) hi l'
  end.

Lemma pages_ascend_more lo hi hi' l :
  pages_ascend lo hi l -> (hi <= hi')%nat -> pages_ascend lo hi' l.
Proof.
  revert lo. induction l as [|g l IH]; intros lo H Hhi; cbn in *.
  - lia.
  - destruct H as [Hlo H]. split; [exact Hlo | apply IH; assumption].
Qed.

Lemma pages_ascend_snoc lo hi l g :
  pages_ascend lo hi l -> page_of g = hi -> pages_ascend lo hi (l ++ [g]).
Proof.
  revert lo. induction l as [|g0 l IH]; intros lo H Hg; cbn in *.
  - rewrite Hg. split; [exact H | lia].
  - destruct H as [Hlo H]. split; [exact Hlo | apply IH; assumption].
Qed.



(** The document of a state has its drawings in page order on pages that
    exist. *)
Definition paged (w : env) : Prop :=
  pages_ascend 1 (numberOfPages (pdf w)) (content (pdf w)).

Definition keeps_paged {A} (m : M env A) : Prop :=
  forall w r w', paged w -> m w = (r, w') -> paged w'.

Lemma kp_ret {A} (a : A) : keeps_paged (ret a).
Proof. intros w r w' Hp H. inversion H; subst. exact Hp. Qed.

Lemma kp_gets {A} (f : env -> A) : keeps_paged (gets f).
Proof. intros w r w' Hp H. inversion H; subst. exact Hp. Qed.

Lemma kp_modify (f : env -> env) :
  (forall w, paged w -> paged (f w)) -> keeps_paged (modify f).
Proof. intros Hf w r w' Hp H. inversion H; subst. apply Hf. exact Hp. Qed.

Lemma kp_lib {A} c (effect : env -> A * env) :
  (forall w, paged w -> paged (snd (effect w))) ->
  keeps_paged (lib c effect).
Proof.
  intros Hf w r w' Hp H. unfold lib in H. destruct (throws c w).
  - inversion H; subst. exact Hp.
  - specialize (Hf w Hp). destruct (effect w). inversion H; subst. exact Hf.
Qed.

Lemma kp_bind {A B} (m : M env A) (k : A -> M env B) :
  keeps_paged m -> (forall a, keeps_paged (k a)) -> keeps_paged (bind m k).
Proof.
  intros Hm Hk w r w' Hp H. unfold bind in H.
  destruct (m w) as [[a|e] w1] eqn:E.
  - exact (Hk a _ _ _ (Hm _ _ _ Hp E) H).
  - inversion H; subst. exact (Hm _ _ _ Hp E).
Qed.

Lemma kp_when c (m : M env unit) : keeps_paged m -> keeps_paged (when c m).
Proof. destruct c; [trivial | intros _; apply kp_ret]. Qed.

Lemma kp_forEach_from {A} (f : A -> nat -> M env unit) xs :
  (forall x i, keeps_paged (f x i)) ->
  forall i, keeps_paged (forEach_from f xs i).
Proof.
  intros Hf. induction xs as [|x xs IH]; intros i; cbn [forEach_from].
  - apply kp_ret.
  - apply kp_bind; [apply Hf | intros _; apply IH].
Qed.

Lemma kp_forEach {A} (f : A -> nat -> M env unit) xs :
  (forall x i, keeps_paged (f x i)) -> keeps_paged (forEach xs f).
Proof. intros Hf. apply kp_forEach_from. exact Hf. Qed.

Create HintDb kp.
#[local] Hint Resolve kp_ret kp_gets kp_bind kp_when kp_forEach : kp.

(** A call that changes neither the pages nor the drawings. *)
Ltac kp_same :=
  first [ apply kp_lib | apply kp_modify ];
  intros w Hp; exact Hp.

Lemma kp_setFontSize size : keeps_paged (setFontSize size).
Proof. kp_same. Qed.
Lemma kp_setFont family style : keeps_paged (setFont family style).
Proof. kp_same. Qed.
Lemma kp_setTextColor r g b : keeps_paged (setTextColor r g b).
Proof. kp_same. Qed.
Lemma kp_setDrawColor r g b : keeps_paged (setDrawColor r g b).
Proof. kp_same. Qed.
Lemma kp_split_text txt width : keeps_paged (split_text txt width).
Proof. kp_same. Qed.
Lemma kp_today locale : keeps_paged (today locale).
Proof. kp_same. Qed.
Lemma kp_set_currentY y : keeps_paged (set_currentY y).
Proof. kp_same. Qed.
Lemma kp_advance d : keeps_paged (advance d).
Proof. kp_same. Qed.
Lemma kp_save name : keeps_paged (save name).
Proof. kp_same. Qed.

Lemma kp_addPage : keeps_paged addPage.
Proof.
  apply kp_lib. intros w Hp. unfold paged in *. cbn.
  apply (@pages_ascend_more _ _ _ _ Hp). lia.
Qed.

Lemma kp_text txt x y : keeps_paged (text txt x y).
Proof.
  apply kp_lib. intros w Hp. unfold paged in *. cbn.
  apply pages_ascend_snoc; [exact Hp | reflexivity].
Qed.

Lemma kp_line x1 y1 x2 y2 : keeps_paged (line x1 y1 x2 y2).
Proof.
  apply kp_lib. intros w Hp. unfold paged in *. cbn.
  apply pages_ascend_snoc; [exact Hp | reflexivity].
Qed.

#[local] Hint Resolve kp_setFontSize kp_setFont kp_setTextColor
  kp_setDrawColor kp_split_text kp_addPage kp_text kp_line kp_today
  kp_set_currentY kp_advance kp_save : kp.

Lemma kp_addText txt fontSize isBold color :
  keeps_paged (addText txt fontSize isBold color).
Proof. unfold addText. auto 12 with kp. Qed.

Lemma kp_addSeparator : keeps_paged addSeparator.
Proof. unfold addSeparator. auto 12 with kp. Qed.

Lemma kp_draw_row tableStartY row index :
  keeps_paged (draw_row tableStartY row index).
Proof. unfold draw_row. cbv zeta. destruct (gt _ _); auto 12 with kp. Qed.

#[local] Hint Resolve kp_addText kp_addSeparator kp_draw_row : kp.

Lemma kp_draw_table recipe : keeps_paged (draw_table recipe).
Proof. unfold draw_table. auto 12 with kp. Qed.

#[local] Hint Resolve kp_draw_table : kp.

Lemma kp_layout recipe : keeps_paged (layout recipe).
Proof. unfold layout. destruct (description recipe); auto 30 with kp. Qed.

Lemma kp_footer : keeps_paged footer.
Proof. unfold footer. auto 12 with kp. Qed.

(** ** How an export ends *)

Lemma export_normal recipe w w' :
  generateRecipePDF recipe w = (Normal tt, w') ->
  exists w2,
    (layout recipe ;; footer)
      (with_currentY margin (with_pdf (fun _ => blank) w))
    = (Normal tt, w2) /\
    w' = with_downloads
           (downloads w ++ [(fileName (name recipe), pdf w2)]) w2 /\
    console w2 = console w.
Proof.
  intros H. unfold generateRecipePDF in H.
  seq H. seq H. unfold try_catch in H.
  destruct (render recipe _) as [[[]|cause] w3] eqn:R; [|discriminate H].
  inversion H; subst; clear H.
  unfold render in R. seq R as Hlayout. seq R as Hfooter. prim R.
  destruct (@kd_layout recipe _ _ _ Hlayout) as [Hd1 Hc1].
  destruct (@kd_footer _ _ _ Hfooter) as [Hd2 Hc2].
  eexists. split; [|split].
  - unfold bind. rewrite Hlayout. exact Hfooter.
  - rewrite Hd2, Hd1. reflexivity.
  - rewrite Hc2, Hc1. reflexivity.
Qed.

Lemma export_throw recipe w e w' :
  generateRecipePDF recipe w = (Throw e, w') ->
  downloads w' = downloads w /\
  (throws NewJsPDF w = Some e /\ console w' = console w \/
   e = Error (lit "No se pudo generar el PDF") /\
   exists cause,
     console w' = console w ++ [(lit "Error generating PDF:", cause)]).
Proof.
  intros H. unfold generateRecipePDF in H.
  apply bind_throw in H. destruct H as [H | ([] & w1 & H1 & H)].
  { apply lib_throw in H. destruct H as [H ->]. auto. }
  prim H1.
  apply bind_throw in H. destruct H as [H | ([] & w2 & H2 & H)].
  { discriminate H. }
  prim H2.
  unfold try_catch in H.
  destruct (render recipe _) as [[[]|cause] w3] eqn:R; [discriminate H|].
  apply render_throw in R. destruct R as [Rd Rc].
  unfold bind, console_error, modify, throw in H.
  inversion H; subst. cbn in Rd, Rc |- *.
  split; [exact Rd|]. right. split; [reflexivity|].
  exists cause. rewrite Rc. reflexivity.
Qed.

(** ** What the layout draws, in order *)

(** One block of text as [addText] draws it: the lines [txt] is wrapped
    into, at the left margin, in the font the call asks for. *)
Definition text_block (txt : jsstring) (fontSize : Q) (isBold : bool)
    (color : jsstring) (g : drawing) : Prop :=
  exists page y d,
    g = TextAt page (Lines (splitTextToSize d txt contentWidth))
          margin y fontSize (font_of isBold) (ink_of color).

(** The rule of a separator, across the content width. *)
Definition rule (g : drawing) : Prop :=
  exists page y,
    g = LineAt page margin y (pageWidth - margin) y (249, 115, 22).

Definition step_block (i : Instruction) (g : drawing) : Prop :=
  text_block (stepText i) 11 false (lit "#000000") g.

(** The description: one block when the recipe has one, nothing when it
    is absent or empty. *)
Definition description_blocks (recipe : RecipeWithDetails)
    (desc : list drawing) : Prop :=
  match description recipe with
  | Some (c :: d) =>
      exists g, desc = [g] /\ text_block (c :: d) 12 false (lit "#666666") g
  | Some [] | None => desc = []
  end.

(** The rows of the information table that were drawn: the first ones,
    label and value, on one page. *)
Definition table_rows_drawn (recipe : RecipeWithDetails)
    (rows : list drawing) : Prop :=
  exists drawn page y,
    rows = row_drawings page 10 (0, 0, 0) y 0
             (firstn drawn (infoData recipe)).

(** The drawings of a recipe in reading order: title, description, table,
    rule, the heading 'Ingredientes', one block per ingredient, rule, the
    heading 'Instrucciones', one block per instruction. *)
Definition laid_out (recipe : RecipeWithDetails) (l : list drawing)
  : Prop :=
  exists title desc rows rule1 heading1 ings rule2 heading2 steps,
    l = [title] ++ desc ++ rows ++ [rule1; heading1] ++ ings
        ++ [rule2; heading2] ++ steps /\
    text_block (name recipe) 24 true (lit "#f97316") title /\
    description_blocks recipe desc /\
    table_rows_drawn recipe rows /\
    rule rule1 /\
    text_block (lit "Ingredientes") 18 true (lit "#f97316") heading1 /\
    Forall2 ingredient_block (ingredients recipe) ings /\
    rule rule2 /\
    text_block (lit "Instrucciones") 18 true (lit "#f97316") heading2 /\
    Forall2 step_block (instructions recipe) steps.

Lemma addText_text_block txt fontSize isBold color w w' :
  addText txt fontSize isBold color w = (Normal tt, w') ->
  exists g,
    content (pdf w') = content (pdf w) ++ [g] /\
    text_block txt fontSize isBold color g.
Proof.
  intros H. apply addText_drawing in H. destruct H as (page & y & H).
  eexists. split; [exact H|]. exists page, y. eexists. reflexivity.
Qed.

Lemma addSeparator_rule w w' :
  addSeparator w = (Normal tt, w') ->
  exists g, content (pdf w') = content (pdf w) ++ [g] /\ rule g.
Proof.
  intros H. apply addSeparator_normal in H.
  destruct (gt _ _); subst w'; eexists;
    (split; [cbn; reflexivity|]); do 2 eexists; reflexivity.
Qed.

Lemma draw_table_content recipe w w' :
  draw_table recipe w = (Normal tt, w') ->
  exists rows,
    content (pdf w') = content (pdf w) ++ rows /\
    table_rows_drawn recipe rows.
Proof.
  intros H. unfold draw_table in H.
  seq H. seq H. seq H. seq H. seq H as Hrows. prim H.
  unfold forEach in Hrows. apply table_rows in Hrows.
  destruct Hrows as (drawn & _ & _ & Hc & _).
  cbn [pdf currentY with_pdf with_currentY numberOfPages content fontSize
       textColor doc_setTextColor doc_setFont doc_setFontSize]
    in Hc |- *.
  eexists. split; [exact Hc|]. exists drawn. do 2 eexists. reflexivity.
Qed.

Lemma step_blocks steps : forall index w w',
  forEach_from (fun i (_ : nat) =>
                  addText (stepText i) 11 false (lit "#000000") ;;
                  advance 3) steps index w
  = (Normal tt, w') ->
  exists blocks,
    content (pdf w') = content (pdf w) ++ blocks /\
    Forall2 step_block steps blocks.
Proof.
  induction steps as [|i steps IH]; intros index w w' H.
  - inversion H; subst. exists []. rewrite app_nil_r. auto.
  - cbn [forEach_from] in H.
    apply bind_normal in H. destruct H as ([] & w1 & H1 & H).
    seq H1 as Hblock. prim H1.
    apply addText_text_block in Hblock. destruct Hblock as (g & Hg & Hb).
    apply IH in H. destruct H as (blocks & Hc & Hall).
    exists (g :: blocks). cbn [pdf with_currentY] in Hc.
    rewrite Hc, Hg, <- app_assoc.
    split; [reflexivity|]. constructor; [exact Hb | exact Hall].
Qed.

Lemma description_content recipe w w' :
  match description recipe with
  | Some d =>
      when (truthy_str (Some d))
           (addText d 12 false (lit "#666666") ;; advance 10)
  | None => ret tt
  end w = (Normal tt, w') ->
  exists desc,
    content (pdf w') = content (pdf w) ++ desc /\
    description_blocks recipe desc.
Proof.
  unfold description_blocks.
  destruct (description recipe) as [[|c d]|]; cbn [truthy_str when];
    intros H.
  - prim H. exists []. rewrite app_nil_r. auto.
  - seq H as Hblock. prim H.
    apply addText_text_block in Hblock. destruct Hblock as (g & Hg & Hb).
    exists [g]. split; [exact Hg|]. exists g. auto.
  - prim H. exists []. rewrite app_nil_r. auto.
Qed.

Lemma layout_content recipe w w' :
  layout recipe w = (Normal tt, w') ->
  exists l, content (pdf w') = content (pdf w) ++ l /\ laid_out recipe l.
Proof.
  intros H. unfold layout in H.
  seq H as Htitle. seq H. seq H as Hdesc. seq H as Htable.
  seq H as Hrule1. seq H as Hheading1. seq H. seq H as Hings. seq H.
  seq H as Hrule2. seq H as Hheading2. seq H.
  apply addText_text_block in Htitle. destruct Htitle as (title & E1 & T).
  apply description_content in Hdesc. destruct Hdesc as (desc & E2 & D).
  apply draw_table_content in Htable. destruct Htable as (rows & E3 & R).
  apply addSeparator_rule in Hrule1. destruct Hrule1 as (rule1 & E4 & R1).
  apply addText_text_block in Hheading1.
  destruct Hheading1 as (heading1 & E5 & H1).
  unfold forEach in Hings, H.
  apply ingredient_blocks in Hings. destruct Hings as (ings & E6 & I).
  apply addSeparator_rule in Hrule2. destruct Hrule2 as (rule2 & E7 & R2).
  apply addText_text_block in Hheading2.
  destruct Hheading2 as (heading2 & E8 & H2).
  apply step_blocks in H. destruct H as (steps & E9 & S).
  cbn [pdf with_currentY] in *.
  eexists. split.
  2: { exists title, desc, rows, rule1, heading1, ings, rule2, heading2,
         steps.
       split; [reflexivity|]. repeat (split; [assumption|]). assumption. }
  rewrite E9, E8, E7, E6, E5, E4, E3, E2, E1.
  rewrite <- !app_assoc. reflexivity.
Qed.

(** The document an export that ended normally saved: what the layout drew
    on a blank document, then the footer on the last page. *)
Lemma export_content recipe w w' :
  generateRecipePDF recipe w = (Normal tt, w') ->
  exists doc l,
    downloads w' = downloads w ++ [(fileName (name recipe), doc)] /\
    content doc
    = l ++ footer_drawings (numberOfPages doc)
                           (toLocaleDateString (lit "es-ES")) /\
    laid_out recipe l /\
    pages_ascend 1 (numberOfPages doc) (content doc).
Proof.
  intros H. apply export_normal in H. destruct H as (w2 & Hrun & -> & _).
  apply bind_normal in Hrun. destruct Hrun as ([] & w1 & Hl & Hf).
  assert (Hp : paged w2).
  { refine (@kp_footer w1 (Normal tt) w2 _ Hf).
    refine (@kp_layout recipe _ (Normal tt) w1 _ Hl).
    unfold paged. cbn. lia. }
  apply layout_content in Hl. destruct Hl as (l & Hc & Hlaid).
  apply footer_normal in Hf. destruct Hf as (Hn & Hfc & _ & _).
  exists (pdf w2), l. cbn [downloads with_downloads pdf].
  split; [reflexivity|]. split; [|split; [exact Hlaid | exact Hp]].
  rewrite Hfc, Hc, Hn. reflexivity.
Qed.

(** ** The line of an ingredient, and where it is drawn *)

(** C7. The line of an ingredient is the bullet, a space, the quantity
    followed by a space, the unit, a space, the name, and the notes in
    parentheses after a space; each of quantity, unit and notes leaves
    nothing of its own when it is missing (absent, 0 or empty), whatever
    the other two are. So 'manzana' with quantity 3, no unit and no notes
    gives the bullet followed by " 3  manzana". In the document an export
    saves, the heading 'Ingredientes' is followed by one block of text per
    ingredient, in order, each made of the line of its ingredient wrapped
    to the content width, and then by the rule of the next separator. *)
Theorem ingredient_line_format :
  (forall i,
     exists quantity_part unit_part notes_part,
       ingredientText i
       = bullet ++ lit " " ++ quantity_part ++ unit_part ++ lit " "
         ++ ingredient i ++ notes_part /\
       (quantity i = None -> quantity_part = []) /\
       (forall q, quantity i = Some q -> q == 0 -> quantity_part = []) /\
       (forall q,
          quantity i = Some q -> ~ q == 0 ->
          quantity_part = number_to_string float_to_string q ++ lit " ") /\
       (unit_ i = None -> unit_part = []) /\
       (forall u, unit_ i = Some u -> unit_part = unit_name u) /\
       (notes i = None \/ notes i = Some [] -> notes_part = []) /\
       (forall n,
          notes i = Some n -> n <> [] ->
          notes_part = lit " (" ++ n ++ lit ")")) /\
  (forall i q u n,
     quantity i = Some q -> ~ q == 0 ->
     unit_ i = Some u -> unit_name u <> [] ->
     notes i = Some n -> n <> [] ->
     ingredientText i
     = bullet ++ lit " " ++ number_to_string float_to_string q ++ lit " "
       ++ unit_name u ++ lit " " ++ ingredient i
       ++ lit " (" ++ n ++ lit ")") /\
  (forall i,
     quantity i = None -> unit_ i = None -> notes i = None ->
     ingredientText i = bullet ++ lit "  " ++ ingredient i) /\
  (forall i u,
     quantity i = None -> unit_ i = Some u -> notes i = None ->
     ingredientText i
     = bullet ++ lit " " ++ unit_name u ++ lit " " ++ ingredient i) /\
  (forall i q,
     quantity i = Some q -> ~ q == 0 -> unit_ i = None -> notes i = None ->
     ingredientText i
     = bullet ++ lit " " ++ number_to_string float_to_string q ++ lit "  "
       ++ ingredient i) /\
  (forall i n,
     notes i = Some n -> n <> [] ->
     ingredientText i
     = ingredientText (without_notes i) ++ lit " (" ++ n ++ lit ")") /\
  ingredientText {| ingredient := lit "manzana"; quantity := Some 3;
                    notes := None; unit_ := None |}
  = bullet ++ lit " 3  manzana" /\
  (forall recipe w w',
     generateRecipePDF recipe w = (Normal tt, w') ->
     exists doc before heading blocks rule_ after,
       downloads w' = downloads w ++ [(fileName (name recipe), doc)] /\
       content doc = before ++ [heading] ++ blocks ++ [rule_] ++ after /\
       text_block (lit "Ingredientes") 18 true (lit "#f97316") heading /\
       Forall2 ingredient_block (ingredients recipe) blocks /\
       rule rule_).
Proof.
  assert (Hnz : forall q, ~ q == 0 -> Qeq_bool q 0 = false).
  { intros q Hq. destruct (Qeq_bool q 0) eqn:E; [|reflexivity].
    apply Qeq_bool_iff in E. contradiction. }
  split; [|split; [|split; [|split; [|split; [|split; [|split]]]]]].
  - intros i. unfold ingredientText.
    eexists _, (str_or (option_map unit_name (unit_ i)) []), _.
    split; [reflexivity|].
    split; [intros ->; reflexivity|].
    split.
    { intros q -> Hq. cbn [truthy_num]. apply Qeq_bool_iff in Hq.
      rewrite Hq. reflexivity. }
    split.
    { intros q -> Hq. cbn [truthy_num]. rewrite (Hnz _ Hq). reflexivity. }
    split; [intros ->; reflexivity|].
    split.
    { intros u ->. cbn [option_map str_or truthy_str].
      destruct (unit_name u); reflexivity. }
    split; [intros [-> | ->]; reflexivity|].
    intros n -> Hn. destruct n; [contradiction | reflexivity].
  - intros i q u n Hq Hq0 Hu Hu0 Hn Hn0. unfold ingredientText.
    rewrite Hq, Hu, Hn. cbn [truthy_num option_map str_or truthy_str].
    rewrite (Hnz _ Hq0).
    destruct (unit_name u) eqn:Eu; [contradiction|].
    destruct n; [contradiction|].
    cbn [negb]. rewrite <- !app_assoc. reflexivity.
  - intros i Hq Hu Hn. unfold ingredientText.
    rewrite Hq, Hu, Hn. cbn. rewrite app_nil_r. reflexivity.
  - intros i u Hq Hu Hn. unfold ingredientText.
    rewrite Hq, Hu, Hn. cbn [option_map str_or truthy_str].
    rewrite app_nil_r. destruct (unit_name u); reflexivity.
  - intros i q Hq Hq0 Hu Hn. unfold ingredientText.
    rewrite Hq, Hu, Hn. cbn [truthy_num option_map str_or].
    rewrite (Hnz _ Hq0). cbn [negb].
    rewrite app_nil_r, <- !app_assoc. reflexivity.
  - intros i n Hn Hn0. unfold ingredientText, without_notes.
    cbn [notes quantity unit_ ingredient]. rewrite Hn.
    destruct n; [contradiction|].
    cbn [truthy_str]. rewrite app_nil_r, <- !app_assoc. reflexivity.
  - reflexivity.
  - intros recipe w w' H. apply export_content in H.
    destruct H as (doc & l & Hd & Hc & Hlaid & _).
    destruct Hlaid as (title & desc & rows & rule1 & heading1 & ings
                       & rule2 & heading2 & steps & -> & _ & _ & _ & _
                       & Hh & Hi & Hr & _).
    exists doc, ([title] ++ desc ++ rows ++ [rule1]), heading1, ings,
      rule2.
    eexists. split; [exact Hd|].
    split; [|split; [exact Hh | split; [exact Hi | exact Hr]]].
    rewrite Hc, <- !app_assoc. cbn [app]. reflexivity.
Qed.

(** ** The document saved *)


(** X5. Exactly one file is handed to the user by an export that ends
    normally, under the sanitized name and with nothing logged; none by an
    export that throws. *)
Theorem export_saves_once recipe w :
  match generateRecipePDF recipe w with
  | (Normal _, w') =>
      exists doc,
        downloads w' = downloads w ++ [(fileName (name recipe), doc)] /\
        console w' = console w
  | (Throw _, w') => downloads w' = downloads w
  end.
Proof.
  destruct (generateRecipePDF recipe w) as [[[]|e] w'] eqn:H.
  - apply export_normal in H. destruct H as (w2 & _ & -> & Hc).
    exists (pdf w2). split; [reflexivity | exact Hc].
  - apply export_throw in H. apply H.
Qed.

(** ** Edge cases of the texts *)

Definition safe_char (c : code_unit) : bool :=
  is_lower c || is_digit c || (c =? 95)%N.

Lemma sanitized_char_safe c :
  safe_char (if matches_a_z0_9_i c then ascii_lower c else 95%N) = true.
Proof.
  unfold safe_char, matches_a_z0_9_i, ascii_lower.
  destruct (is_upper c) eqn:Hu.
  - rewrite orb_true_r. cbn [orb].
    unfold is_upper, is_lower in *.
    apply andb_true_iff in Hu. destruct Hu as [H1 H2].
    apply N.leb_le in H1. apply N.leb_le in H2.
    assert (E1 : (97 <=? c + 32)%N = true) by (apply N.leb_le; lia).
    assert (E2 : (c + 32 <=? 122)%N = true) by (apply N.leb_le; lia).
    rewrite E1, E2. reflexivity.
  - rewrite orb_false_r.
    destruct (is_lower c) eqn:Hl; cbn [orb]; [rewrite Hl; reflexivity|].
    destruct (is_digit c) eqn:Hd; [rewrite Hl, Hd|]; reflexivity.
Qed.

(** X6. Whatever the name of the recipe, the file name is made of as many
    characters as the name, each a lower-case letter, a digit or an
    underscore, followed by ".pdf": no separator, space or character
    outside ASCII reaches the file system. *)
Theorem fileName_safe name :
  exists stem,
    fileName name = stem ++ lit ".pdf" /\
    List.length stem = List.length name /\
    forallb safe_char stem = true.
Proof.
  exists (map (fun c => if matches_a_z0_9_i c then ascii_lower c else 95%N)
              name).
  split; [|split].
  - unfold fileName, toLowerCase.
    rewrite replaced_is_ascii, lower_of_replaced. reflexivity.
  - apply length_map.
  - induction name as [|c name IH]; [reflexivity|].
    cbn [map forallb]. rewrite sanitized_char_safe. exact IH.
Qed.

Definition without_quantity (i : Ingredient) : Ingredient :=
  {| ingredient := ingredient i; quantity := None;
     notes := notes i; unit_ := unit_ i |}.

(** X7. A quantity of 0, the value the form starts every ingredient row
    with, is not printed: the line is the one of the same ingredient
    without a quantity. *)
Theorem zero_quantity_omitted i q :
  quantity i = Some q -> q == 0 ->
  ingredientText i = ingredientText (without_quantity i).
Proof.
  intros Hq H0. unfold ingredientText, without_quantity.
  cbn [quantity notes unit_ ingredient]. rewrite Hq.
  cbn [truthy_num]. apply Qeq_bool_iff in H0. rewrite H0. reflexivity.
Qed.

(** A number that is missing or zero. *)
Definition falsy_num (o : option Q) : Prop :=
  match o with
  | None => True
  | Some q => q == 0
  end.

Lemma falsy_num_or o d : falsy_num o -> num_or o d = d.
Proof.
  destruct o as [q|]; cbn; intros H; [|reflexivity].
  apply Qeq_bool_iff in H. rewrite H. reflexivity.
Qed.

(** X8. The information table never shows a missing or zero number as
    such: servings that are absent or 0 are shown as "1", a preparation or
    cooking time that is absent or 0 as "0 minutos". *)
Theorem infoData_defaults recipe :
  (falsy_num (servings recipe) ->
   nth_error (infoData recipe) 2 = Some (lit "Porciones:", lit "1")) /\
  (falsy_num (preparation_time recipe) ->
   nth_error (infoData recipe) 0
   = Some (Tiempo_de_Preparacion, lit "0 minutos")) /\
  (falsy_num (cooking_time recipe) ->
   nth_error (infoData recipe) 1
   = Some (Tiempo_de_Coccion, lit "0 minutos")).
Proof.
  unfold infoData. repeat split; intros H; cbn [nth_error app];
    rewrite (falsy_num_or _ _ H); reflexivity.
Qed.

End Library.

End PdfUtils.

(* ===================================================================== *)
(** * [getDifficultyText] of the list and detail screens *)
(* ===================================================================== *)

Module RecipeList.

Import Js Strings.

(** [getDifficultyText = (difficulty?: string) => ...] *)
Definition getDifficultyText (difficulty : option jsstring) : jsstring :=
  match difficulty with
  | Some d =>
      if str_eqb d (lit "easy") then Facil
      else if str_eqb d (lit "medium") then Medio
      else if str_eqb d (lit "hard") then Dificil
      else No_especificado
  | None => No_especificado
  end.

End RecipeList.

Module RecipeDetail.

Import Js Strings.

(** [getDifficultyText = (difficulty: string) => ...] *)
Definition getDifficultyText (difficulty : jsstring) : jsstring :=
  if str_eqb difficulty (lit "easy") then Facil
  else if str_eqb difficulty (lit "medium") then Medio
  else if str_eqb difficulty (lit "hard") then Dificil
  else No_especificado.

End RecipeDetail.

Module Difficulty.

Import Js Strings.

Lemma str_eqb_eq a : forall b, str_eqb a b = true <-> a = b.
Proof.
  induction a as [|x a IH]; intros [|y b]; cbn; split; intros H;
    try reflexivity; try discriminate.
  - apply andb_true_iff in H. destruct H as [Hx Hab].
    apply N.eqb_eq in Hx. apply IH in Hab. congruence.
  - inversion H; subst. apply andb_true_iff. split.
    + apply N.eqb_refl.
    + apply IH. reflexivity.
Qed.

Lemma str_eqb_neq a b : a <> b -> str_eqb a b = false.
Proof.
  intros H. destruct (str_eqb a b) eqn:E; [|reflexivity].
  apply str_eqb_eq in E. contradiction.
Qed.

(** C8. The difficulty label is a function of the difficulty alone: 'easy'
    gives 'Fácil', 'medium' 'Medio', 'hard' 'Difícil', and every other
    string, as well as no difficulty, 'No especificado'; the helpers of the
    export, of the list and of the detail screen agree on every input they
    accept. *)
Theorem getDifficultyText_total :
  PdfUtils.getDifficultyText (Some (lit "easy")) = Facil /\
  PdfUtils.getDifficultyText (Some (lit "medium")) = Medio /\
  PdfUtils.getDifficultyText (Some (lit "hard")) = Dificil /\
  (forall d, d <> lit "easy" -> d <> lit "medium" -> d <> lit "hard" ->
             PdfUtils.getDifficultyText (Some d) = No_especificado) /\
  PdfUtils.getDifficultyText None = No_especificado /\
  (forall d, RecipeList.getDifficultyText d = PdfUtils.getDifficultyText d) /\
  (forall d, RecipeDetail.getDifficultyText d
             = PdfUtils.getDifficultyText (Some d)).
Proof.
  repeat split.
  - intros d He Hm Hh. unfold PdfUtils.getDifficultyText.
    rewrite (str_eqb_neq He), (str_eqb_neq Hm), (str_eqb_neq Hh).
    reflexivity.
Qed.

End Difficulty.

(* ===================================================================== *)
(** * [src/components/RecipeForm.tsx]: saving a recipe *)
(* ===================================================================== *)

Module RecipeForm.

Import Js Eff.
Local Open Scope eff_scope.

(** [RecipeFormData], as [recipeSchema] infers it. *)
Record IngredientRow : Type := {
  ingredient : jsstring;
  quantity : option Q;
  unit_id : option jsstring;
  notes : option jsstring
}.

Record InstructionRow : Type := {
  step_number : Q;
  instruction : jsstring
}.

Record RecipeFormData : Type := {
  name : jsstring;
  description : option jsstring;
  category : option jsstring;
  preparation_time : option Q;
  cooking_time : option Q;
  difficulty : option jsstring;
  servings : option Q;
  ingredients : list IngredientRow;
  instructions : list InstructionRow
}.

(** The object passed to [recipes.update] and [recipes.create]: the scalar
    fields of the form, with [updated_at] on update and [is_original] on
    creation. *)
Record RecipeFields : Type := {
  f_name : jsstring;
  f_description : option jsstring;
  f_category : option jsstring;
  f_preparation_time : option Q;
  f_cooking_time : option Q;
  f_difficulty : option jsstring;
  f_servings : option Q;
  f_updated_at : option jsstring;
  f_is_original : option bool
}.

Definition fields_of (data : RecipeFormData)
    (updated_at : option jsstring) (is_original : option bool)
  : RecipeFields :=
  {| f_name := name data; f_description := description data;
     f_category := category data;
     f_preparation_time := preparation_time data;
     f_cooking_time := cooking_time data;
     f_difficulty := difficulty data; f_servings := servings data;
     f_updated_at := updated_at; f_is_original := is_original |}.

(** The operations of [blink.db] the form issues. *)
Inductive request : Type :=
| RecipesUpdate (id : jsstring) (fields : RecipeFields)
| RecipesCreate (fields : RecipeFields)
| IngredientsDelete (recipe_id : jsstring)
| InstructionsDelete (recipe_id : jsstring)
| IngredientsCreate (recipe_id : jsstring) (row : IngredientRow)
| InstructionsCreate (recipe_id : jsstring) (row : InstructionRow).

Record Toast : Type := {
  title : jsstring;
  toast_description : jsstring;
  variant : option jsstring
}.

(** The state of the form screen: the route parameter [id], the [loading]
    flag, and what has been sent to the store, shown to the user, navigated
    to and logged. *)
Record page : Type := {
  id : option jsstring;
  loading : bool;
  requests : list request;
  toasts : list Toast;
  navigations : list jsstring;
  console : list (jsstring * Js.error)
}.

Definition with_loading (b : bool) (w : page) : page :=
  {| id := id w; loading := b; requests := requests w; toasts := toasts w;
     navigations := navigations w; console := console w |}.

Definition with_requests (rs : list request) (w : page) : page :=
  {| id := id w; loading := loading w; requests := rs; toasts := toasts w;
     navigations := navigations w; console := console w |}.

Definition with_toasts (ts : list Toast) (w : page) : page :=
  {| id := id w; loading := loading w; requests := requests w; toasts := ts;
     navigations := navigations w; console := console w |}.

Definition with_navigations (ns : list jsstring) (w : page) : page :=
  {| id := id w; loading := loading w; requests := requests w;
     toasts := toasts w; navigations := ns; console := console w |}.

Definition with_console (c : list (jsstring * Js.error)) (w : page) : page :=
  {| id := id w; loading := loading w; requests := requests w;
     toasts := toasts w; navigations := navigations w; console := c |}.

(** The two toasts; [isEditing] chooses the word. *)
Definition Exito : jsstring := [201%N] ++ lit "xito".

Definition success_toast (isEditing : bool) : Toast :=
  {| title := Exito;
     toast_description :=
       lit "Receta " ++ (if isEditing then lit "actualizada" else lit "creada")
       ++ lit " correctamente";
     variant := None |}.

Definition error_toast (isEditing : bool) : Toast :=
  {| title := lit "Error";
     toast_description :=
       lit "No se pudo " ++ (if isEditing then lit "actualizar" else lit "crear")
       ++ lit " la receta";
     variant := Some (lit "destructive") |}.

Section Store.

(** Which request the store rejects, in which state, and with what. *)
Variable fails : request -> page -> option Js.error.

(** [new Date().toISOString()]. *)
Variable now : jsstring.

(** An awaited call of [blink.db]: the request is issued, then the
    promise resolves or rejects. *)
Definition db (r : request) : M page unit :=
  fun w =>
    let w' := with_requests (requests w ++ [r]) w in
    match fails r w with
    | Some e => (Throw e, w')
    | None => (Normal tt, w')
    end.

Definition setLoading (b : bool) : M page unit := modify (with_loading b).

Definition toast (t : Toast) : M page unit :=
  modify (fun w => with_toasts (toasts w ++ [t]) w).

Definition navigate (path : jsstring) : M page unit :=
  modify (fun w => with_navigations (navigations w ++ [path]) w).

Definition console_error (label : jsstring) (e : Js.error) : M page unit :=
  modify (fun w => with_console (console w ++ [(label, e)]) w).

(** [id = newRecipe.id]: [id] is bound by [const { id } = useParams()],
    and an assignment to a constant throws a [TypeError]. *)
Definition assign_to_const_id {A} : M page A :=
  throw (Error (lit "Assignment to constant variable.")).

(** The [else] branch: create the recipe, then assign its identifier. *)
Definition create_recipe (data : RecipeFormData) : M page jsstring :=
  db (RecipesCreate (fields_of data None (Some true))) ;;
  assign_to_const_id.

(** The [then] branch: update the recipe and delete its rows. *)
Definition update_recipe (rid : jsstring) (data : RecipeFormData)
  : M page jsstring :=
  db (RecipesUpdate rid (fields_of data (Some now) None)) ;;
  db (IngredientsDelete rid) ;;
  db (InstructionsDelete rid) ;;
  ret rid.

(** [unit_id: ingredient.unit_id || null] *)
Definition ingredient_payload (row : IngredientRow) : IngredientRow :=
  {| ingredient := ingredient row; quantity := quantity row;
     unit_id := if truthy_str (unit_id row) then unit_id row else None;
     notes := notes row |}.

(** [if (text.trim())] *)
Definition nonblank (text : jsstring) : bool :=
  truthy_str (Some (trim text)).

Definition save_body (data : RecipeFormData) : M page unit :=
  setLoading true ;;
  route_id <- gets id ;;
  rid <- match route_id with
         | Some rid =>
             if truthy_str (Some rid) then update_recipe rid data
             else create_recipe data
         | None => create_recipe data
         end ;;
  for_of (ingredients data)
    (fun row =>
       when (nonblank (ingredient row))
            (db (IngredientsCreate rid (ingredient_payload row)))) ;;
  for_of (instructions data)
    (fun row =>
       when (nonblank (instruction row))
            (db (InstructionsCreate rid row))) ;;
  isEditing <- gets (fun w => truthy_str (id w)) ;;
  toast (success_toast isEditing) ;;
  navigate (lit "/").

Definition onSubmit (data : RecipeFormData) : M page unit :=
  try_catch_finally
    (save_body data)
    (fun error =>
       console_error (lit "Error saving recipe:") error ;;
       isEditing <- gets (fun w => truthy_str (id w)) ;;
       toast (error_toast isEditing))
    (setLoading false).

End Store.

(** ** The requests a save issues *)

Definition ingredient_requests (rid : jsstring) (rows : list IngredientRow)
  : list request :=
  map (fun row => IngredientsCreate rid (ingredient_payload row))
      (filter (fun row => nonblank (ingredient row)) rows).

Definition instruction_requests (rid : jsstring) (rows : list InstructionRow)
  : list request :=
  map (InstructionsCreate rid)
      (filter (fun row => nonblank (instruction row)) rows).

(** The requests of saving the existing recipe [rid], in order. *)
Definition update_requests (now rid : jsstring) (data : RecipeFormData)
  : list request :=
  [ RecipesUpdate rid (fields_of data (Some now) None);
    IngredientsDelete rid;
    InstructionsDelete rid ]
  ++ ingredient_requests rid (ingredients data)
  ++ instruction_requests rid (instructions data).

(** The requests a save would issue if none failed, by the route. *)
Definition planned (now : jsstring) (route_id : option jsstring)
    (data : RecipeFormData) : list request :=
  match route_id with
  | Some rid =>
      if truthy_str (Some rid) then update_requests now rid data
      else [RecipesCreate (fields_of data None (Some true))]
  | None => [RecipesCreate (fields_of data None (Some true))]
  end.

(** Issue the requests one after the other, stopping at the first that
    fails. *)
Definition issue_all (fails : request -> page -> option Js.error)
    (rs : list request) : M page unit :=
  for_of rs (db fails).

(** What is left to do once the rows are saved. *)
Definition finish : M page unit :=
  isEditing <- gets (fun w => truthy_str (id w)) ;;
  toast (success_toast isEditing) ;;
  navigate (lit "/").

Section Facts.

Variable fails : request -> page -> option Js.error.
Variable now : jsstring.

Lemma with_requests_nil w : with_requests (requests w ++ []) w = w.
Proof. destruct w. unfold with_requests. cbn. rewrite app_nil_r. reflexivity. Qed.

Lemma issue_all_spec rs : forall w,
  exists n,
    (n <= List.length rs)%nat /\
    snd (issue_all fails rs w)
    = with_requests (requests w ++ firstn n rs) w /\
    match fst (issue_all fails rs w) with
    | Normal _ => n = List.length rs
    | Throw e =>
        (0 < n)%nat /\
        exists r w0, nth_error rs (n - 1) = Some r /\ fails r w0 = Some e
    end.
Proof.
  induction rs as [|r rs IH]; intros w.
  - exists 0%nat. cbn. rewrite with_requests_nil. auto.
  - assert (Hrun : issue_all fails (r :: rs) w
                   = match fails r w with
                     | Some e =>
                         (Throw e, with_requests (requests w ++ [r]) w)
                     | None =>
                         issue_all fails rs
                           (with_requests (requests w ++ [r]) w)
                     end).
    { unfold issue_all. cbn [for_of]. unfold bind, db.
      destruct (fails r w); reflexivity. }
    rewrite Hrun. clear Hrun.
    destruct (fails r w) as [e|] eqn:E.
    + exists 1%nat. cbn.
      split; [lia|]. split; [reflexivity|]. split; [lia|].
      exists r, w. split; [reflexivity | exact E].
    + destruct (IH (with_requests (requests w ++ [r]) w))
        as (n & Hn & Hs & Hr).
      exists (S n). split; [cbn; lia|]. split.
      * rewrite Hs. unfold with_requests. cbn.
        rewrite <- app_assoc. reflexivity.
      * destruct (fst (issue_all fails rs _)) as [[]|e]; [cbn; lia|].
        destruct Hr as (Hpos & r0 & w0 & Hnth & Hf).
        split; [lia|]. exists r0, w0. split; [|exact Hf].
        destruct n as [|m]; [lia|]. cbn in Hnth |- *.
        rewrite Nat.sub_0_r in *. exact Hnth.
Qed.

Lemma issue_all_app rs1 rs2 : forall w,
  issue_all fails (rs1 ++ rs2) w
  = (issue_all fails rs1 ;; issue_all fails rs2) w.
Proof.
  induction rs1 as [|r rs1 IH]; intros w; [reflexivity|].
  unfold issue_all in *. cbn [app for_of]. unfold bind in *.
  destruct (db fails r w) as [[[]|e] w1]; [apply IH | reflexivity].
Qed.

Lemma ingredients_loop rid rows : forall w,
  for_of rows
    (fun row =>
       when (nonblank (ingredient row))
            (db fails (IngredientsCreate rid (ingredient_payload row)))) w
  = issue_all fails (ingredient_requests rid rows) w.
Proof.
  induction rows as [|row rows IH]; intros w; [reflexivity|].
  unfold ingredient_requests, issue_all in *. cbn [for_of filter].
  destruct (nonblank (ingredient row)); cbn [when map for_of];
    unfold bind; [|apply IH].
  destruct (db fails _ w) as [[[]|e] w1]; [apply IH | reflexivity].
Qed.

Lemma instructions_loop rid rows : forall w,
  for_of rows
    (fun row =>
       when (nonblank (instruction row))
            (db fails (InstructionsCreate rid row))) w
  = issue_all fails (instruction_requests rid rows) w.
Proof.
  induction rows as [|row rows IH]; intros w; [reflexivity|].
  unfold instruction_requests, issue_all in *. cbn [for_of filter].
  destruct (nonblank (instruction row)); cbn [when map for_of];
    unfold bind; [|apply IH].
  destruct (db fails _ w) as [[[]|e] w1]; [apply IH | reflexivity].
Qed.

(** Saving an existing recipe is issuing [update_requests] in order. *)
Lemma save_body_update data rid w :
  id w = Some rid -> rid <> [] ->
  save_body fails now data w
  = (issue_all fails (update_requests now rid data) ;; finish)
      (with_loading true w).
Proof.
  intros Hid Hrid. unfold save_body, update_requests.
  unfold bind at 1. cbn [setLoading modify].
  unfold bind at 1. cbn [gets id with_loading]. rewrite Hid.
  destruct rid as [|c rid]; [contradiction|]. cbn [truthy_str].
  set (r := c :: rid). set (w0 := with_loading true w).
  unfold update_recipe, issue_all. cbn [app for_of]. unfold bind.
  destruct (db fails (RecipesUpdate r _) w0) as [[[]|e] w1];
    [|reflexivity].
  destruct (db fails (IngredientsDelete r) w1) as [[[]|e] w2];
    [|reflexivity].
  destruct (db fails (InstructionsDelete r) w2) as [[[]|e] w3];
    [|reflexivity].
  cbn [ret]. rewrite ingredients_loop.
  fold (issue_all fails
          (ingredient_requests r (ingredients data)
           ++ instruction_requests r (instructions data))).
  rewrite issue_all_app. unfold bind.
  destruct (issue_all fails (ingredient_requests r _) w3) as [[[]|e] w4];
    [|reflexivity].
  rewrite instructions_loop.
  destruct (issue_all fails (instruction_requests r _) w4) as [[[]|e] w5];
    reflexivity.
Qed.

(** Saving a new recipe issues the creation of the recipe and stops at
    the assignment to the constant [id]. *)
Lemma save_body_create data w :
  truthy_str (id w) = false ->
  save_body fails now data w
  = (db fails (RecipesCreate (fields_of data None (Some true))) ;;
     assign_to_const_id) (with_loading true w).
Proof.
  intros Hid. unfold save_body.
  unfold bind at 1. cbn [setLoading modify].
  unfold bind at 1. cbn [gets id with_loading].
  destruct (id w) as [[|c rid]|]; try discriminate Hid;
    cbn [truthy_str]; unfold create_recipe, bind;
    destruct (db fails _ _) as [[[]|e] w1]; reflexivity.
Qed.

(** The state a save of an existing recipe ends in when no request
    fails, and when the [n]-th request fails with [e]. *)
Definition saved (rid : jsstring) (data : RecipeFormData) (w : page)
  : page :=
  with_loading false
    (with_navigations (navigations w ++ [lit "/"])
       (with_toasts (toasts w ++ [success_toast true])
          (with_requests (requests w ++ update_requests now rid data)
             (with_loading true w)))).

Definition failed_at (n : nat) (e : Js.error) (isEditing : bool)
    (issued : list request) (w : page) : page :=
  with_loading false
    (with_toasts (toasts w ++ [error_toast isEditing])
       (with_console (console w ++ [(lit "Error saving recipe:", e)])
          (with_requests (requests w ++ firstn n issued)
             (with_loading true w)))).

Lemma onSubmit_update data rid w :
  id w = Some rid -> rid <> [] ->
  onSubmit fails now data w = (Normal tt, saved rid data w) \/
  exists n r e w0,
    (0 < n <= List.length (update_requests now rid data))%nat /\
    nth_error (update_requests now rid data) (n - 1) = Some r /\
    fails r w0 = Some e /\
    onSubmit fails now data w
    = (Normal tt, failed_at n e true (update_requests now rid data) w).
Proof.
  intros Hid Hrid.
  remember (onSubmit fails now data w) as run eqn:Hrun.
  unfold onSubmit, try_catch_finally, try_catch in Hrun.
  rewrite (@save_body_update data _ _ Hid Hrid) in Hrun.
  unfold bind at 1 in Hrun.
  destruct (issue_all_spec (update_requests now rid data)
                           (with_loading true w)) as (n & Hn & Hs & Hr).
  destruct (issue_all fails _ _) as [[[]|e] w1]; cbn [fst snd] in Hs, Hr.
  - left. subst n w1 run. rewrite firstn_all.
    destruct w; cbn [id] in Hid; subst.
    destruct rid; [contradiction|]. reflexivity.
  - right. destruct Hr as (Hpos & r & w0 & Hnth & Hf).
    exists n, r, e, w0. repeat split; try assumption.
    subst w1 run. destruct w; cbn [id] in Hid; subst.
    destruct rid; [contradiction|]. reflexivity.
Qed.

Lemma onSubmit_create data w :
  truthy_str (id w) = false ->
  exists e,
    onSubmit fails now data w
    = (Normal tt,
       failed_at 1 e false
         [RecipesCreate (fields_of data None (Some true))] w).
Proof.
  intros Hid.
  unfold onSubmit, try_catch_finally, try_catch.
  rewrite (@save_body_create data _ Hid). unfold bind at 1, db.
  destruct (fails _ _) as [e|]; eexists;
    destruct w; cbn [id] in Hid; cbn; rewrite Hid; reflexivity.
Qed.

(** Whatever the route and the store do, the requests issued are a
    prefix of those planned. *)
Lemma onSubmit_issues_planned data w :
  exists n,
    requests (snd (onSubmit fails now data w))
    = requests w ++ firstn n (planned now (id w) data).
Proof.
  destruct (truthy_str (id w)) eqn:Hid.
  - destruct (id w) as [[|c rid]|] eqn:E; try discriminate Hid.
    assert (Hne : c :: rid <> []) by discriminate.
    destruct (@onSubmit_update data _ _ E Hne)
      as [H | (n & r & e & w0 & _ & _ & _ & H)]; rewrite H.
    + exists (List.length (update_requests now (c :: rid) data)).
      rewrite firstn_all. reflexivity.
    + exists n. reflexivity.
  - destruct (@onSubmit_create data w Hid) as (e & H). rewrite H.
    exists 1%nat.
    destruct (id w) as [[|c rid]|]; try discriminate Hid; reflexivity.
Qed.

Lemma nonblank_trim text : nonblank text = true <-> trim text <> [].
Proof.
  unfold nonblank. destruct (trim text); cbn; split; intros H;
    try discriminate; try reflexivity. contradiction.
Qed.

Lemma planned_ingredient route_id data rid row :
  In (IngredientsCreate rid row) (planned now route_id data) ->
  exists row0,
    In row0 (ingredients data) /\ row = ingredient_payload row0 /\
    trim (ingredient row0) <> [].
Proof.
  unfold planned, update_requests, ingredient_requests,
    instruction_requests.
  intros H.
  assert (H' : In (IngredientsCreate rid row)
                 (map (fun r => IngredientsCreate rid (ingredient_payload r))
                    (filter (fun r => nonblank (ingredient r))
                            (ingredients data)))).
  { destruct route_id as [[|c s]|]; cbn in H.
    - destruct H as [H|[]]; discriminate H.
    - destruct H as [H|[H|[H|H]]]; try discriminate H.
      apply in_app_or in H. destruct H as [H|H].
      + apply in_map_iff in H. destruct H as (r0 & Hr0 & Hin).
        inversion Hr0; subst. apply in_map_iff. eauto.
      + apply in_map_iff in H. destruct H as (r0 & Hr0 & _).
        discriminate Hr0.
    - destruct H as [H|[]]; discriminate H. }
  apply in_map_iff in H'. destruct H' as (row0 & Heq & Hin).
  inversion Heq; subst. apply filter_In in Hin. destruct Hin as [Hin Hnb].
  exists row0. repeat split; [exact Hin | apply nonblank_trim; exact Hnb].
Qed.

Lemma planned_instruction route_id data rid row :
  In (InstructionsCreate rid row) (planned now route_id data) ->
  In row (instructions data) /\ trim (instruction row) <> [].
Proof.
  unfold planned, update_requests, ingredient_requests,
    instruction_requests.
  intros H.
  assert (H' : In (InstructionsCreate rid row)
                 (map (InstructionsCreate rid)
                    (filter (fun r => nonblank (instruction r))
                            (instructions data)))).
  { destruct route_id as [[|c s]|]; cbn in H.
    - destruct H as [H|[]]; discriminate H.
    - destruct H as [H|[H|[H|H]]]; try discriminate H.
      apply in_app_or in H. destruct H as [H|H].
      + apply in_map_iff in H. destruct H as (r0 & Hr0 & _).
        discriminate Hr0.
      + apply in_map_iff in H. destruct H as (r0 & Hr0 & Hin).
        inversion Hr0; subst. apply in_map_iff. eauto.
    - destruct H as [H|[]]; discriminate H. }
  apply in_map_iff in H'. destruct H' as (row0 & Heq & Hin).
  inversion Heq; subst. apply filter_In in Hin. destruct Hin as [Hin Hnb].
  split; [exact Hin | apply nonblank_trim; exact Hnb].
Qed.

Lemma in_firstn {A} n (l : list A) x : In x (firstn n l) -> In x l.
Proof.
  revert l. induction n as [|n IH]; intros [|y l] H; cbn in *; try tauto.
  destruct H as [H|H]; [left; exact H | right; apply IH; exact H].
Qed.

(** C6. Whatever the store does, a save issues a creation only for an
    ingredient row and an instruction row whose text is not empty once
    trimmed, so that no row with an empty text is persisted; and the save
    of an existing recipe during which no request fails issues the
    creation of exactly those rows, in order, after the update and the
    two deletions. *)
Theorem only_nonblank_rows_created data w :
  exists issued,
    requests (snd (onSubmit fails now data w)) = requests w ++ issued /\
    (forall rid row,
       In (IngredientsCreate rid row) issued ->
       exists row0,
         In row0 (ingredients data) /\ row = ingredient_payload row0 /\
         trim (ingredient row0) <> []) /\
    (forall rid row,
       In (InstructionsCreate rid row) issued ->
       In row (instructions data) /\ trim (instruction row) <> []) /\
    (forall rid,
       id w = Some rid -> rid <> [] ->
       (forall r w0, fails r w0 = None) ->
       issued
       = [ RecipesUpdate rid (fields_of data (Some now) None);
           IngredientsDelete rid; InstructionsDelete rid ]
         ++ map (fun row => IngredientsCreate rid (ingredient_payload row))
                (filter (fun row => nonblank (ingredient row))
                        (ingredients data))
         ++ map (InstructionsCreate rid)
                (filter (fun row => nonblank (instruction row))
                        (instructions data))).
Proof.
  destruct (onSubmit_issues_planned data w) as (n & Hn).
  exists (firstn n (planned now (id w) data)).
  split; [exact Hn|]. split; [|split].
  - intros rid row H. apply in_firstn in H.
    exact (@planned_ingredient _ _ _ _ H).
  - intros rid row H. apply in_firstn in H.
    exact (@planned_instruction _ _ _ _ H).
  - intros rid Hid Hrid Hok.
    destruct (@onSubmit_update data _ _ Hid Hrid)
      as [H | (m & r & e & w0 & _ & _ & Hf & _)].
    + rewrite H in Hn. cbn in Hn. apply app_inv_head in Hn.
      rewrite <- Hn. reflexivity.
    + rewrite Hok in Hf. discriminate Hf.
Qed.

(** C9. Saving an existing recipe issues, in this order, the update of
    the recipe, the deletion of its ingredients, the deletion of its
    instructions, the creation of each ingredient row that is not blank
    and the creation of each instruction row that is not blank; the
    requests issued are always a prefix of this sequence: all of it when
    none fails, and up to the first request that fails otherwise, after
    which nothing more is issued, nothing being undone. *)
Theorem save_existing_is_sequential data rid w :
  id w = Some rid -> rid <> [] ->
  let sequence :=
    [ RecipesUpdate rid (fields_of data (Some now) None);
      IngredientsDelete rid; InstructionsDelete rid ]
    ++ ingredient_requests rid (ingredients data)
    ++ instruction_requests rid (instructions data) in
  let w' := snd (onSubmit fails now data w) in
  exists n,
    requests w' = requests w ++ firstn n sequence /\
    ((n = List.length sequence /\
      toasts w' = toasts w ++ [success_toast true]) \/
     ((0 < n <= List.length sequence)%nat /\
      (exists r e w0,
         nth_error sequence (n - 1) = Some r /\ fails r w0 = Some e) /\
      toasts w' = toasts w ++ [error_toast true])) /\
    ((forall r w0, fails r w0 = None) -> n = List.length sequence).
Proof.
  intros Hid Hrid. cbv zeta.
  fold (update_requests now rid data).
  destruct (@onSubmit_update data _ _ Hid Hrid)
    as [H | (n & r & e & w0 & Hn & Hnth & Hf & H)]; rewrite H.
  - exists (List.length (update_requests now rid data)).
    rewrite firstn_all. cbn [snd]. split; [reflexivity|].
    split; [left; split; reflexivity | reflexivity].
  - exists n. cbn [snd]. split; [reflexivity|]. split.
    + right. split; [exact Hn|]. split; [|reflexivity].
      exists r, e, w0. split; assumption.
    + intros Hok. rewrite Hok in Hf. discriminate Hf.
Qed.

(** ** How a save ends *)

(** X9. A save never rejects: whatever the store does and whichever the
    route, [onSubmit] ends normally with [loading] switched off, having
    shown exactly one toast; it navigates to the list exactly when that
    toast is the success one. *)
Theorem onSubmit_always_settles data w :
  let w' := snd (onSubmit fails now data w) in
  fst (onSubmit fails now data w) = Normal tt /\
  loading w' = false /\
  ((toasts w' = toasts w ++ [success_toast (truthy_str (id w))] /\
    navigations w' = navigations w ++ [lit "/"]) \/
   (toasts w' = toasts w ++ [error_toast (truthy_str (id w))] /\
    navigations w' = navigations w)).
Proof.
  cbv zeta. destruct (truthy_str (id w)) eqn:Hid.
  - destruct (id w) as [[|c rid]|] eqn:E; try discriminate Hid.
    assert (Hne : c :: rid <> []) by discriminate.
    destruct (@onSubmit_update data _ _ E Hne)
      as [H | (n & r & e & w0 & _ & _ & _ & H)]; rewrite H; cbn.
    + split; [reflexivity|]. split; [reflexivity|]. left. auto.
    + split; [reflexivity|]. split; [reflexivity|]. right. auto.
  - destruct (@onSubmit_create data w Hid) as (e & H). rewrite H. cbn.
    split; [reflexivity|]. split; [reflexivity|]. right. auto.
Qed.

(** X10. On the route of a new recipe ([id] absent or empty) a save issues
    the creation of the recipe and nothing else: the assignment to the
    constant [id] throws before any row is created, the user is told that
    the recipe could not be created, and the form stays where it is. *)
Theorem new_recipe_rows_never_created data w :
  truthy_str (id w) = false ->
  let w' := snd (onSubmit fails now data w) in
  requests w'
  = requests w ++ [RecipesCreate (fields_of data None (Some true))] /\
  toasts w' = toasts w ++ [error_toast false] /\
  navigations w' = navigations w.
Proof.
  intros Hid. cbv zeta.
  destruct (@onSubmit_create data w Hid) as (e & H). rewrite H. cbn. auto.
Qed.

End Facts.

(** ** The rows of the form *)

(** [addIngredient]: [appendIngredient] of a row with the default values. *)
Definition addIngredient (ingredientFields : list IngredientRow)
  : list IngredientRow :=
  ingredientFields
  ++ [ {| ingredient := []; quantity := Some 0%Q; unit_id := Some [];
          notes := Some [] |} ].

(** [addInstruction]: the new row takes the number of rows plus one as its
    step number. *)
Definition addInstruction (instructionFields : list InstructionRow)
  : list InstructionRow :=
  let nextStep := (List.length instructionFields + 1)%nat in
  instructionFields
  ++ [ {| step_number := of_nat nextStep; instruction := [] |} ].

(** [remove(index)] of [useFieldArray]: the other rows are kept as they
    are. *)
Definition remove {A} (index : nat) (fields : list A) : list A :=
  firstn index fields ++ skipn (S index) fields.

(** The rows are numbered 1, 2, 3, ... in their order. *)
Definition well_numbered (rows : list InstructionRow) : Prop :=
  forall i row, nth_error rows i = Some row -> step_number row = of_nat (S i).

Lemma remove_length {A} index (fields : list A) :
  (index < List.length fields)%nat ->
  List.length (remove index fields) = (List.length fields - 1)%nat.
Proof.
  intros H. unfold remove.
  rewrite length_app, length_firstn, length_skipn. lia.
Qed.

Lemma nth_error_snoc_last {A} (l : list A) x :
  nth_error (l ++ [x]) (List.length l) = Some x.
Proof.
  rewrite nth_error_app2 by lia. rewrite Nat.sub_diag. reflexivity.
Qed.

(** X11. Adding an instruction keeps the rows numbered 1, 2, 3, ... in
    their order, as the row the form starts with is; removing the last row
    keeps it too. *)
Theorem addInstruction_numbers :
  well_numbered [ {| step_number := 1%Q; instruction := [] |} ] /\
  (forall rows, well_numbered rows -> well_numbered (addInstruction rows)) /\
  (forall rows,
     well_numbered rows ->
     well_numbered (remove (List.length rows - 1) rows)).
Proof.
  split; [|split].
  - intros [|[|i]] row H; cbn in H; try discriminate.
    inversion H; subst. reflexivity.
  - intros rows Hw i row H. unfold addInstruction in H. cbv zeta in H.
    destruct (Nat.lt_ge_cases i (List.length rows)) as [Hi|Hi].
    + rewrite nth_error_app1 in H by exact Hi. apply Hw. exact H.
    + rewrite nth_error_app2 in H by exact Hi.
      destruct (i - List.length rows)%nat as [|k] eqn:E; cbn in H.
      * inversion H; subst. cbn [step_number].
        f_equal. lia.
      * destruct k; discriminate H.
  - intros rows Hw i row H. unfold remove in H.
    destruct (Nat.lt_ge_cases i (List.length rows - 1)) as [Hi|Hi].
    + rewrite nth_error_app1 in H by (rewrite length_firstn; lia).
      rewrite nth_error_firstn in H.
      destruct (i <? List.length rows - 1)%nat eqn:E.
      * apply Hw. exact H.
      * apply Nat.ltb_ge in E. lia.
    + rewrite nth_error_app2 in H by (rewrite length_firstn; lia).
      rewrite nth_error_skipn, length_firstn in H.
      assert (Hs : nth_error rows
                     (S (List.length rows - 1)
                      + (i - Nat.min (List.length rows - 1)
                                     (List.length rows)))
                   <> None) by congruence.
      apply nth_error_Some in Hs. lia.
Qed.

(** X12. Removing any row but the last one leaves the numbers as they
    were, and the row added next takes the number of the row now last:
    two rows carry the same step number. *)
Theorem remove_then_add_repeats_a_number rows index :
  well_numbered rows ->
  (index + 1 < List.length rows)%nat ->
  let rows' := addInstruction (remove index rows) in
  exists a b,
    nth_error rows' (List.length rows - 2) = Some a /\
    nth_error rows' (List.length rows - 1) = Some b /\
    step_number a = of_nat (List.length rows) /\
    step_number b = of_nat (List.length rows).
Proof.
  intros Hw Hi. cbv zeta. unfold addInstruction. cbv zeta.
  assert (Hlen : List.length (remove index rows)
                 = (List.length rows - 1)%nat)
    by (apply remove_length; lia).
  destruct (nth_error rows (List.length rows - 1)) as [a|] eqn:Ha.
  2: { apply nth_error_None in Ha. lia. }
  exists a. eexists. split; [|split; [|split]].
  - rewrite nth_error_app1 by lia. unfold remove.
    rewrite nth_error_app2 by (rewrite length_firstn; lia).
    rewrite length_firstn, nth_error_skipn.
    replace (S index + (List.length rows - 2
                        - Nat.min index (List.length rows)))%nat
      with (List.length rows - 1)%nat by lia.
    exact Ha.
  - replace (List.length rows - 1)%nat
      with (List.length (remove index rows)) by exact Hlen.
    apply nth_error_snoc_last.
  - rewrite (Hw _ _ Ha). f_equal. lia.
  - cbn [step_number]. f_equal. lia.
Qed.

End RecipeForm.

(* ===================================================================== *)
(** * The validation schemas ([@/lib/validations]) *)
(* ===================================================================== *)

Module Validations.

Import Js.

(** [z.number().positive().optional()] *)
Definition optional_positive (o : option Q) : bool :=
  match o with
  | Some q => negb (Qle_bool q 0)
  | None => true
  end.

(** [z.string().min(n)] and [.max(n)] count UTF-16 code units. *)
Definition min_length (n : nat) (s : jsstring) : bool :=
  (n <=? List.length s)%nat.

Definition max_length (n : nat) (s : jsstring) : bool :=
  (List.length s <=? n)%nat.

(** [z.enum(['easy', 'medium', 'hard']).optional()] *)
Definition optional_difficulty (o : option jsstring) : bool :=
  match o with
  | Some d =>
      str_eqb d (lit "easy") || str_eqb d (lit "medium")
      || str_eqb d (lit "hard")
  | None => true
  end.

(** In the values validated an optional field is [Some] value or [None]
    for [undefined], which [.optional()] accepts. A [null], as a column of
    a stored row can be and which [.optional()] rejects, has no value of
    its own in [IngredientRow]: on rows whose optional fields are all
    present the schema below is the one of the code, and what it rejects
    the code rejects for every row. *)
Definition ingredientSchema (row : RecipeForm.IngredientRow) : bool :=
  min_length 1 (RecipeForm.ingredient row)
  && optional_positive (RecipeForm.quantity row).

Definition instructionSchema (row : RecipeForm.InstructionRow) : bool :=
  negb (Qle_bool (RecipeForm.step_number row) 0)
  && min_length 1 (RecipeForm.instruction row).

Definition recipeSchema (data : RecipeForm.RecipeFormData) : bool :=
  min_length 1 (RecipeForm.name data)
  && max_length 255 (RecipeForm.name data)
  && optional_positive (RecipeForm.preparation_time data)
  && optional_positive (RecipeForm.cooking_time data)
  && optional_difficulty (RecipeForm.difficulty data)
  && optional_positive (RecipeForm.servings data)
  && (forallb ingredientSchema (RecipeForm.ingredients data)
      && (1 <=? List.length (RecipeForm.ingredients data))%nat)
  && (forallb instructionSchema (RecipeForm.instructions data)
      && (1 <=? List.length (RecipeForm.instructions data))%nat).

Lemma forallb_snoc_false {A} (f : A -> bool) l x :
  f x = false -> forallb f (l ++ [x]) = false.
Proof.
  intros H. rewrite forallb_app. cbn. rewrite H.
  rewrite andb_false_r. reflexivity.
Qed.

Lemma optional_positive_zero q : q == 0 -> optional_positive (Some q) = false.
Proof.
  intros H. cbn. apply negb_false_iff. apply Qle_bool_iff.
  rewrite H. apply Qle_refl.
Qed.

(** X26. The schema rejects what the form holds before the user fills it
    in: data whose last ingredient row or last instruction row is the one
    just added by [addIngredient] or [addInstruction], and data whose
    preparation time, cooking time or servings are 0, although these three
    fields are optional. *)
Theorem untouched_form_rejected data :
  (forall rows,
     RecipeForm.ingredients data = RecipeForm.addIngredient rows ->
     recipeSchema data = false) /\
  (forall rows,
     RecipeForm.instructions data = RecipeForm.addInstruction rows ->
     recipeSchema data = false) /\
  (forall q,
     q == 0 ->
     RecipeForm.preparation_time data = Some q \/
     RecipeForm.cooking_time data = Some q \/
     RecipeForm.servings data = Some q ->
     recipeSchema data = false).
Proof.
  unfold recipeSchema. split; [|split].
  - intros rows H. rewrite H. unfold RecipeForm.addIngredient.
    rewrite forallb_snoc_false by reflexivity.
    cbn [andb]. rewrite andb_false_r. reflexivity.
  - intros rows H. rewrite H. unfold RecipeForm.addInstruction. cbv zeta.
    rewrite forallb_snoc_false.
    + cbn [andb]. apply andb_false_r.
    + unfold instructionSchema. cbn [RecipeForm.instruction min_length].
      cbn. apply andb_false_r.
  - intros q Hq [H|[H|H]]; rewrite H, (optional_positive_zero Hq);
      rewrite ?andb_false_r; reflexivity.
Qed.

End Validations.

(* ===================================================================== *)
(** * The remote store as the list and detail screens use it *)
(* ===================================================================== *)

Module Store.

Import Js Eff.
Local Open Scope eff_scope.

(** A recipe as [blink.db.recipes.list] returns it (the fields read). *)
Record Recipe : Type := {
  id : jsstring;
  name : jsstring;
  description : option jsstring;
  category : option jsstring;
  preparation_time : option Q;
  cooking_time : option Q;
  difficulty : option jsstring;
  servings : option Q
}.

(** A unit as [blink.db.units.list] returns it. *)
Record StoredUnit : Type := {
  u_id : jsstring;
  u_name : jsstring
}.

(** The calls of [blink.db] the screens make. Ingredient and instruction
    rows come back with the fields of the rows of the form. *)
Inductive request : Type :=
| RecipesListActive                (* where deleted_at null, newest first *)
| RecipesListById (id : jsstring)  (* where id, limit 1 *)
| IngredientsList (recipe_id : jsstring)
| UnitsList
| InstructionsList (recipe_id : jsstring)   (* by step_number ascending *)
| IngredientsDelete (recipe_id : jsstring)
| InstructionsDelete (recipe_id : jsstring)
| RecipesDelete (id : jsstring).

(** What the store answers, given the requests made so far, the last one
    being the one answered: rows, or a rejection. *)
Record backend : Type := {
  list_recipes : list request -> outcome (list Recipe);
  list_ingredients : list request -> outcome (list RecipeForm.IngredientRow);
  list_units : list request -> outcome (list StoredUnit);
  list_instructions :
    list request -> outcome (list RecipeForm.InstructionRow);
  delete : list request -> outcome unit
}.

(** The state around a component: its own state [V], the requests made,
    the toasts shown, the navigations, and the browser (console and
    downloads) the PDF export runs in. *)
Record screen (V : Type) : Type := {
  view : V;
  log : list request;
  toasts : list RecipeForm.Toast;
  navigations : list jsstring;
  browser : PdfUtils.env
}.

Section Screen.

Variable V : Type.

Definition with_view (f : V -> V) (s : screen V) : screen V :=
  {| view := f (view s); log := log s; toasts := toasts s;
     navigations := navigations s; browser := browser s |}.

Definition with_log (l : list request) (s : screen V) : screen V :=
  {| view := view s; log := l; toasts := toasts s;
     navigations := navigations s; browser := browser s |}.

Definition with_toasts (t : list RecipeForm.Toast) (s : screen V)
  : screen V :=
  {| view := view s; log := log s; toasts := t;
     navigations := navigations s; browser := browser s |}.

Definition with_navigations (n : list jsstring) (s : screen V) : screen V :=
  {| view := view s; log := log s; toasts := toasts s;
     navigations := n; browser := browser s |}.

Definition with_browser (b : PdfUtils.env) (s : screen V) : screen V :=
  {| view := view s; log := log s; toasts := toasts s;
     navigations := navigations s; browser := b |}.

(** An awaited call: the request is made, then answered. *)
Definition call {A} (r : request) (answer : list request -> outcome A)
  : M (screen V) A :=
  fun s => let l := log s ++ [r] in (answer l, with_log l s).

Definition set_view (f : V -> V) : M (screen V) unit := modify (with_view f).

Definition toast (t : RecipeForm.Toast) : M (screen V) unit :=
  modify (fun s => with_toasts (toasts s ++ [t]) s).

Definition navigate (path : jsstring) : M (screen V) unit :=
  modify (fun s => with_navigations (navigations s ++ [path]) s).

Definition console_error (label : jsstring) (e : Js.error)
  : M (screen V) unit :=
  modify (fun s =>
    with_browser
      (PdfUtils.with_console
         (PdfUtils.console (browser s) ++ [(label, e)]) (browser s)) s).

(** A computation of the PDF export, run in the browser of the screen. *)
Definition in_browser {A} (m : M PdfUtils.env A) : M (screen V) A :=
  fun s => let (r, b) := m (browser s) in (r, with_browser b s).

End Screen.

Definition success (description : jsstring) : RecipeForm.Toast :=
  {| RecipeForm.title := RecipeForm.Exito;
     RecipeForm.toast_description := description;
     RecipeForm.variant := None |}.

Definition failure (description : jsstring) : RecipeForm.Toast :=
  {| RecipeForm.title := lit "Error";
     RecipeForm.toast_description := description;
     RecipeForm.variant := Some (lit "destructive") |}.

(** ** Joining the ingredients with their units *)

(** [new Map(units.map(unit => [unit.id, unit])).get(key)]: of two units
    with the same identifier the later one is kept. *)
Definition unitsMap (units : list StoredUnit) (key : jsstring)
  : option StoredUnit :=
  fold_left (fun found unit => if str_eqb (u_id unit) key then Some unit
                               else found)
            units None.

Definition to_unit (u : StoredUnit) : Types.Unit :=
  {| Types.unit_name := u_name u |}.

(** [{ ...ingredient, unit: ingredient.unit_id ? unitsMap.get(...) :
    undefined }] *)
Definition withUnit (units : list StoredUnit)
    (ingredient : RecipeForm.IngredientRow) : Types.Ingredient :=
  {| Types.ingredient := RecipeForm.ingredient ingredient;
     Types.quantity := RecipeForm.quantity ingredient;
     Types.notes := RecipeForm.notes ingredient;
     Types.unit_ :=
       match RecipeForm.unit_id ingredient with
       | Some key =>
           if truthy_str (Some key)
           then option_map to_unit (unitsMap units key) else None
       | None => None
       end |}.

Definition to_instruction (row : RecipeForm.InstructionRow)
  : Types.Instruction :=
  {| Types.step_number := RecipeForm.step_number row;
     Types.instruction := RecipeForm.instruction row |}.

(** [{ ...recipe, ingredients: ingredientsWithUnits, instructions }] *)
Definition withDetails (recipe : Recipe)
    (ingredients : list Types.Ingredient)
    (instructions : list Types.Instruction) : Types.RecipeWithDetails :=
  {| Types.name := name recipe;
     Types.description := description recipe;
     Types.category := category recipe;
     Types.preparation_time := preparation_time recipe;
     Types.cooking_time := cooking_time recipe;
     Types.difficulty := difficulty recipe;
     Types.servings := servings recipe;
     Types.ingredients := ingredients;
     Types.instructions := instructions |}.

Lemma str_eqb_refl a : str_eqb a a = true.
Proof.
  induction a as [|x a IH]; [reflexivity|]. cbn.
  unfold code_unit_eqb. rewrite N.eqb_refl. exact IH.
Qed.

Lemma unitsMap_snoc units u key :
  unitsMap (units ++ [u]) key
  = if str_eqb (u_id u) key then Some u else unitsMap units key.
Proof.
  unfold unitsMap. rewrite fold_left_app. reflexivity.
Qed.

Lemma unitsMap_unknown units key :
  (forall u, In u units -> u_id u <> key) -> unitsMap units key = None.
Proof.
  induction units as [|u units IH] using rev_ind; intros H; [reflexivity|].
  rewrite unitsMap_snoc.
  assert (Hu : u_id u <> key).
  { apply H. apply in_or_app. right. left. reflexivity. }
  rewrite (Difficulty.str_eqb_neq Hu).
  apply IH. intros v Hv. apply H. apply in_or_app. left. exact Hv.
Qed.

Lemma unitsMap_found units u :
  In u units -> NoDup (map u_id units) -> unitsMap units (u_id u) = Some u.
Proof.
  induction units as [|v units IH] using rev_ind; intros Hin Hnd;
    [contradiction|].
  rewrite unitsMap_snoc. rewrite map_app in Hnd. cbn in Hnd.
  apply in_app_or in Hin. destruct Hin as [Hin|[->|[]]].
  - assert (Hne : u_id v <> u_id u).
    { intros E. apply NoDup_remove_2 in Hnd. apply Hnd.
      rewrite app_nil_r, E. apply in_map. exact Hin. }
    rewrite (Difficulty.str_eqb_neq Hne). apply IH; [exact Hin|].
    apply NoDup_remove_1 in Hnd. rewrite app_nil_r in Hnd. exact Hnd.
  - rewrite str_eqb_refl. reflexivity.
Qed.

(** X13. Joining the ingredients with the units keeps every ingredient, in
    order, with its text, quantity and notes; an ingredient without a unit
    identifier, or whose identifier no unit carries, gets no unit; and when
    the identifiers of the units are distinct, an ingredient that carries
    the identifier of a unit gets the name of that unit. *)
Theorem withUnit_join units :
  (forall ingredients,
     map Types.ingredient (map (withUnit units) ingredients)
     = map RecipeForm.ingredient ingredients /\
     map Types.quantity (map (withUnit units) ingredients)
     = map RecipeForm.quantity ingredients /\
     map Types.notes (map (withUnit units) ingredients)
     = map RecipeForm.notes ingredients) /\
  (forall i,
     truthy_str (RecipeForm.unit_id i) = false ->
     Types.unit_ (withUnit units i) = None) /\
  (forall i key,
     RecipeForm.unit_id i = Some key ->
     (forall u, In u units -> u_id u <> key) ->
     Types.unit_ (withUnit units i) = None) /\
  (forall i u,
     NoDup (map u_id units) -> In u units -> u_id u <> [] ->
     RecipeForm.unit_id i = Some (u_id u) ->
     Types.unit_ (withUnit units i)
     = Some {| Types.unit_name := u_name u |}).
Proof.
  split; [|split; [|split]].
  - intros ingredients. rewrite !map_map. repeat split.
  - intros i H. unfold withUnit. cbn [Types.unit_].
    destruct (RecipeForm.unit_id i) as [key|]; [|reflexivity].
    rewrite H. reflexivity.
  - intros i key Hk Hno. unfold withUnit. cbn [Types.unit_].
    rewrite Hk, (@unitsMap_unknown _ _ Hno).
    destruct (truthy_str (Some key)); reflexivity.
  - intros i u Hnd Hin Hne Hk. unfold withUnit. cbn [Types.unit_].
    rewrite Hk, (@unitsMap_found _ _ Hin Hnd).
    destruct (u_id u); [contradiction|]. reflexivity.
Qed.

End Store.

(* ===================================================================== *)
(** * The list screen ([RecipeList]) *)
(* ===================================================================== *)

Module RecipeListScreen.

Import Js Eff Store.
Local Open Scope eff_scope.

(** The state of the component. *)
Record state : Type := {
  recipes : list Recipe;
  loading : bool;
  searchTerm : jsstring
}.

(** [s.includes(sub)] *)
Fixpoint starts_with (sub s : jsstring) : bool :=
  match sub, s with
  | [], _ => true
  | c :: sub', d :: s' => code_unit_eqb c d && starts_with sub' s'
  | _ :: _, [] => false
  end.

Fixpoint includes (s sub : jsstring) : bool :=
  starts_with sub s
  || match s with
     | [] => false
     | _ :: s' => includes s' sub
     end.

Section Handlers.

Variable B : backend.

Variables pageWidth pageHeight : Q.
Variable splitTextToSize : PdfUtils.jsPDF -> jsstring -> Q -> list jsstring.
Variable parseInt : jsstring -> Q -> Q.
Variable toLocaleDateString : jsstring -> jsstring.
Variable unicode_lower : jsstring -> jsstring.
Variable float_to_string : Q -> jsstring.
Variable throws : PdfUtils.call -> PdfUtils.env -> option Js.error.

Definition setRecipes (data : list Recipe) : M (screen state) unit :=
  set_view (fun v => {| recipes := data; loading := loading v;
                        searchTerm := searchTerm v |}).

Definition setLoading (b : bool) : M (screen state) unit :=
  set_view (fun v => {| recipes := recipes v; loading := b;
                        searchTerm := searchTerm v |}).

Definition loadRecipes : M (screen state) unit :=
  try_catch_finally
    (setLoading true ;;
     data <- call RecipesListActive (list_recipes B) ;;
     setRecipes data)
    (fun error =>
       console_error (lit "Error loading recipes:") error ;;
       toast (failure (lit "No se pudieron cargar las recetas")))
    (setLoading false).

(** [deleteRecipe]; [recipes] is the list the handler was created with. *)
Definition deleteRecipe (id : jsstring) : M (screen state) unit :=
  recipes0 <- gets (fun s => recipes (view s)) ;;
  try_catch
    (call (IngredientsDelete id) (delete B) ;;
     call (InstructionsDelete id) (delete B) ;;
     call (RecipesDelete id) (delete B) ;;
     setRecipes
       (filter (fun recipe => negb (str_eqb (Store.id recipe) id)) recipes0) ;;
     toast (success (lit "Receta eliminada correctamente")))
    (fun error =>
       console_error (lit "Error deleting recipe:") error ;;
       toast (failure (lit "No se pudo eliminar la receta"))).

Definition exportToPDF (recipe : Recipe) : M (screen state) unit :=
  try_catch
    (ingredients <- call (IngredientsList (Store.id recipe))
                         (list_ingredients B) ;;
     units <- call UnitsList (list_units B) ;;
     instructions <- call (InstructionsList (Store.id recipe))
                          (list_instructions B) ;;
     in_browser
       (PdfUtils.generateRecipePDF pageWidth pageHeight splitTextToSize
          parseInt toLocaleDateString unicode_lower float_to_string throws
          (withDetails recipe (map (withUnit units) ingredients)
                       (map to_instruction instructions))) ;;
     toast (success (lit "Receta exportada como PDF correctamente")))
    (fun error =>
       console_error (lit "Error exporting recipe:") error ;;
       toast (failure (lit "No se pudo exportar la receta a PDF"))).

(** [filteredRecipes] *)
Definition matches_search (term : jsstring) (recipe : Recipe) : bool :=
  let needle := toLowerCase unicode_lower term in
  includes (toLowerCase unicode_lower (name recipe)) needle
  || match category recipe with
     | Some c => includes (toLowerCase unicode_lower c) needle
     | None => false
     end
  || match description recipe with
     | Some d => includes (toLowerCase unicode_lower d) needle
     | None => false
     end.

Definition filteredRecipes (recipes : list Recipe) (searchTerm : jsstring)
  : list Recipe :=
  filter (matches_search searchTerm) recipes.

(** ** Deleting *)

Definition deletions (id : jsstring) : list request :=
  [IngredientsDelete id; InstructionsDelete id; RecipesDelete id].

(** X14. Deleting a recipe from the list never rejects, and what it does
    is decided by the answers of the store. The deletion of the
    ingredients is requested first; the deletion of the instructions only
    when that one succeeded; the deletion of the recipe only when both
    succeeded. When all three succeed the recipe leaves the list shown,
    the other recipes staying in order, and the success toast is shown.
    When one is rejected it is the last request made: the error is logged,
    the list shown is left as it was and the error toast is shown. *)
Theorem deleteRecipe_order id s :
  let s' := snd (deleteRecipe id s) in
  let l1 := log s ++ [IngredientsDelete id] in
  let l2 := l1 ++ [InstructionsDelete id] in
  let l3 := l2 ++ [RecipesDelete id] in
  let failed (requested : list request) (e : Js.error) :=
    log s' = requested /\
    recipes (view s') = recipes (view s) /\
    toasts s' = toasts s ++ [failure (lit "No se pudo eliminar la receta")]
    /\
    PdfUtils.console (browser s')
    = PdfUtils.console (browser s) ++ [(lit "Error deleting recipe:", e)] in
  fst (deleteRecipe id s) = Normal tt /\
  match delete B l1 with
  | Throw e => failed l1 e
  | Normal _ =>
      match delete B l2 with
      | Throw e => failed l2 e
      | Normal _ =>
          match delete B l3 with
          | Throw e => failed l3 e
          | Normal _ =>
              log s' = l3 /\
              recipes (view s')
              = filter (fun recipe => negb (str_eqb (Store.id recipe) id))
                       (recipes (view s)) /\
              toasts s'
              = toasts s
                ++ [success (lit "Receta eliminada correctamente")] /\
              PdfUtils.console (browser s') = PdfUtils.console (browser s)
          end
      end
  end.
Proof.
  cbv zeta. unfold deleteRecipe, try_catch, bind, call, gets.
  cbn [fst snd log with_log].
  destruct (delete B (log s ++ [IngredientsDelete id])) as [[]|e1].
  - destruct (delete B ((log s ++ [IngredientsDelete id])
                        ++ [InstructionsDelete id])) as [[]|e2].
    + destruct (delete B (((log s ++ [IngredientsDelete id])
                           ++ [InstructionsDelete id])
                          ++ [RecipesDelete id])) as [[]|e3];
        cbn; auto.
    + cbn. auto.
  - cbn. auto.
Qed.

(** ** Loading and exporting *)

(** X15. Loading the list never rejects and always ends with [loading]
    switched off after one request: the rows the store answers replace the
    list shown and no toast appears; when the store rejects, the list shown
    is left as it was and the error toast appears. *)
Theorem loadRecipes_settles s :
  let s' := snd (loadRecipes s) in
  fst (loadRecipes s) = Normal tt /\
  loading (view s') = false /\
  searchTerm (view s') = searchTerm (view s) /\
  log s' = log s ++ [RecipesListActive] /\
  match list_recipes B (log s ++ [RecipesListActive]) with
  | Normal data => recipes (view s') = data /\ toasts s' = toasts s
  | Throw _ =>
      recipes (view s') = recipes (view s) /\
      toasts s'
      = toasts s ++ [failure (lit "No se pudieron cargar las recetas")]
  end.
Proof.
  cbv zeta. unfold loadRecipes, try_catch_finally, try_catch, bind, call.
  cbn [setLoading set_view modify fst snd log with_view with_log].
  destruct (list_recipes B (log s ++ [RecipesListActive])) as [data|e];
    cbn; repeat split.
Qed.

Definition detail_requests (id : jsstring) : list request :=
  [IngredientsList id; UnitsList; InstructionsList id].

(** X16. Exporting from the list never rejects and shows exactly one
    toast. The ingredients, the units and the instructions are requested
    in this order and the PDF is generated only once all three have been
    answered; the success toast is shown exactly when one file, named after
    the recipe, has been handed to the user, the error toast when none
    has. *)
Theorem exportToPDF_settles recipe s :
  let s' := snd (exportToPDF recipe s) in
  fst (exportToPDF recipe s) = Normal tt /\
  (exists n, log s' = log s ++ firstn n (detail_requests (Store.id recipe))) /\
  ((log s' = log s ++ detail_requests (Store.id recipe) /\
    toasts s'
    = toasts s ++ [success (lit "Receta exportada como PDF correctamente")]
    /\
    exists doc,
      PdfUtils.downloads (browser s')
      = PdfUtils.downloads (browser s)
        ++ [(PdfUtils.fileName unicode_lower (name recipe), doc)]) \/
   (toasts s'
    = toasts s ++ [failure (lit "No se pudo exportar la receta a PDF")] /\
    PdfUtils.downloads (browser s') = PdfUtils.downloads (browser s))).
Proof.
  cbv zeta. unfold exportToPDF, try_catch, bind, call.
  cbn [fst snd log with_log].
  destruct (list_ingredients B _) as [ingredients|e1].
  2: { cbn. split; [reflexivity|]. split; [exists 1%nat; reflexivity|].
       right. auto. }
  destruct (list_units B _) as [units|e2].
  2: { cbn. split; [reflexivity|].
       split; [exists 2%nat; rewrite <- !app_assoc; reflexivity|].
       right. auto. }
  destruct (list_instructions B _) as [instructions|e3].
  2: { cbn. split; [reflexivity|].
       split; [exists 3%nat; rewrite <- !app_assoc; reflexivity|].
       right. auto. }
  unfold in_browser. cbn [browser with_log].
  destruct (PdfUtils.generateRecipePDF _ _ _ _ _ _ _ _ _ (browser s))
    as [[[]|e] b] eqn:G.
  - apply PdfUtils.export_normal in G. destruct G as (w2 & _ & -> & _).
    cbn. split; [reflexivity|].
    split; [exists 3%nat; rewrite <- !app_assoc; reflexivity|].
    left. rewrite <- !app_assoc. split; [reflexivity|].
    split; [reflexivity|]. eexists. reflexivity.
  - apply PdfUtils.export_throw in G. destruct G as [Hd _].
    cbn. split; [reflexivity|].
    split; [exists 3%nat; rewrite <- !app_assoc; reflexivity|].
    right. split; [reflexivity | exact Hd].
Qed.

(** ** Searching *)

Lemma starts_with_nil s : starts_with [] s = true.
Proof. destruct s; reflexivity. Qed.

Lemma includes_nil s : includes s [] = true.
Proof. destruct s; reflexivity. Qed.

Lemma starts_with_app sub rest : starts_with sub (sub ++ rest) = true.
Proof.
  induction sub as [|c sub IH]; [apply starts_with_nil|].
  cbn. unfold code_unit_eqb. rewrite N.eqb_refl. exact IH.
Qed.

Lemma includes_middle before sub rest :
  includes (before ++ sub ++ rest) sub = true.
Proof.
  induction before as [|c before IH].
  - cbn [app]. destruct (sub ++ rest) eqn:E; cbn [includes];
      rewrite <- E, starts_with_app; reflexivity.
  - cbn [app includes]. rewrite IH. apply orb_true_r.
Qed.

Lemma filter_all {A} (f : A -> bool) l :
  (forall x, f x = true) -> filter f l = l.
Proof.
  intros H. induction l as [|x l IH]; [reflexivity|].
  cbn. rewrite H, IH. reflexivity.
Qed.

(** X17. With an empty search term every recipe is listed, in the order
    loaded. *)
Theorem empty_search_lists_all recipes :
  filteredRecipes recipes [] = recipes.
Proof.
  unfold filteredRecipes. apply filter_all. intros r.
  unfold matches_search. cbv zeta.
  change (toLowerCase unicode_lower []) with (@nil code_unit).
  rewrite includes_nil. reflexivity.
Qed.

(** X18. The search ignores the case of ASCII letters: two ASCII terms that
    differ by case only list the same recipes, and a recipe whose ASCII
    name contains the term up to case is listed. *)
Theorem search_ignores_ascii_case :
  (forall recipes term term',
     forallb is_ascii term = true -> forallb is_ascii term' = true ->
     map ascii_lower term = map ascii_lower term' ->
     filteredRecipes recipes term = filteredRecipes recipes term') /\
  (forall recipes recipe term before found rest,
     In recipe recipes ->
     forallb is_ascii term = true ->
     forallb is_ascii (name recipe) = true ->
     name recipe = before ++ found ++ rest ->
     map ascii_lower found = map ascii_lower term ->
     In recipe (filteredRecipes recipes term)).
Proof.
  split.
  - intros recipes term term' Ha Ha' Heq. unfold filteredRecipes.
    apply filter_ext. intros r. unfold matches_search, toLowerCase.
    rewrite Ha, Ha', Heq. reflexivity.
  - intros recipes recipe term before found rest Hin Ha Hn Hname Heq.
    unfold filteredRecipes. apply filter_In. split; [exact Hin|].
    unfold matches_search, toLowerCase. rewrite Ha, Hn, Hname.
    rewrite !map_app, Heq, includes_middle. reflexivity.
Qed.

End Handlers.

End RecipeListScreen.

(* ===================================================================== *)
(** * The detail screen ([RecipeDetail]) *)
(* ===================================================================== *)

Module RecipeDetailScreen.

Import Js Eff Store.
Local Open Scope eff_scope.

(** The recipe shown: the row of the store with its ingredients, joined
    with their units, and its instructions. *)
Record Loaded : Type := {
  base : Recipe;
  ingredients : list Types.Ingredient;
  instructions : list Types.Instruction
}.

Definition details (r : Loaded) : Types.RecipeWithDetails :=
  withDetails (base r) (ingredients r) (instructions r).

Record state : Type := {
  recipe : option Loaded;
  loading : bool;
  deleting : bool
}.

Section Handlers.

Variable B : backend.

(** The route parameter [id]. *)
Variable id : option jsstring.

Variables pageWidth pageHeight : Q.
Variable splitTextToSize : PdfUtils.jsPDF -> jsstring -> Q -> list jsstring.
Variable parseInt : jsstring -> Q -> Q.
Variable toLocaleDateString : jsstring -> jsstring.
Variable unicode_lower : jsstring -> jsstring.
Variable float_to_string : Q -> jsstring.
Variable throws : PdfUtils.call -> PdfUtils.env -> option Js.error.

Definition setRecipe (r : option Loaded) : M (screen state) unit :=
  set_view (fun v => {| recipe := r; loading := loading v;
                        deleting := deleting v |}).

Definition setLoading (b : bool) : M (screen state) unit :=
  set_view (fun v => {| recipe := recipe v; loading := b;
                        deleting := deleting v |}).

Definition setDeleting (b : bool) : M (screen state) unit :=
  set_view (fun v => {| recipe := recipe v; loading := loading v;
                        deleting := b |}).

(** The body of [loadRecipe] for the route identifier [rid]. *)
Definition loadRecipe_for (rid : jsstring) : M (screen state) unit :=
  try_catch_finally
    (setLoading true ;;
     recipes <- call (RecipesListById rid) (list_recipes B) ;;
     match recipes with
     | [] =>
         toast (failure (lit "Receta no encontrada")) ;;
         navigate (lit "/")
     | recipeData :: _ =>
         ingredients <- call (IngredientsList rid) (list_ingredients B) ;;
         units <- call UnitsList (list_units B) ;;
         instructions <- call (InstructionsList rid) (list_instructions B) ;;
         setRecipe (Some {| base := recipeData;
                            ingredients := map (withUnit units) ingredients;
                            instructions := map to_instruction instructions |})
     end)
    (fun error =>
       console_error (lit "Error loading recipe:") error ;;
       toast (failure (lit "No se pudo cargar la receta")))
    (setLoading false).

(** The effect: [if (!id) return], then [loadRecipe()]. *)
Definition loadRecipe : M (screen state) unit :=
  match id with
  | Some rid => if truthy_str (Some rid) then loadRecipe_for rid else ret tt
  | None => ret tt
  end.

Definition handleDelete : M (screen state) unit :=
  shown <- gets (fun s => recipe (view s)) ;;
  match shown with
  | None => ret tt
  | Some r =>
      try_catch_finally
        (setDeleting true ;;
         call (IngredientsDelete (Store.id (base r))) (delete B) ;;
         call (InstructionsDelete (Store.id (base r))) (delete B) ;;
         call (RecipesDelete (Store.id (base r))) (delete B) ;;
         toast (success (lit "Receta eliminada correctamente")) ;;
         navigate (lit "/"))
        (fun error =>
           console_error (lit "Error deleting recipe:") error ;;
           toast (failure (lit "No se pudo eliminar la receta")))
        (setDeleting false)
  end.

Definition handleExportPDF : M (screen state) unit :=
  shown <- gets (fun s => recipe (view s)) ;;
  match shown with
  | None => ret tt
  | Some r =>
      try_catch
        (in_browser
           (PdfUtils.generateRecipePDF pageWidth pageHeight splitTextToSize
              parseInt toLocaleDateString unicode_lower float_to_string
              throws (details r)) ;;
         toast (success (lit "Receta exportada como PDF correctamente")))
        (fun error =>
           console_error (lit "Error exporting recipe:") error ;;
           toast (failure (lit "No se pudo exportar la receta a PDF")))
  end.

Lemma bind_gets {S A B'} (f : S -> A) (k : A -> M S B') s :
  (x <- gets f ;; k x) s = k (f s) s.
Proof. reflexivity. Qed.

(** X19. Exporting from the detail screen never rejects, not even when the
    constructor of the document throws. With no recipe shown nothing
    happens. Otherwise exactly one toast is shown: the success toast when
    one file, named after the recipe, has been handed to the user; else the
    toast 'No se pudo exportar la receta a PDF', no file, and the error
    caught logged last in the console. *)
Theorem handleExportPDF_settles s :
  let s' := snd (handleExportPDF s) in
  fst (handleExportPDF s) = Normal tt /\
  match recipe (view s) with
  | None => s' = s
  | Some r =>
      (toasts s'
       = toasts s
         ++ [success (lit "Receta exportada como PDF correctamente")] /\
       exists doc,
         PdfUtils.downloads (browser s')
         = PdfUtils.downloads (browser s)
           ++ [(PdfUtils.fileName unicode_lower (name (base r)), doc)]) \/
      (toasts s'
       = toasts s ++ [failure (lit "No se pudo exportar la receta a PDF")] /\
       PdfUtils.downloads (browser s') = PdfUtils.downloads (browser s) /\
       exists before e,
         PdfUtils.console (browser s')
         = before ++ [(lit "Error exporting recipe:", e)])
  end.
Proof.
  cbv zeta. unfold handleExportPDF. rewrite !bind_gets.
  destruct (recipe (view s)) as [r|]; [|cbn; auto].
  unfold try_catch, bind, in_browser.
  destruct (PdfUtils.generateRecipePDF _ _ _ _ _ _ _ _ _ (browser s))
    as [[[]|e] b] eqn:G.
  - apply PdfUtils.export_normal in G. destruct G as (w2 & _ & -> & _).
    cbn. split; [reflexivity|]. left. split; [reflexivity|].
    eexists. reflexivity.
  - apply PdfUtils.export_throw in G. destruct G as [Hd _].
    cbn. split; [reflexivity|]. right. split; [reflexivity|].
    split; [exact Hd|]. eexists. eexists. reflexivity.
Qed.

(** X20. Deleting from the detail screen never rejects and, once started,
    ends with [deleting] switched off. With no recipe shown nothing
    happens. Otherwise what it does is decided by the answers of the
    store: the deletion of the ingredients is requested first, the
    deletion of the instructions only when that one succeeded, the
    deletion of the recipe only when both succeeded. When all three
    succeed the success toast is shown and the list is navigated to. When
    one is rejected it is the last request made: the error is logged, the
    error toast is shown and the screen stays. *)
Theorem handleDelete_order s :
  let s' := snd (handleDelete s) in
  fst (handleDelete s) = Normal tt /\
  match recipe (view s) with
  | None => s' = s
  | Some r =>
      let l1 := log s ++ [IngredientsDelete (Store.id (base r))] in
      let l2 := l1 ++ [InstructionsDelete (Store.id (base r))] in
      let l3 := l2 ++ [RecipesDelete (Store.id (base r))] in
      let failed (requested : list request) (e : Js.error) :=
        log s' = requested /\
        toasts s'
        = toasts s ++ [failure (lit "No se pudo eliminar la receta")] /\
        navigations s' = navigations s /\
        PdfUtils.console (browser s')
        = PdfUtils.console (browser s)
          ++ [(lit "Error deleting recipe:", e)] in
      deleting (view s') = false /\
      recipe (view s') = Some r /\
      match delete B l1 with
      | Throw e => failed l1 e
      | Normal _ =>
          match delete B l2 with
          | Throw e => failed l2 e
          | Normal _ =>
              match delete B l3 with
              | Throw e => failed l3 e
              | Normal _ =>
                  log s' = l3 /\
                  toasts s'
                  = toasts s
                    ++ [success (lit "Receta eliminada correctamente")] /\
                  navigations s' = navigations s ++ [lit "/"] /\
                  PdfUtils.console (browser s')
                  = PdfUtils.console (browser s)
              end
          end
      end
  end.
Proof.
  cbv zeta. unfold handleDelete. rewrite !bind_gets.
  destruct (recipe (view s)) as [r|] eqn:Hr; [|cbn; auto].
  unfold try_catch_finally, try_catch, bind, call.
  cbn [setDeleting set_view modify fst snd log with_view with_log].
  set (rid := Store.id (base r)).
  destruct (delete B (log s ++ [IngredientsDelete rid])) as [[]|e1].
  - destruct (delete B ((log s ++ [IngredientsDelete rid])
                        ++ [InstructionsDelete rid])) as [[]|e2].
    + destruct (delete B (((log s ++ [IngredientsDelete rid])
                           ++ [InstructionsDelete rid])
                          ++ [RecipesDelete rid])) as [[]|e3];
        cbn; rewrite Hr; auto 10.
    + cbn. rewrite Hr. auto 10.
  - cbn. rewrite Hr. auto 10.
Qed.

(** X21. Loading the detail screen never rejects. Without a route
    identifier nothing is requested. When the store answers no recipe,
    only that one request is made, the toast 'Receta no encontrada' is
    shown, the list is navigated to and no recipe is shown; in every case
    a load that was started ends with [loading] switched off. *)
Theorem loadRecipe_not_found s :
  fst (loadRecipe s) = Normal tt /\
  (truthy_str id = false -> snd (loadRecipe s) = s) /\
  (forall rid,
     id = Some rid -> rid <> [] ->
     let s' := snd (loadRecipe s) in
     loading (view s') = false /\
     (list_recipes B (log s ++ [RecipesListById rid]) = Normal [] ->
      log s' = log s ++ [RecipesListById rid] /\
      toasts s' = toasts s ++ [failure (lit "Receta no encontrada")] /\
      navigations s' = navigations s ++ [lit "/"] /\
      recipe (view s') = recipe (view s))).
Proof.
  assert (Hfor : forall rid,
            fst (loadRecipe_for rid s) = Normal tt /\
            loading (view (snd (loadRecipe_for rid s))) = false).
  { intros rid.
    unfold loadRecipe_for, try_catch_finally, try_catch, bind, call.
    cbn [setLoading set_view modify fst snd log with_view with_log].
    destruct (list_recipes B _) as [[|recipeData rest]|e0]; cbn [fst snd];
      try (cbn; auto; fail).
    destruct (list_ingredients B _) as [ingredients|e1]; cbn [fst snd];
      try (cbn; auto; fail).
    destruct (list_units B _) as [units|e2]; cbn [fst snd];
      try (cbn; auto; fail).
    destruct (list_instructions B _) as [instructions|e3]; cbn; auto. }
  split; [|split].
  - unfold loadRecipe. destruct id as [[|c rid]|]; cbn [truthy_str];
      try reflexivity. apply Hfor.
  - intros H. unfold loadRecipe.
    destruct id as [[|c rid]|]; cbn [truthy_str] in *;
      try reflexivity. discriminate H.
  - intros rid Hid Hne. cbv zeta. unfold loadRecipe. rewrite Hid.
    destruct rid as [|c rid]; [contradiction|]. cbn [truthy_str].
    split; [apply Hfor|]. intros Hnone.
    unfold loadRecipe_for, try_catch_finally, try_catch, bind, call.
    cbn [setLoading set_view modify fst snd log with_view with_log].
    rewrite Hnone. cbn. auto.
Qed.

(** X22. When the store answers every request of a load, the recipe shown
    is the first row answered, with the ingredients answered joined with
    the units answered, in order, and the instructions answered, in order;
    recipe, ingredients, units and instructions are requested in this
    order and no toast is shown. *)
Theorem loadRecipe_found s rid recipeData rest ingredients units instructions :
  id = Some rid -> rid <> [] ->
  let l1 := log s ++ [RecipesListById rid] in
  let l2 := l1 ++ [IngredientsList rid] in
  let l3 := l2 ++ [UnitsList] in
  let l4 := l3 ++ [InstructionsList rid] in
  list_recipes B l1 = Normal (recipeData :: rest) ->
  list_ingredients B l2 = Normal ingredients ->
  list_units B l3 = Normal units ->
  list_instructions B l4 = Normal instructions ->
  let s' := snd (loadRecipe s) in
  recipe (view s')
  = Some {| base := recipeData;
            ingredients := map (withUnit units) ingredients;
            instructions := map to_instruction instructions |} /\
  log s' = l4 /\
  toasts s' = toasts s /\
  navigations s' = navigations s.
Proof.
  intros Hid Hne l1 l2 l3 l4 H1 H2 H3 H4. cbv zeta.
  unfold loadRecipe. rewrite Hid.
  destruct rid as [|c rid]; [contradiction|]. cbn [truthy_str].
  unfold loadRecipe_for, try_catch_finally, try_catch, bind, call.
  cbn [setLoading set_view modify fst snd log with_view with_log].
  fold l1. rewrite H1. cbn [fst snd log with_log with_view].
  fold l2. rewrite H2. cbn [fst snd log with_log with_view].
  fold l3. rewrite H3. cbn [fst snd log with_log with_view].
  fold l4. rewrite H4. cbn. auto.
Qed.

End Handlers.

End RecipeDetailScreen.

(* ===================================================================== *)
(** * Loading a recipe into the form ([RecipeForm], the effect) *)
(* ===================================================================== *)

Module RecipeFormLoad.

Import Js Eff Store.
Local Open Scope eff_scope.

Record state : Type := {
  loading : bool;
  form : RecipeForm.RecipeFormData
}.

(** The rows the form falls back to. *)
Definition blank_ingredient : RecipeForm.IngredientRow :=
  {| RecipeForm.ingredient := []; RecipeForm.quantity := Some 0%Q;
     RecipeForm.unit_id := Some []; RecipeForm.notes := Some [] |}.

Definition blank_instruction : RecipeForm.InstructionRow :=
  {| RecipeForm.step_number := 1%Q; RecipeForm.instruction := [] |}.

(** The values given to [form.reset]. *)
Definition reset_values (recipeData : Recipe)
    (ingredients : list RecipeForm.IngredientRow)
    (instructions : list RecipeForm.InstructionRow)
  : RecipeForm.RecipeFormData :=
  {| RecipeForm.name := name recipeData;
     RecipeForm.description := Some (str_or (description recipeData) []);
     RecipeForm.category := Some (str_or (category recipeData) []);
     RecipeForm.preparation_time :=
       Some (num_or (preparation_time recipeData) 0);
     RecipeForm.cooking_time := Some (num_or (cooking_time recipeData) 0);
     RecipeForm.difficulty :=
       Some (str_or (difficulty recipeData) (lit "easy"));
     RecipeForm.servings := Some (num_or (servings recipeData) 1);
     RecipeForm.ingredients :=
       match ingredients with
       | [] => [blank_ingredient]
       | _ :: _ => ingredients
       end;
     RecipeForm.instructions :=
       match instructions with
       | [] => [blank_instruction]
       | _ :: _ => instructions
       end |}.

(** [form.handleSubmit(onSubmit)] of a form made with
    [resolver: zodResolver(recipeSchema)]: the values of the form are
    validated first, and [onSubmit] is called, with these values, only
    when the schema accepts them; otherwise the errors are shown in the
    form and nothing else happens. *)
Definition handleSubmit (fails : RecipeForm.request -> RecipeForm.page
                                 -> option Js.error)
    (now : jsstring) (data : RecipeForm.RecipeFormData)
  : M RecipeForm.page unit :=
  if Validations.recipeSchema data
  then RecipeForm.onSubmit fails now data
  else ret tt.

(** Every optional field of the row is present. *)
Definition complete (row : RecipeForm.IngredientRow) : Prop :=
  RecipeForm.quantity row <> None /\
  RecipeForm.unit_id row <> None /\
  RecipeForm.notes row <> None.

Section Effect.

Variable B : backend.

(** The route parameter [id]. *)
Variable id : option jsstring.

Definition setLoading (b : bool) : M (screen state) unit :=
  set_view (fun v => {| loading := b; form := form v |}).

Definition form_reset (values : RecipeForm.RecipeFormData)
  : M (screen state) unit :=
  set_view (fun v => {| loading := loading v; form := values |}).

Definition loadRecipe_for (rid : jsstring) : M (screen state) unit :=
  try_catch_finally
    (setLoading true ;;
     recipe <- call (RecipesListById rid) (list_recipes B) ;;
     match recipe with
     | recipeData :: _ =>
         ingredients <- call (IngredientsList rid) (list_ingredients B) ;;
         instructions <- call (InstructionsList rid) (list_instructions B) ;;
         form_reset (reset_values recipeData ingredients instructions)
     | [] => ret tt
     end)
    (fun error =>
       console_error (lit "Error loading recipe:") error ;;
       toast (failure (lit "No se pudo cargar la receta")))
    (setLoading false).

(** The effect: [if (isEditing && id) { loadRecipe() }]. *)
Definition loadRecipe : M (screen state) unit :=
  match id with
  | Some rid => if truthy_str (Some rid) then loadRecipe_for rid else ret tt
  | None => ret tt
  end.

(** X23. When the store answers no recipe for the identifier of the route,
    the form is left as it was without a word: one request, no toast, no
    navigation, [loading] switched off. *)
Theorem form_load_not_found s rid :
  id = Some rid -> rid <> [] ->
  list_recipes B (log s ++ [RecipesListById rid]) = Normal [] ->
  loadRecipe s
  = (Normal tt,
     with_view (fun v => {| loading := false; form := form v |})
       (with_log (log s ++ [RecipesListById rid]) s)).
Proof.
  intros Hid Hne Hnone. unfold loadRecipe. rewrite Hid.
  destruct rid as [|c rid]; [contradiction|]. cbn [truthy_str].
  unfold loadRecipe_for, try_catch_finally, try_catch, bind, call.
  cbn [setLoading set_view modify fst snd log with_view with_log].
  rewrite Hnone. reflexivity.
Qed.

Lemma form_load_fills_rows_aux s rid recipeData rest ingredients
    instructions :
  id = Some rid -> rid <> [] ->
  list_recipes B (log s ++ [RecipesListById rid])
  = Normal (recipeData :: rest) ->
  list_ingredients B ((log s ++ [RecipesListById rid])
                      ++ [IngredientsList rid])
  = Normal ingredients ->
  list_instructions B (((log s ++ [RecipesListById rid])
                        ++ [IngredientsList rid])
                       ++ [InstructionsList rid])
  = Normal instructions ->
  form (view (snd (loadRecipe s)))
  = reset_values recipeData ingredients instructions /\
  (ingredients <> [] ->
   RecipeForm.ingredients (form (view (snd (loadRecipe s)))) = ingredients)
  /\
  (instructions <> [] ->
   RecipeForm.instructions (form (view (snd (loadRecipe s))))
   = instructions).
Proof.
  intros Hid Hne H1 H2 H3.
  assert (Hform : form (view (snd (loadRecipe s)))
                  = reset_values recipeData ingredients instructions).
  { unfold loadRecipe. rewrite Hid.
    destruct rid as [|c rid]; [contradiction|]. cbn [truthy_str].
    unfold loadRecipe_for, try_catch_finally, try_catch, bind, call.
    cbn [setLoading set_view modify fst snd log with_view with_log].
    rewrite H1. cbn [fst snd log with_log with_view].
    rewrite H2. cbn [fst snd log with_log with_view].
    rewrite H3. reflexivity. }
  rewrite Hform. split; [reflexivity|]. unfold reset_values. cbn.
  split.
  - destruct ingredients; [contradiction | reflexivity].
  - destruct instructions; [contradiction | reflexivity].
Qed.

(** X24. A form loaded from a recipe the store answered always has at
    least one ingredient row and one instruction row, the rows answered
    when there are some and a blank row otherwise, and no scalar field is
    missing: an absent description or category becomes the empty string, an
    absent difficulty 'easy'. *)
Theorem form_load_fills_rows s rid recipeData rest ingredients instructions :
  id = Some rid -> rid <> [] ->
  let l1 := log s ++ [RecipesListById rid] in
  let l2 := l1 ++ [IngredientsList rid] in
  let l3 := l2 ++ [InstructionsList rid] in
  list_recipes B l1 = Normal (recipeData :: rest) ->
  list_ingredients B l2 = Normal ingredients ->
  list_instructions B l3 = Normal instructions ->
  let data := form (view (snd (loadRecipe s))) in
  data = reset_values recipeData ingredients instructions /\
  RecipeForm.ingredients data <> [] /\
  RecipeForm.instructions data <> [] /\
  (ingredients <> [] -> RecipeForm.ingredients data = ingredients) /\
  (instructions <> [] -> RecipeForm.instructions data = instructions) /\
  (description recipeData = None -> RecipeForm.description data = Some []) /\
  (category recipeData = None -> RecipeForm.category data = Some []) /\
  (difficulty recipeData = None ->
   RecipeForm.difficulty data = Some (lit "easy")).
Proof.
  intros Hid Hne l1 l2 l3 H1 H2 H3. cbv zeta.
  assert (Hform : form (view (snd (loadRecipe s)))
                  = reset_values recipeData ingredients instructions).
  { unfold loadRecipe. rewrite Hid.
    destruct rid as [|c rid]; [contradiction|]. cbn [truthy_str].
    unfold loadRecipe_for, try_catch_finally, try_catch, bind, call.
    cbn [setLoading set_view modify fst snd log with_view with_log].
    fold l1. rewrite H1. cbn [fst snd log with_log with_view].
    fold l2. rewrite H2. cbn [fst snd log with_log with_view].
    fold l3. rewrite H3. reflexivity. }
  rewrite Hform. split; [reflexivity|]. unfold reset_values. cbn.
  split; [destruct ingredients; discriminate|].
  split; [destruct instructions; discriminate|].
  split; [destruct ingredients; [contradiction | reflexivity]|].
  split; [destruct instructions; [contradiction | reflexivity]|].
  split; [intros ->; reflexivity|].
  split; intros ->; reflexivity.
Qed.

Lemma filter_Forall {A} (f : A -> bool) l :
  Forall (fun x => f x = true) l -> filter f l = l.
Proof.
  induction 1 as [|x l Hx _ IH]; [reflexivity|].
  cbn. rewrite Hx, IH. reflexivity.
Qed.

Lemma schema_rows data :
  Validations.recipeSchema data = true ->
  forallb Validations.ingredientSchema (RecipeForm.ingredients data) = true
  /\
  forallb Validations.instructionSchema (RecipeForm.instructions data)
  = true.
Proof.
  unfold Validations.recipeSchema. rewrite !andb_true_iff. tauto.
Qed.

Lemma schema_times data :
  Validations.recipeSchema data = true ->
  Validations.optional_positive (RecipeForm.preparation_time data) = true /\
  Validations.optional_positive (RecipeForm.cooking_time data) = true.
Proof.
  unfold Validations.recipeSchema. rewrite !andb_true_iff. tauto.
Qed.

(** The form loaded from a stored recipe fails the schema when the recipe
    has no preparation or cooking time, or no rows. *)
Lemma loaded_form_rejected recipeData ingredients instructions :
  PdfUtils.falsy_num (preparation_time recipeData) \/
  PdfUtils.falsy_num (cooking_time recipeData) \/
  ingredients = [] \/ instructions = [] ->
  Validations.recipeSchema
    (reset_values recipeData ingredients instructions) = false.
Proof.
  intros H.
  destruct (Validations.recipeSchema _) eqn:E; [exfalso|reflexivity].
  destruct (schema_times _ E) as [Hp Hc].
  destruct (schema_rows _ E) as [Hi Hn].
  cbn [reset_values RecipeForm.preparation_time RecipeForm.cooking_time
       RecipeForm.ingredients RecipeForm.instructions] in Hp, Hc, Hi, Hn.
  destruct H as [H | [H | [-> | ->]]].
  - rewrite (PdfUtils.falsy_num_or _ _ H) in Hp. discriminate Hp.
  - rewrite (PdfUtils.falsy_num_or _ _ H) in Hc. discriminate Hc.
  - discriminate Hi.
  - discriminate Hn.
Qed.

(** X25. Loading a recipe and submitting the form unchanged goes through
    the validation of the form. When the recipe read has no preparation
    time or no cooking time (absent or 0), no ingredient or no
    instruction, the form loaded fails the schema and the submission
    requests nothing and shows nothing. When the schema accepts the form
    loaded, every optional field of the ingredients read is present, the
    texts read are not blank and no request fails, the submission writes
    back what was read: the update of the recipe, the two deletions, then
    the creation of each ingredient read, in order (an empty unit
    identifier sent as null), then of each instruction read, in order. *)
Theorem load_then_save s rid recipeData rest ingredients instructions
    now (w : RecipeForm.page) :
  id = Some rid -> rid <> [] ->
  let l1 := log s ++ [RecipesListById rid] in
  let l2 := l1 ++ [IngredientsList rid] in
  let l3 := l2 ++ [InstructionsList rid] in
  list_recipes B l1 = Normal (recipeData :: rest) ->
  list_ingredients B l2 = Normal ingredients ->
  list_instructions B l3 = Normal instructions ->
  RecipeForm.id w = Some rid ->
  let data := form (view (snd (loadRecipe s))) in
  let submitted := handleSubmit (fun _ _ => None) now data w in
  (PdfUtils.falsy_num (preparation_time recipeData) \/
   PdfUtils.falsy_num (cooking_time recipeData) \/
   ingredients = [] \/ instructions = [] ->
   submitted = (Normal tt, w)) /\
  (Validations.recipeSchema data = true ->
   Forall complete ingredients ->
   Forall (fun row => trim (RecipeForm.ingredient row) <> []) ingredients ->
   Forall (fun row => trim (RecipeForm.instruction row) <> [])
          instructions ->
   fst submitted = Normal tt /\
   RecipeForm.requests (snd submitted)
   = RecipeForm.requests w
     ++ [ RecipeForm.RecipesUpdate rid
            (RecipeForm.fields_of data (Some now) None);
          RecipeForm.IngredientsDelete rid;
          RecipeForm.InstructionsDelete rid ]
     ++ map (fun row =>
               RecipeForm.IngredientsCreate rid
                 (RecipeForm.ingredient_payload row)) ingredients
     ++ map (RecipeForm.InstructionsCreate rid) instructions /\
   RecipeForm.toasts (snd submitted)
   = RecipeForm.toasts w ++ [RecipeForm.success_toast true] /\
   RecipeForm.navigations (snd submitted)
   = RecipeForm.navigations w ++ [lit "/"]).
Proof.
  intros Hid Hne l1 l2 l3 H1 H2 H3 Hw. cbv zeta.
  destruct (@form_load_fills_rows_aux s rid recipeData rest ingredients
              instructions Hid Hne H1 H2 H3) as (Hdata & Hings & Hins).
  unfold handleSubmit. split.
  - intros Hbad. rewrite Hdata.
    rewrite (loaded_form_rejected _ Hbad). reflexivity.
  - intros Hok _ Hib Hnb. rewrite Hok.
    assert (Hi : ingredients <> []).
    { intros ->. rewrite Hdata in Hok.
      rewrite loaded_form_rejected in Hok by auto. discriminate Hok. }
    assert (Hn : instructions <> []).
    { intros ->. rewrite Hdata in Hok.
      rewrite loaded_form_rejected in Hok by auto. discriminate Hok. }
    specialize (Hings Hi). specialize (Hins Hn).
    destruct (@RecipeForm.onSubmit_update (fun _ _ => None) now
                (form (view (snd (loadRecipe s)))) rid w Hw Hne)
      as [H | (n & r & e & w0 & _ & _ & Hf & _)]; [|discriminate Hf].
    rewrite H. unfold RecipeForm.saved. cbn [fst snd RecipeForm.requests
      RecipeForm.toasts RecipeForm.navigations
      RecipeForm.with_loading RecipeForm.with_navigations
      RecipeForm.with_toasts RecipeForm.with_requests].
    split; [reflexivity|]. split; [|split; reflexivity].
    unfold RecipeForm.update_requests, RecipeForm.ingredient_requests,
      RecipeForm.instruction_requests.
    rewrite Hings, Hins.
    rewrite (filter_Forall (fun row => RecipeForm.nonblank
                                         (RecipeForm.ingredient row))
                           (l := ingredients)).
    2: { eapply Forall_impl; [|exact Hib]. cbn. intros a Ha.
         apply RecipeForm.nonblank_trim. exact Ha. }
    rewrite (filter_Forall (fun row => RecipeForm.nonblank
                                         (RecipeForm.instruction row))
                           (l := instructions)).
    2: { eapply Forall_impl; [|exact Hnb]. cbn. intros a Ha.
         apply RecipeForm.nonblank_trim. exact Ha. }
    reflexivity.
Qed.

End Effect.

End RecipeFormLoad.

(* ===================================================================== *)
(** * Concrete runs *)
(* ===================================================================== *)

Module Examples.

Import Js Eff Strings.
Local Open Scope Q_scope.

(** A library to run the export against: an A4 page in millimetres, text
    wrapped at its line feeds only, hexadecimal colours, a fixed date. *)
Definition pageWidth : Q := 210.
Definition pageHeight : Q := 297.

Fixpoint split_at_line_feeds (line s : jsstring) : list jsstring :=
  match s with
  | [] => [rev line]
  | c :: s' =>
      if (c =? 10)%N then rev line :: split_at_line_feeds [] s'
      else split_at_line_feeds (c :: line) s'
  end.

Definition splitTextToSize (_ : PdfUtils.jsPDF) (s : jsstring) (_ : Q)
  : list jsstring :=
  split_at_line_feeds [] s.

Definition hex_digit (c : code_unit) : Z :=
  if is_digit c then Z.of_N c - 48
  else if is_lower c then Z.of_N c - 87
  else Z.of_N c - 55.

Definition parseInt (s : jsstring) (radix : Q) : Q :=
  inject_Z (fold_left (fun n c => n * 16 + hex_digit c)%Z s 0%Z).

Definition toLocaleDateString (_ : jsstring) : jsstring := lit "2/11/2026".

(** Neither exercised below: the examples are ASCII and use integers. *)
Definition unicode_lower (s : jsstring) : jsstring := s.
Definition float_to_string (_ : Q) : jsstring := lit "NaN".

Definition never {C W : Type} (_ : C) (_ : W) : option Js.error := None.

(** The store of the browser is full: [pdf.save] throws. *)
Definition save_throws (c : PdfUtils.call) (_ : PdfUtils.env)
  : option Js.error :=
  match c with
  | PdfUtils.Save _ => Some (Error (lit "QuotaExceededError"))
  | _ => None
  end.

Definition start : PdfUtils.env :=
  {| PdfUtils.pdf := PdfUtils.blank; PdfUtils.currentY := 20;
     PdfUtils.console := []; PdfUtils.downloads := [] |}.

Definition manzana : Types.Ingredient :=
  {| Types.ingredient := lit "manzana"; Types.quantity := Some 3;
     Types.notes := None; Types.unit_ := None |}.

Definition harina : Types.Ingredient :=
  {| Types.ingredient := lit "harina"; Types.quantity := Some 250;
     Types.notes := Some (lit "tamizada");
     Types.unit_ := Some {| Types.unit_name := lit "g" |} |}.

Definition tarta : Types.RecipeWithDetails :=
  {| Types.name := lit "Tarta de Manzana";
     Types.description := None;
     Types.category := Some (lit "Postres");
     Types.preparation_time := Some 20;
     Types.cooking_time := Some 40;
     Types.difficulty := Some (lit "easy");
     Types.servings := None;
     Types.ingredients := [manzana];
     Types.instructions :=
       [ {| Types.step_number := 1;
            Types.instruction := lit "Hornear 40 minutos" |} ] |}.

(** A text of 61 lines: at 12 points it is 292.8 units tall, more than the
    257 units between the two margins of the page. *)
Definition sixty_one_lines : jsstring := repeat 10%N 60.

(** The end-to-end scenario of the specification. *)
Example tarta_export :
  let run :=
    PdfUtils.generateRecipePDF pageWidth pageHeight splitTextToSize parseInt
      toLocaleDateString unicode_lower float_to_string never tarta start in
  fst run = Normal tt /\
  PdfUtils.downloads (snd run)
  = [(lit "tarta_de_manzana.pdf", PdfUtils.pdf (snd run))] /\
  PdfUtils.numberOfPages (PdfUtils.pdf (snd run)) = 1%nat /\
  PdfUtils.currentY (snd run) == 190.8 /\
  In (PdfUtils.Lines [bullet ++ lit " 3  manzana"])
     (map (fun g => match g with
                    | PdfUtils.TextAt _ t _ _ _ _ _ => t
                    | PdfUtils.LineAt _ _ _ _ _ _ => PdfUtils.Str []
                    end) (PdfUtils.content (PdfUtils.pdf (snd run)))).
Proof.
  cbv zeta.
  split; [vm_compute; reflexivity|]. split; [vm_compute; reflexivity|].
  split; [vm_compute; reflexivity|]. split; [vm_compute; reflexivity|].
  vm_compute. tauto.
Qed.

(** C2, as stated, fails: one call of [addText] with a text of 61 lines
    completes, and the block it emits, moved to the top of a new page,
    ends at 312.8, below [pageHeight - margin] = 277. *)
Lemma tall_block_crosses_limit :
  exists w' g,
    PdfUtils.addText_all pageWidth pageHeight splitTextToSize parseInt never
      [(sixty_one_lines, 12, false, lit "#000000")] start
    = (Normal tt, w') /\
    PdfUtils.content (PdfUtils.pdf w') = [g] /\
    PdfUtils.top g = PdfUtils.margin /\
    pageHeight - PdfUtils.margin < PdfUtils.bottom g.
Proof.
  eexists. eexists. split; [vm_compute; reflexivity|].
  split; [reflexivity|]. split; [reflexivity|]. vm_compute. reflexivity.
Qed.

(** ** The theorems at concrete inputs *)

Definition two_calls : list PdfUtils.text_call :=
  [ (lit "Tarta de Manzana", 24, true, lit "#f97316");
    (sixty_one_lines, 12, false, lit "#666666") ].

Lemma addText_page_break_witness :
  let run :=
    PdfUtils.addText_all pageWidth pageHeight splitTextToSize parseInt never
      two_calls start in
  exists blocks,
    PdfUtils.content (PdfUtils.pdf (snd run))
    = PdfUtils.content (PdfUtils.pdf start) ++ blocks /\
    List.length blocks = List.length two_calls /\
    Forall (fun g => PdfUtils.bottom g <= pageHeight - PdfUtils.margin \/
                     PdfUtils.top g = PdfUtils.margin) blocks /\
    Forall (fun g => PdfUtils.top g <= pageHeight - PdfUtils.margin) blocks.
Proof.
  cbv zeta.
  assert (Hrun : PdfUtils.addText_all pageWidth pageHeight splitTextToSize
                   parseInt never two_calls start
                 = (Normal tt,
                    snd (PdfUtils.addText_all pageWidth pageHeight
                           splitTextToSize parseInt never two_calls start)))
    by (vm_compute; reflexivity).
  destruct (proj1 (@PdfUtils.addText_page_break pageWidth pageHeight
                     splitTextToSize parseInt never) _ _ _ Hrun)
    as (blocks & Hc & Hl & Hall & Htops).
  exists blocks. split; [exact Hc|]. split; [exact Hl|].
  split; [exact Hall|]. apply Htops.
  - repeat constructor; cbn; discriminate.
  - vm_compute. discriminate.
Defined.

(** The table starts at 261: two rows fit above 277, the third does not. *)
Definition low : PdfUtils.env :=
  {| PdfUtils.pdf := PdfUtils.blank; PdfUtils.currentY := 261;
     PdfUtils.console := []; PdfUtils.downloads := [] |}.

Lemma table_overflow_witness :
  let run :=
    PdfUtils.draw_table pageWidth pageHeight float_to_string never
      tarta low in
  fst run = Normal tt /\
  exists drawn,
    (drawn <= 2)%nat /\
    PdfUtils.numberOfPages (PdfUtils.pdf (snd run)) = (1 + (5 - drawn))%nat.
Proof.
  cbv zeta. split; [vm_compute; reflexivity|].
  assert (Hrun : PdfUtils.draw_table pageWidth pageHeight float_to_string
                   never tarta low
                 = (Normal tt,
                    snd (PdfUtils.draw_table pageWidth pageHeight
                           float_to_string never tarta low)))
    by (vm_compute; reflexivity).
  assert (Hk : (2 < List.length (PdfUtils.infoData float_to_string tarta))%nat)
    by (vm_compute; repeat constructor).
  assert (Ho : pageHeight - PdfUtils.margin
               < PdfUtils.currentY low
                 + of_nat 2 * PdfUtils.rowHeight + PdfUtils.rowHeight)
    by (vm_compute; reflexivity).
  destruct (@PdfUtils.table_overflow_skips_rows pageWidth pageHeight
              float_to_string never tarta low _ 2%nat
              Hrun Hk Ho) as (drawn & Hle & _ & Hn & _).
  exists drawn. split; [exact Hle | exact Hn].
Defined.

Lemma export_failure_witness :
  let run :=
    PdfUtils.generateRecipePDF pageWidth pageHeight splitTextToSize parseInt
      toLocaleDateString unicode_lower float_to_string save_throws
      tarta start in
  fst run = Throw (Error (lit "No se pudo generar el PDF")) /\
  PdfUtils.downloads (snd run) = [].
Proof.
  cbv zeta. split; [vm_compute; reflexivity|].
  assert (Hrun : PdfUtils.generateRecipePDF pageWidth pageHeight
                   splitTextToSize parseInt toLocaleDateString unicode_lower
                   float_to_string save_throws tarta start
                 = (Throw (Error (lit "No se pudo generar el PDF")),
                    snd (PdfUtils.generateRecipePDF pageWidth pageHeight
                           splitTextToSize parseInt toLocaleDateString
                           unicode_lower float_to_string save_throws
                           tarta start)))
    by (vm_compute; reflexivity).
  destruct (@PdfUtils.export_failure_is_generic pageWidth pageHeight
              splitTextToSize parseInt toLocaleDateString unicode_lower
              float_to_string save_throws tarta start _ _ eq_refl Hrun)
    as (_ & Hd & _).
  exact Hd.
Defined.

Lemma infoData_rows_witness :
  map fst (PdfUtils.infoData float_to_string tarta)
  = [ Tiempo_de_Preparacion; Tiempo_de_Coccion; lit "Porciones:";
      lit "Dificultad:"; Categoria ].
Proof.
  rewrite (proj2 (proj2 (PdfUtils.infoData_rows float_to_string tarta))
             (lit "Postres") eq_refl).
  - reflexivity.
  - discriminate.
Defined.

Lemma ingredient_line_witness :
  PdfUtils.ingredientText float_to_string harina
  = bullet ++ lit " 250 g harina (tamizada)".
Proof.
  rewrite (proj1 (proj2 (@PdfUtils.ingredient_line_format pageWidth
                           pageHeight splitTextToSize parseInt
                           toLocaleDateString unicode_lower float_to_string
                           never))
             harina 250 {| Types.unit_name := lit "g" |} (lit "tamizada")
             eq_refl).
  - reflexivity.
  - intros H. vm_compute in H. discriminate H.
  - reflexivity.
  - discriminate.
  - reflexivity.
  - discriminate.
Defined.

Lemma difficulty_witness :
  PdfUtils.getDifficultyText (Some (lit "extreme")) = No_especificado.
Proof.
  apply (proj1 (proj2 (proj2 (proj2 Difficulty.getDifficultyText_total))));
    discriminate.
Defined.

Lemma footer_position_witness :
  let run :=
    PdfUtils.generateRecipePDF pageWidth pageHeight splitTextToSize parseInt
      toLocaleDateString unicode_lower float_to_string never tarta start in
  exists doc,
    PdfUtils.downloads (snd run) = [(lit "tarta_de_manzana.pdf", doc)].
Proof.
  cbv zeta.
  assert (Hrun : PdfUtils.generateRecipePDF pageWidth pageHeight
                   splitTextToSize parseInt toLocaleDateString unicode_lower
                   float_to_string never tarta start
                 = (Normal tt,
                    snd (PdfUtils.generateRecipePDF pageWidth pageHeight
                           splitTextToSize parseInt toLocaleDateString
                           unicode_lower float_to_string never tarta start)))
    by (vm_compute; reflexivity).
  destruct (proj1 (proj2 (@PdfUtils.footer_position pageWidth pageHeight
                            splitTextToSize parseInt toLocaleDateString
                            unicode_lower float_to_string never))
              tarta start _ Hrun) as (w1 & doc & _ & Hd & _).
  exists doc. exact Hd.
Defined.

(** Editing the recipe [r1]: of two ingredient rows and two instruction
    rows, one of each is blank. *)
Definition form_page : RecipeForm.page :=
  {| RecipeForm.id := Some (lit "r1"); RecipeForm.loading := false;
     RecipeForm.requests := []; RecipeForm.toasts := [];
     RecipeForm.navigations := []; RecipeForm.console := [] |}.

Definition form_data : RecipeForm.RecipeFormData :=
  {| RecipeForm.name := lit "Tarta de Manzana";
     RecipeForm.description := Some [];
     RecipeForm.category := Some [];
     RecipeForm.preparation_time := Some 20;
     RecipeForm.cooking_time := Some 40;
     RecipeForm.difficulty := Some (lit "easy");
     RecipeForm.servings := Some 1;
     RecipeForm.ingredients :=
       [ {| RecipeForm.ingredient := lit "manzana";
            RecipeForm.quantity := Some 3;
            RecipeForm.unit_id := Some [];
            RecipeForm.notes := Some [] |};
         {| RecipeForm.ingredient := lit "   ";
            RecipeForm.quantity := Some 0;
            RecipeForm.unit_id := Some [];
            RecipeForm.notes := Some [] |} ];
     RecipeForm.instructions :=
       [ {| RecipeForm.step_number := 1;
            RecipeForm.instruction := lit "Hornear 40 minutos" |};
         {| RecipeForm.step_number := 2;
            RecipeForm.instruction := [9%N; 32%N] |} ] |}.

Definition timestamp : jsstring := lit "2026-11-02T10:44:00.000Z".

Lemma save_existing_witness :
  exists n,
    RecipeForm.requests
      (snd (RecipeForm.onSubmit never timestamp form_data form_page))
    = firstn n
        [ RecipeForm.RecipesUpdate (lit "r1")
            (RecipeForm.fields_of form_data (Some timestamp) None);
          RecipeForm.IngredientsDelete (lit "r1");
          RecipeForm.InstructionsDelete (lit "r1");
          RecipeForm.IngredientsCreate (lit "r1")
            {| RecipeForm.ingredient := lit "manzana";
               RecipeForm.quantity := Some 3;
               RecipeForm.unit_id := None;
               RecipeForm.notes := Some [] |};
          RecipeForm.InstructionsCreate (lit "r1")
            {| RecipeForm.step_number := 1;
               RecipeForm.instruction := lit "Hornear 40 minutos" |} ] /\
    n = 5%nat.
Proof.
  assert (Hne : lit "r1" <> []) by discriminate.
  destruct (@RecipeForm.save_existing_is_sequential never timestamp
              form_data (lit "r1") form_page eq_refl Hne)
    as (n & Hreq & _ & Hall).
  exists n. split; [exact Hreq|].
  exact (Hall (fun _ _ => eq_refl)).
Defined.

Lemma only_nonblank_witness :
  exists issued,
    RecipeForm.requests
      (snd (RecipeForm.onSubmit never timestamp form_data form_page))
    = issued /\
    List.length issued = 5%nat.
Proof.
  assert (Hne : lit "r1" <> []) by discriminate.
  destruct (RecipeForm.only_nonblank_rows_created never timestamp
              form_data form_page) as (issued & Hreq & _ & _ & Hall).
  exists issued. split; [exact Hreq|].
  rewrite (Hall (lit "r1") eq_refl Hne (fun _ _ => eq_refl)). reflexivity.
Defined.

(** ** The further properties at concrete inputs *)

(** The cursor is at 270: a rule does not fit above 277 any more. *)
Definition bottom_of_page : PdfUtils.env :=
  {| PdfUtils.pdf := PdfUtils.blank; PdfUtils.currentY := 270;
     PdfUtils.console := []; PdfUtils.downloads := [] |}.

Lemma separator_fits_witness :
  exists y,
    y + 10 <= pageHeight - PdfUtils.margin /\
    PdfUtils.currentY
      (snd (PdfUtils.addSeparator pageWidth pageHeight never bottom_of_page))
    = y + 15.
Proof.
  assert (Hrun : PdfUtils.addSeparator pageWidth pageHeight never
                   bottom_of_page
                 = (Normal tt,
                    snd (PdfUtils.addSeparator pageWidth pageHeight never
                           bottom_of_page)))
    by (vm_compute; reflexivity).
  assert (Hpage : PdfUtils.margin * 2 + 10 <= pageHeight)
    by (vm_compute; discriminate).
  destruct (@PdfUtils.separator_fits pageWidth pageHeight never
              bottom_of_page _ Hrun Hpage) as (y & _ & Hy & Hc & _).
  exists y. split; [exact Hy | exact Hc].
Defined.

Lemma table_fits_witness :
  PdfUtils.numberOfPages
    (PdfUtils.pdf
       (snd (PdfUtils.draw_table pageWidth pageHeight float_to_string never
               tarta start)))
  = 1%nat.
Proof.
  assert (Hrun : PdfUtils.draw_table pageWidth pageHeight float_to_string
                   never tarta start
                 = (Normal tt,
                    snd (PdfUtils.draw_table pageWidth pageHeight
                           float_to_string never tarta start)))
    by (vm_compute; reflexivity).
  assert (Hlast : PdfUtils.currentY start
                  + of_nat (List.length
                              (PdfUtils.infoData float_to_string tarta))
                    * PdfUtils.rowHeight
                  <= pageHeight - PdfUtils.margin)
    by (vm_compute; discriminate).
  destruct (@PdfUtils.table_fits pageWidth pageHeight float_to_string never
              tarta start _ Hrun Hlast) as [_ Hn].
  exact Hn.
Defined.

Lemma cursor_after_table_witness :
  PdfUtils.currentY
    (snd (PdfUtils.draw_table pageWidth pageHeight float_to_string never
            tarta low))
  = PdfUtils.currentY low
    + of_nat (List.length (PdfUtils.infoData float_to_string tarta))
      * PdfUtils.rowHeight + 15.
Proof.
  assert (Hrun : PdfUtils.draw_table pageWidth pageHeight float_to_string
                   never tarta low
                 = (Normal tt,
                    snd (PdfUtils.draw_table pageWidth pageHeight
                           float_to_string never tarta low)))
    by (vm_compute; reflexivity).
  exact (proj1 (@PdfUtils.cursor_after_table pageWidth pageHeight
                  float_to_string never tarta low _ Hrun)).
Defined.


(** The row the form starts with, once named: its quantity is 0. *)
Definition sal : Types.Ingredient :=
  {| Types.ingredient := lit "sal"; Types.quantity := Some 0;
     Types.notes := None; Types.unit_ := None |}.

Lemma zero_quantity_witness :
  PdfUtils.ingredientText float_to_string sal = bullet ++ lit "  sal".
Proof.
  rewrite (@PdfUtils.zero_quantity_omitted float_to_string sal 0 eq_refl).
  - reflexivity.
  - reflexivity.
Defined.

(** The document cannot be created. *)
Definition constructor_throws (c : PdfUtils.call) (_ : PdfUtils.env)
  : option Js.error :=
  match c with
  | PdfUtils.NewJsPDF => Some (Error (lit "jsPDF is not a constructor"))
  | _ => None
  end.

Lemma constructor_failure_witness :
  PdfUtils.generateRecipePDF pageWidth pageHeight splitTextToSize parseInt
    toLocaleDateString unicode_lower float_to_string constructor_throws
    tarta start
  = (Throw (Error (lit "jsPDF is not a constructor")), start).
Proof.
  apply PdfUtils.constructor_failure. reflexivity.
Defined.

Definition new_page : RecipeForm.page :=
  {| RecipeForm.id := None; RecipeForm.loading := false;
     RecipeForm.requests := []; RecipeForm.toasts := [];
     RecipeForm.navigations := []; RecipeForm.console := [] |}.

Lemma new_recipe_witness :
  RecipeForm.requests
    (snd (RecipeForm.onSubmit never timestamp form_data new_page))
  = [RecipeForm.RecipesCreate
       (RecipeForm.fields_of form_data None (Some true))].
Proof.
  exact (proj1 (@RecipeForm.new_recipe_rows_never_created never timestamp
                  form_data new_page eq_refl)).
Defined.

Definition three_steps : list RecipeForm.InstructionRow :=
  [ {| RecipeForm.step_number := 1; RecipeForm.instruction := lit "Pelar" |};
    {| RecipeForm.step_number := 2; RecipeForm.instruction := lit "Cortar" |};
    {| RecipeForm.step_number := 3; RecipeForm.instruction := lit "Hornear" |} ].

Lemma three_steps_numbered : RecipeForm.well_numbered three_steps.
Proof.
  intros [|[|[|i]]] row H; cbn in H; inversion H; subst;
    try reflexivity.
  destruct i; discriminate.
Defined.

Lemma remove_then_add_witness :
  exists a b,
    nth_error (RecipeForm.addInstruction (RecipeForm.remove 0 three_steps)) 1
    = Some a /\
    nth_error (RecipeForm.addInstruction (RecipeForm.remove 0 three_steps)) 2
    = Some b /\
    RecipeForm.step_number a = of_nat 3 /\
    RecipeForm.step_number b = of_nat 3.
Proof.
  apply (@RecipeForm.remove_then_add_repeats_a_number three_steps 0
           three_steps_numbered).
  cbn. lia.
Defined.

(** A store that holds one recipe, with one ingredient in grams. *)
Definition stored_tarta : Store.Recipe :=
  {| Store.id := lit "r1"; Store.name := lit "Tarta de Manzana";
     Store.description := None; Store.category := Some (lit "Postres");
     Store.preparation_time := Some 20; Store.cooking_time := Some 40;
     Store.difficulty := None; Store.servings := None |}.

Definition stored_harina : RecipeForm.IngredientRow :=
  {| RecipeForm.ingredient := lit "harina";
     RecipeForm.quantity := Some 250;
     RecipeForm.unit_id := Some (lit "u1");
     RecipeForm.notes := None |}.

Definition stored_step : RecipeForm.InstructionRow :=
  {| RecipeForm.step_number := 1;
     RecipeForm.instruction := lit "Hornear 40 minutos" |}.

Definition grams : Store.StoredUnit :=
  {| Store.u_id := lit "u1"; Store.u_name := lit "g" |}.

Definition full_store : Store.backend :=
  {| Store.list_recipes := fun _ => Normal [stored_tarta];
     Store.list_ingredients := fun _ => Normal [stored_harina];
     Store.list_units := fun _ => Normal [grams];
     Store.list_instructions := fun _ => Normal [stored_step];
     Store.delete := fun _ => Normal tt |}.

Definition empty_store : Store.backend :=
  {| Store.list_recipes := fun _ => Normal [];
     Store.list_ingredients := fun _ => Normal [];
     Store.list_units := fun _ => Normal [];
     Store.list_instructions := fun _ => Normal [];
     Store.delete := fun _ => Normal tt |}.

Definition detail_start : Store.screen RecipeDetailScreen.state :=
  {| Store.view := {| RecipeDetailScreen.recipe := None;
                      RecipeDetailScreen.loading := true;
                      RecipeDetailScreen.deleting := false |};
     Store.log := []; Store.toasts := []; Store.navigations := [];
     Store.browser := start |}.

Definition harina_g : Types.Ingredient :=
  {| Types.ingredient := lit "harina"; Types.quantity := Some 250;
     Types.notes := None;
     Types.unit_ := Some {| Types.unit_name := lit "g" |} |}.

Lemma loadRecipe_found_witness :
  RecipeDetailScreen.recipe
    (Store.view
       (snd (RecipeDetailScreen.loadRecipe full_store (Some (lit "r1"))
               detail_start)))
  = Some {| RecipeDetailScreen.base := stored_tarta;
            RecipeDetailScreen.ingredients := [harina_g];
            RecipeDetailScreen.instructions :=
              [ {| Types.step_number := 1;
                   Types.instruction := lit "Hornear 40 minutos" |} ] |}.
Proof.
  assert (Hne : lit "r1" <> []) by discriminate.
  exact (proj1 (@RecipeDetailScreen.loadRecipe_found full_store
                  (Some (lit "r1")) detail_start (lit "r1") stored_tarta []
                  [stored_harina] [grams] [stored_step]
                  eq_refl Hne eq_refl eq_refl eq_refl eq_refl)).
Defined.

Definition form_start : Store.screen RecipeFormLoad.state :=
  {| Store.view := {| RecipeFormLoad.loading := false;
                      RecipeFormLoad.form := form_data |};
     Store.log := []; Store.toasts := []; Store.navigations := [];
     Store.browser := start |}.

Lemma form_load_not_found_witness :
  Store.toasts
    (snd (RecipeFormLoad.loadRecipe empty_store (Some (lit "r1")) form_start))
  = [] /\
  RecipeFormLoad.form
    (Store.view
       (snd (RecipeFormLoad.loadRecipe empty_store (Some (lit "r1"))
               form_start)))
  = form_data.
Proof.
  assert (Hne : lit "r1" <> []) by discriminate.
  rewrite (@RecipeFormLoad.form_load_not_found empty_store (Some (lit "r1"))
             form_start (lit "r1") eq_refl Hne eq_refl).
  split; reflexivity.
Defined.

Lemma form_load_fills_rows_witness :
  RecipeForm.instructions
    (RecipeFormLoad.form
       (Store.view
          (snd (RecipeFormLoad.loadRecipe full_store (Some (lit "r1"))
                  form_start))))
  = [stored_step].
Proof.
  assert (Hne : lit "r1" <> []) by discriminate.
  assert (Hsome : [stored_step] <> []) by discriminate.
  destruct (@RecipeFormLoad.form_load_fills_rows full_store
              (Some (lit "r1")) form_start (lit "r1") stored_tarta []
              [stored_harina] [stored_step]
              eq_refl Hne eq_refl eq_refl eq_refl)
    as (_ & _ & _ & _ & Hins & _).
  exact (Hins Hsome).
Defined.

(** A store whose ingredient rows have every column filled in. *)
Definition stored_manzana : RecipeForm.IngredientRow :=
  {| RecipeForm.ingredient := lit "manzana";
     RecipeForm.quantity := Some 3;
     RecipeForm.unit_id := Some (lit "u1");
     RecipeForm.notes := Some [] |}.

Definition tidy_store : Store.backend :=
  {| Store.list_recipes := fun _ => Normal [stored_tarta];
     Store.list_ingredients := fun _ => Normal [stored_manzana];
     Store.list_units := fun _ => Normal [grams];
     Store.list_instructions := fun _ => Normal [stored_step];
     Store.delete := fun _ => Normal tt |}.

Lemma load_then_save_witness :
  List.length
    (RecipeForm.requests
       (snd (RecipeFormLoad.handleSubmit (fun _ _ => None) timestamp
               (RecipeFormLoad.form
                  (Store.view
                     (snd (RecipeFormLoad.loadRecipe tidy_store
                             (Some (lit "r1")) form_start))))
               form_page)))
  = 5%nat.
Proof.
  assert (Hne : lit "r1" <> []) by discriminate.
  assert (Hok : Validations.recipeSchema
                  (RecipeFormLoad.form
                     (Store.view
                        (snd (RecipeFormLoad.loadRecipe tidy_store
                                (Some (lit "r1")) form_start))))
                = true)
    by (vm_compute; reflexivity).
  assert (Hall : Forall RecipeFormLoad.complete [stored_manzana])
    by (repeat constructor; discriminate).
  assert (Hib : Forall (fun row => trim (RecipeForm.ingredient row) <> [])
                       [stored_manzana])
    by (repeat constructor; vm_compute; discriminate).
  assert (Hnb : Forall (fun row => trim (RecipeForm.instruction row) <> [])
                       [stored_step])
    by (repeat constructor; vm_compute; discriminate).
  destruct (proj2 (@RecipeFormLoad.load_then_save tidy_store
                     (Some (lit "r1")) form_start (lit "r1") stored_tarta
                     [] [stored_manzana] [stored_step] timestamp form_page
                     eq_refl Hne eq_refl eq_refl eq_refl eq_refl)
              Hok Hall Hib Hnb) as (_ & Hr & _).
  rewrite Hr. reflexivity.
Defined.

Lemma withUnit_join_witness :
  Types.unit_ (Store.withUnit [grams] stored_harina)
  = Some {| Types.unit_name := lit "g" |}.
Proof.
  apply (proj2 (proj2 (proj2 (Store.withUnit_join [grams]))) stored_harina
           grams).
  - repeat constructor. intros [].
  - left. reflexivity.
  - discriminate.
  - reflexivity.
Defined.

Lemma infoData_defaults_witness :
  nth_error (PdfUtils.infoData float_to_string tarta) 2
  = Some (lit "Porciones:", lit "1").
Proof.
  apply (proj1 (PdfUtils.infoData_defaults float_to_string tarta)).
  exact I.
Defined.

Lemma addInstruction_numbers_witness :
  RecipeForm.well_numbered (RecipeForm.addInstruction three_steps).
Proof.
  apply (proj1 (proj2 RecipeForm.addInstruction_numbers) three_steps).
  exact three_steps_numbered.
Defined.

Lemma search_witness :
  In stored_tarta
     (RecipeListScreen.filteredRecipes unicode_lower [stored_tarta]
        (lit "MANZANA")).
Proof.
  apply (proj2 (RecipeListScreen.search_ignores_ascii_case unicode_lower)
           [stored_tarta] stored_tarta (lit "MANZANA")
           (lit "Tarta de ") (lit "Manzana") []).
  - left. reflexivity.
  - reflexivity.
  - reflexivity.
  - reflexivity.
  - reflexivity.
Defined.

Lemma detail_not_found_witness :
  Store.toasts
    (snd (RecipeDetailScreen.loadRecipe empty_store (Some (lit "r1"))
            detail_start))
  = [Store.failure (lit "Receta no encontrada")].
Proof.
  assert (Hne : lit "r1" <> []) by discriminate.
  destruct (proj2 (proj2 (RecipeDetailScreen.loadRecipe_not_found empty_store
                            (Some (lit "r1")) detail_start))
              (lit "r1") eq_refl Hne) as [_ H].
  destruct (H eq_refl) as (_ & Ht & _).
  exact Ht.
Defined.

(** The form as it is first shown, with a name typed in. *)
Definition named_only : RecipeForm.RecipeFormData :=
  {| RecipeForm.name := lit "Tarta de Manzana";
     RecipeForm.description := Some [];
     RecipeForm.category := Some [];
     RecipeForm.preparation_time := Some 0;
     RecipeForm.cooking_time := Some 0;
     RecipeForm.difficulty := Some (lit "easy");
     RecipeForm.servings := Some 1;
     RecipeForm.ingredients := RecipeForm.addIngredient [];
     RecipeForm.instructions := RecipeForm.addInstruction [] |}.

Lemma untouched_form_witness : Validations.recipeSchema named_only = false.
Proof.
  apply (proj1 (Validations.untouched_form_rejected named_only) []).
  reflexivity.
Defined.

End Examples.
